(** * The data and aggregation layer of the KOBIS daily box-office dashboard

    The dashboard script [src/app.py] loads a table of daily box-office
    records, normalises its date column and answers a fixed set of queries
    (column projection, null ratios, top-10 rankings, a date-range time
    series and a per-movie series).  Every query is a chain of dataframe
    calls.  This development embeds those chains as functions over lists of
    records: [Module Pandas] gives the meaning of the dataframe calls the
    script makes, [Module App] is the script itself, statement by statement,
    and the theorems that follow settle the properties stated of it. *)

From Stdlib Require Import ZArith QArith Qabs List String Ascii Bool Arith Lia.
From Stdlib Require Import Permutation Sorting.Sorted.
Import ListNotations.

Local Open Scope Z_scope.
Local Open Scope string_scope.

(** ** Dates and records *)

(** A calendar date, as the [dt] column holds it after loading: the script
    only ever compares dates, groups by them and shows them, so a date is its
    year, month and day.  [datetime64] values of the column are at midnight,
    so their order is the lexicographic order of (year, month, day). *)
Record Date : Type := mkDate { year : Z; month : Z; day : Z }.

(** Modelled from the spec: the schema of the table, which is that of the
    parquet files and appears nowhere in the script.  One row of the table
    has the fields of the data model with its nullability: the two
    categorical columns are nullable, the date is null when its raw value
    failed to parse, names and measures are not nullable.  The type of the
    date column is a parameter: [string] before [load_data] converts it,
    [option Date] afterwards. *)
Record Row (D : Type) : Type := mkRow {
  dt : D;
  movieCd : string;
  movieNm : string;
  audiCnt : Z;
  salesAmt : Z;
  audiAcc : Z;
  multiMovieYn : option string;
  repNationCd : option string;
  rank : Z
}.

Arguments mkRow {D}.
Arguments dt {D}.
Arguments movieCd {D}.
Arguments movieNm {D}.
Arguments audiCnt {D}.
Arguments salesAmt {D}.
Arguments audiAcc {D}.
Arguments multiMovieYn {D}.
Arguments repNationCd {D}.
Arguments rank {D}.

(** The table as the parquet reader delivers it, and as [load_data] returns
    it. *)
Definition RawFrame : Type := list (Row string).
Definition DataFrame : Type := list (Row (option Date)).

(** ** Orders on grouping keys *)

(** [groupby] sorts its group keys, so every key type comes with the
    three-way comparison the library sorts by. *)
Class KeyOrder (K : Type) : Type := { kcmp : K -> K -> comparison }.

Definition keqb {K} `{KeyOrder K} (a b : K) : bool :=
  match kcmp a b with Eq => true | _ => false end.

Definition kltb {K} `{KeyOrder K} (a b : K) : bool :=
  match kcmp a b with Lt => true | _ => false end.

(** Lexicographic combination, for keys made of several columns. *)
Definition lex (c1 c2 : comparison) : comparison :=
  match c1 with Eq => c2 | _ => c1 end.

#[export] Instance Z_order : KeyOrder Z := {| kcmp := Z.compare |}.

(** Python orders [str] by code point, which on UTF-8 text is the order of
    the bytes. *)
#[export] Instance string_order : KeyOrder string := {| kcmp := String.compare |}.

Definition date_compare (a b : Date) : comparison :=
  lex (Z.compare (year a) (year b))
      (lex (Z.compare (month a) (month b)) (Z.compare (day a) (day b))).

#[export] Instance date_order : KeyOrder Date := {| kcmp := date_compare |}.

#[export] Instance pair_order {A B} `{KeyOrder A} `{KeyOrder B} : KeyOrder (A * B) :=
  {| kcmp := fun x y => lex (kcmp (fst x) (fst y)) (kcmp (snd x) (snd y)) |}.

(** The laws a comparison has to satisfy for the sorted, duplicate-free key
    list of a [groupby] to be determined by the set of keys. *)
Definition klt {K} `{KeyOrder K} (a b : K) : Prop := kcmp a b = Lt.

Class KeyOrderLaws (K : Type) `{KeyOrder K} : Prop := {
  kcmp_eq : forall a b : K, kcmp a b = Eq <-> a = b;
  kcmp_antisym : forall a b : K, kcmp a b = CompOpp (kcmp b a);
  kcmp_trans : forall a b c : K, kcmp a b = Lt -> kcmp b c = Lt -> kcmp a c = Lt
}.

(** ** The dataframe operations the script calls *)

Module Pandas.

(** [Series.unique()]: the distinct values, in order of first appearance. *)
Fixpoint unique_acc (seen : list string) (l : list string) : list string :=
  match l with
  | [] => []
  | x :: l' =>
      if existsb (String.eqb x) seen then unique_acc seen l'
      else x :: unique_acc (x :: seen) l'
  end.

Definition unique (l : list string) : list string := unique_acc [] l.

(** [DataFrame.head(n)] and [Series.head(n)]: the first [n] rows. *)
Definition head {A} (n : nat) (l : list A) : list A := firstn n l.

(** The group keys of [groupby(...)] with its defaults [sort=True] and
    [dropna=True]: the distinct keys in ascending order.  [key_insert] puts
    a key at its place in a sorted duplicate-free list. *)
Fixpoint key_insert {K} `{KeyOrder K} (k : K) (l : list K) : list K :=
  match l with
  | [] => [k]
  | x :: l' =>
      match kcmp k x with
      | Lt => k :: x :: l'
      | Eq => x :: l'
      | Gt => x :: key_insert k l'
      end
  end.

Definition group_keys {K} `{KeyOrder K} (ks : list K) : list K :=
  fold_right key_insert [] ks.

(** The non-null keys of a column: [dropna=True] leaves a row out of every
    group when its key (any component of it) is null. *)
Fixpoint dropna {A} (l : list (option A)) : list A :=
  match l with
  | [] => []
  | Some a :: l' => a :: dropna l'
  | None :: l' => dropna l'
  end.

(** [notna()] on a key column. *)
Definition notna {K R} (key : R -> option K) (r : R) : bool :=
  match key r with Some _ => true | None => false end.

Definition has_key {K R} `{KeyOrder K} (key : R -> option K) (k : K) (r : R) : bool :=
  match key r with
  | Some k' => keqb k' k
  | None => false
  end.

(** [df.groupby(key)]: one group per distinct non-null key, in ascending key
    order; a group holds its rows in the order of the table. *)
Definition groupby {K R} `{KeyOrder K} (key : R -> option K) (df : list R)
  : list (K * list R) :=
  map (fun k => (k, filter (has_key key k) df)) (group_keys (dropna (map key df))).

(** [.sum()] over a column of integers.  The script fixes no width for the
    measures, so they are the integers of the data model. *)
Definition sum (l : list Z) : Z := fold_right Z.add 0 l.

(** [.isna()] on a nullable column. *)
Definition isna {A} (col : list (option A)) : list bool :=
  map (fun v => match v with None => true | Some _ => false end) col.

Definition count_true (l : list bool) : nat := List.length (filter (fun b => b) l).

(** *** Division in [float64]

    A finite [float64] is a rational number, and the quotient of two of them
    is the exact quotient rounded to the nearest number with a significand
    of 53 bits, a tie going to the even significand (IEEE 754 binary64,
    round to nearest even).  A number is kept here as the rational it
    denotes.  The exponent is not bounded: quotients of row counts are far
    from the ends of its range. *)

(** The integer nearest to [a/b], for [b > 0]; the even one on a tie. *)
Definition round_half_even (a b : Z) : Z :=
  let q := a / b in
  let r := a mod b in
  match Z.compare (2 * r) b with
  | Lt => q
  | Gt => q + 1
  | Eq => if Z.even q then q else q + 1
  end.

(** [a/b] multiplied by [2^p], as a fraction. *)
Definition scaled (a b p : Z) : Z * Z :=
  if Z.leb 0 p then (a * 2 ^ p, b) else (a, b * 2 ^ (- p)).

(** The shift [p] that brings [a/b] between [2^52] and [2^53], for positive
    [a] and [b]: minus the exponent of the result. *)
Definition binade_shift (a b : Z) : Z :=
  let p0 := 52 + Z.log2 b - Z.log2 a in
  let (n, d) := scaled a b p0 in
  if Z.leb (2 ^ 52 * d) n then p0 else p0 + 1.

Definition float64_pos (a b : Z) : Q :=
  let p := binade_shift a b in
  let (n, d) := scaled a b p in
  let m := round_half_even n d in
  Qred (if Z.leb 0 p then m # Z.to_pos (2 ^ p) else inject_Z (m * 2 ^ (- p))).

(** The [float64] nearest to a rational. *)
Definition float64 (x : Q) : Q :=
  match Qnum x with
  | Z0 => 0%Q
  | Zpos a => float64_pos (Zpos a) (Zpos (Qden x))
  | Zneg a => Qopp (float64_pos (Zpos a) (Zpos (Qden x)))
  end.

(** [.mean()] of a boolean column: NaN (here [None]) on an empty column and
    otherwise the number of [True] divided by the number of rows, in
    [float64].  Both counts are numbers of [float64] as long as the column
    has fewer than [2^53] rows; a longer column is beyond any table in
    memory, and its quotient is left unrounded. *)
Definition mean_bool (l : list bool) : option Q :=
  match l with
  | [] => None
  | _ :: _ =>
      let quotient := Z.of_nat (count_true l) # Pos.of_nat (List.length l) in
      Some (if Z.ltb (Z.of_nat (List.length l)) (2 ^ 53)
            then float64 quotient else quotient)
  end.

(** Indexing by a list of positions, [a[indexer]].  numpy raises on a
    position outside the array; the indexers built below are permutations of
    the positions of [a], and a position outside contributes nothing here. *)
Definition take {A} (a : list A) (indexer : list nat) : list A :=
  flat_map (fun i => match nth_error a i with Some x => [x] | None => [] end) indexer.

(** numpy's [argsort] with the default [kind='quicksort']: the positions of
    the array in an order that sorts it.  Which of two positions holding
    equal values comes first is left open by the library and depends on its
    version and on the machine, so the routine is a parameter with the
    contract numpy documents: the result is a permutation of the positions
    and reads the values in ascending order.  Nothing below is stated about
    the order of equal values under one particular routine. *)
Record ArgSort : Type := mkArgSort {
  argsort : list Z -> list nat;
  argsort_perm : forall a, Permutation (argsort a) (seq 0 (List.length a));
  argsort_sorted : forall a, StronglySorted Z.le (take a (argsort a))
}.

(** [nargsort(items, ascending=False)] on values without NaN: the values and
    their positions are reversed, sorted ascending, and the resulting indexer
    is reversed. *)
Definition nargsort_desc (A : ArgSort) (items : list Z) : list nat :=
  let idx := seq 0 (List.length items) in
  let non_nans := rev items in
  let non_nan_idx := rev idx in
  rev (take non_nan_idx (argsort A non_nans)).

(** [Series.sort_values(ascending=False)]: a series is its index labels
    paired with its values; both are taken in the order of the indexer. *)
Definition sort_values_desc {K} (A : ArgSort) (s : list (K * Z)) : list (K * Z) :=
  take s (nargsort_desc A (map snd s)).

(** *** [to_datetime(..., format='%Y%m%d', errors='coerce')]

    Each value is turned into text and matched against the pattern the
    library builds for the format (its [array_strptime], as of version 2):
    [%Y] is [\d\d\d\d], [%m] is [1[0-2]|0[1-9]|[1-9]] and [%d] is
    [3[0-1]|[1-2]\d|0[1-9]|[1-9]| [1-9]], alternatives tried from the left.
    The match has to end where the text ends, the three numbers have to form
    a calendar date, and the date has to fit the timestamp type. *)

Definition code (c : ascii) : Z := Z.of_N (N_of_ascii c).

Definition class (lo hi : Z) (c : ascii) : bool :=
  Z.leb lo (code c) && Z.leb (code c) hi.

(** The value of a decimal digit; ["0"] has code 48. *)
Definition digit_value (c : ascii) : Z := code c - 48.

Definition first_of {X} (alternatives : list (option X)) : option X :=
  fold_right (fun a rest => match a with Some x => Some x | None => rest end)
             None alternatives.

(** [[lo1-hi1][lo2-hi2]], read as a two-digit number. *)
Definition two (lo1 hi1 lo2 hi2 : Z) (s : list ascii) : option (Z * list ascii) :=
  match s with
  | c1 :: c2 :: rest =>
      if class lo1 hi1 c1 && class lo2 hi2 c2
      then Some (10 * digit_value c1 + digit_value c2, rest)
      else None
  | _ => None
  end.

(** [[lo-hi]], one digit. *)
Definition one (lo hi : Z) (s : list ascii) : option (Z * list ascii) :=
  match s with
  | c1 :: rest => if class lo hi c1 then Some (digit_value c1, rest) else None
  | _ => None
  end.

(** [ [1-9]]: a blank (code 32) and one digit. *)
Definition blank_one (s : list ascii) : option (Z * list ascii) :=
  match s with
  | c1 :: c2 :: rest =>
      if class 32 32 c1 && class 49 57 c2 then Some (digit_value c2, rest) else None
  | _ => None
  end.

Definition match_Y (s : list ascii) : option (Z * list ascii) :=
  match s with
  | c1 :: c2 :: c3 :: c4 :: rest =>
      if class 48 57 c1 && class 48 57 c2 && class 48 57 c3 && class 48 57 c4
      then Some (1000 * digit_value c1 + 100 * digit_value c2
                 + 10 * digit_value c3 + digit_value c4, rest)
      else None
  | _ => None
  end.

Definition match_d (s : list ascii) : option (Z * list ascii) :=
  first_of [ two 51 51 48 49 s; two 49 50 48 57 s; two 48 48 49 57 s;
             one 49 57 s; blank_one s ].

(** A month alternative is kept only if a day can be matched after it;
    otherwise the matcher backtracks to the next alternative. *)
Definition then_d (m : option (Z * list ascii)) : option (Z * Z * list ascii) :=
  match m with
  | Some (mm, rest) =>
      match match_d rest with
      | Some (dd, rest') => Some (mm, dd, rest')
      | None => None
      end
  | None => None
  end.

Definition match_md (s : list ascii) : option (Z * Z * list ascii) :=
  first_of [ then_d (two 49 49 48 50 s); then_d (two 48 48 49 57 s);
             then_d (one 49 57 s) ].

Definition regex_match (s : list ascii) : option (Date * list ascii) :=
  match match_Y s with
  | Some (y, rest) =>
      match match_md rest with
      | Some (m, d, rest') => Some (mkDate y m d, rest')
      | None => None
      end
  | None => None
  end.

(** The calendar: the months of a year and the days of a month. *)
Definition is_leap (y : Z) : bool :=
  Z.eqb (y mod 4) 0 && (negb (Z.eqb (y mod 100) 0) || Z.eqb (y mod 400) 0).

Definition days_in_month (y m : Z) : Z :=
  if Z.eqb m 2 then (if is_leap y then 29 else 28)
  else if Z.eqb m 4 || Z.eqb m 6 || Z.eqb m 9 || Z.eqb m 11 then 30
  else 31.

(** The month is a month of the year and the day a day of that month.  The
    pattern gives a year from 0 to 9999; which of these years the library
    takes is not fixed here (see [in_bounds]). *)
Definition valid_date (d : Date) : bool :=
  Z.leb 1 (month d) && Z.leb (month d) 12 &&
  Z.leb 1 (day d) && Z.leb (day d) (days_in_month (year d) (month d)).

Inductive ParseError : Type :=
  | NoMatch            (* "time data doesn't match format" *)
  | UnconvertedData    (* "unconverted data remains" *)
  | DayOutOfRange      (* no such month, or no such day in the month *)
  | OutOfBounds.       (* the library does not hold the date *)

(** The literals the library resolves against the clock before it tries the
    format. *)
Definition clock_literal (raw : string) : bool :=
  String.eqb raw "now" || String.eqb raw "today".

(** Text is read byte by byte.  The pattern's [\d] also accepts the decimal
    digits outside ASCII, which take several bytes each; the statements
    about nulls are for ASCII text. *)
Definition ascii_text (raw : string) : bool :=
  forallb (fun c => Z.ltb (code c) 128) (list_ascii_of_string raw).

(** Parsing a value against the format, the path every value other than a
    clock literal takes.  Which calendar dates the library holds depends on
    its version: on the resolution of the timestamp type, and on whether
    year 0, which [datetime.date] refuses, is taken.  This is the parameter
    [in_bounds]. *)
Definition strptime (in_bounds : Date -> bool) (raw : string) : Date + ParseError :=
  match regex_match (list_ascii_of_string raw) with
  | None => inr NoMatch
  | Some (d, []) =>
      if valid_date d then (if in_bounds d then inl d else inr OutOfBounds)
      else inr DayOutOfRange
  | Some (_, _ :: _) => inr UnconvertedData
  end.

(** What the conversion makes of one raw value.  A clock literal is not
    parsed: it becomes the time at which the script runs, a time of day and
    not a date of the data.  With [errors='coerce'] a value that fails to
    parse becomes null. *)
Inductive Converted : Type :=
  | Stamp (d : Date)
  | RunTime
  | NaT.

Definition convert (in_bounds : Date -> bool) (raw : string) : Converted :=
  if clock_literal raw then RunTime
  else match strptime in_bounds raw with
       | inl d => Stamp d
       | inr _ => NaT
       end.

(** The date a raw value puts in the date column.  The column of this
    development holds dates and nulls; a run time is neither, and a raw
    column that holds a clock literal is left out of the statements on what
    is parsed and what becomes null, where [to_datetime] has no date for
    it. *)
Definition to_datetime (in_bounds : Date -> bool) (raw : string) : option Date :=
  match convert in_bounds raw with
  | Stamp d => Some d
  | RunTime => None
  | NaT => None
  end.

(** [Series.min()] and [Series.max()] on a date column: nulls are skipped,
    and the result is null when no date is left. *)
Definition date_min (a b : Date) : Date :=
  match date_compare a b with Gt => b | _ => a end.

Definition date_max (a b : Date) : Date :=
  match date_compare a b with Lt => b | _ => a end.

Definition series_min (col : list (option Date)) : option Date :=
  match dropna col with
  | [] => None
  | d :: ds => Some (fold_left date_min ds d)
  end.

Definition series_max (col : list (option Date)) : option Date :=
  match dropna col with
  | [] => None
  | d :: ds => Some (fold_left date_max ds d)
  end.

(** The dates at midnight that nanosecond timestamps hold. *)
Definition ns_bounds (d : Date) : bool :=
  match date_compare (mkDate 1677 9 22) d, date_compare d (mkDate 2262 4 11) with
  | Gt, _ => false
  | _, Gt => false
  | _, _ => true
  end.

End Pandas.

(** ** The script *)

Module App.

(** Lines 12-19, after the parquet reader: the [dt] column is replaced by
    its parsed dates, every other column is kept. *)
Definition load_data (in_bounds : Date -> bool) (raw : RawFrame) : DataFrame :=
  map (fun r => mkRow (Pandas.to_datetime in_bounds (dt r)) (movieCd r) (movieNm r)
                  (audiCnt r) (salesAmt r) (audiAcc r) (multiMovieYn r)
                  (repNationCd r) (rank r))
      raw.

(** Line 27. *)
Definition default_columns : list string :=
  ["dt"; "movieCd"; "audiAcc"; "multiMovieYn"; "repNationCd"; "rank"; "movieNm"].

(** Lines 40-44, for any default list: an empty list is falsy in Python. *)
Definition column_projection (selected default : list string) : list string :=
  match selected with
  | [] => default
  | _ :: _ => selected
  end.

Definition display_columns (selected_columns : list string) : list string :=
  column_projection selected_columns default_columns.

(** Lines 53-54. *)
Definition multiMovieYn_null_ratio (df : DataFrame) : option Q :=
  Pandas.mean_bool (Pandas.isna (map multiMovieYn df)).

Definition repNationCd_null_ratio (df : DataFrame) : option Q :=
  Pandas.mean_bool (Pandas.isna (map repNationCd df)).

(** Lines 60-63: one row per date with the two null ratios of that date. *)
Record NullRatioRow : Type := mkNullRatioRow {
  nr_dt : Date;
  nr_multiMovieYn : option Q;
  nr_repNationCd : option Q
}.

Definition null_ratios (df : DataFrame) : list NullRatioRow :=
  map (fun g => mkNullRatioRow (fst g)
                  (Pandas.mean_bool (Pandas.isna (map multiMovieYn (snd g))))
                  (Pandas.mean_bool (Pandas.isna (map repNationCd (snd g)))))
      (Pandas.groupby dt df).

(** Lines 79 and 92: [df.groupby('movieNm')[measure].sum()], sorted by the
    sum in descending order, first ten rows.  [reset_index] turns the index
    into a column and changes no row. *)
Definition groupby_sum (measure : Row (option Date) -> Z) (df : DataFrame)
  : list (string * Z) :=
  map (fun g => (fst g, Pandas.sum (map measure (snd g))))
      (Pandas.groupby (fun r => Some (movieNm r)) df).

Definition top_n (A : Pandas.ArgSort) (measure : Row (option Date) -> Z) (df : DataFrame)
  : list (string * Z) :=
  Pandas.head 10 (Pandas.sort_values_desc A (groupby_sum measure df)).

Definition top_sales (A : Pandas.ArgSort) (df : DataFrame) : list (string * Z) :=
  top_n A salesAmt df.

Definition top_audience (A : Pandas.ArgSort) (df : DataFrame) : list (string * Z) :=
  top_n A audiCnt df.

(** Line 107: the value the date input starts from, and returns as long as
    the user leaves it alone: the earliest and the latest date of the
    table. *)
Definition default_date_range (df : DataFrame) : list (option Date) :=
  [Pandas.series_min (map dt df); Pandas.series_max (map dt df)].

(** Line 113: both comparisons are false on a null date. *)
Definition date_leb (a b : Date) : bool :=
  match date_compare a b with Gt => false | _ => true end.

Definition in_range (start_date end_date : Date) (v : option Date) : bool :=
  match v with
  | Some d => date_leb start_date d && date_leb d end_date
  | None => false
  end.

Definition filtered_df (df : DataFrame) (start_date end_date : Date) : DataFrame :=
  filter (fun r => in_range start_date end_date (dt r)) df.

(** Line 116: the audience summed per (date, multi-theater flag, nation
    code). *)
Record AudienceRow : Type := mkAudienceRow {
  a_dt : Date;
  a_multiMovieYn : string;
  a_repNationCd : string;
  a_audiCnt : Z
}.

Definition audience_key (r : Row (option Date)) : option (Date * string * string) :=
  match dt r, multiMovieYn r, repNationCd r with
  | Some d, Some m, Some n => Some (d, m, n)
  | _, _, _ => None
  end.

Definition audience_of (df : DataFrame) : list AudienceRow :=
  map (fun g => mkAudienceRow (fst (fst (fst g))) (snd (fst (fst g))) (snd (fst g))
                  (Pandas.sum (map audiCnt (snd g))))
      (Pandas.groupby audience_key df).

Definition audience_data (df : DataFrame) (start_date end_date : Date) : list AudienceRow :=
  audience_of (filtered_df df start_date end_date).

(** Lines 109-116: the section runs only when the date input holds both
    endpoints. *)
Definition audience_section (df : DataFrame) (date_range : list Date)
  : option (list AudienceRow) :=
  match date_range with
  | [start_date; end_date] => Some (audience_data df start_date end_date)
  | _ => None
  end.

(** Line 146: the options of the movie select box. *)
Definition movie_names (df : DataFrame) : list string :=
  Pandas.unique (map movieNm df).

(** Python's truth value of a [str]: false exactly for the empty string. *)
Definition truthy (s : string) : bool := negb (String.eqb s "").

(** Lines 148-150.  The rows of the chosen movie, cut down to three
    columns; nothing is extracted when the name is falsy. *)
Record SeriesRow : Type := mkSeriesRow {
  s_dt : option Date;
  s_audiCnt : Z;
  s_salesAmt : Z
}.

Definition series_row (r : Row (option Date)) : SeriesRow :=
  mkSeriesRow (dt r) (audiCnt r) (salesAmt r).

Definition movie_rows (df : DataFrame) (movie_name : string) : list SeriesRow :=
  map series_row (filter (fun r => String.eqb (movieNm r) movie_name) df).

Definition movie_data (df : DataFrame) (movie_name : string) : option (list SeriesRow) :=
  if truthy movie_name then Some (movie_rows df movie_name) else None.

(** *** Columns, the preview and the widgets *)

Inductive Cell : Type :=
  | CDate (v : option Date)
  | CText (v : option string)
  | CInt (v : Z).

(** Line 30, for the columns of the data model. *)
Definition all_columns : list string :=
  ["dt"; "movieCd"; "movieNm"; "audiCnt"; "salesAmt"; "audiAcc";
   "multiMovieYn"; "repNationCd"; "rank"].

(** [df[name]] on one row; a name that is not a column raises [KeyError]. *)
Definition column (name : string) (r : Row (option Date)) : option Cell :=
  if String.eqb name "dt" then Some (CDate (dt r))
  else if String.eqb name "movieCd" then Some (CText (Some (movieCd r)))
  else if String.eqb name "movieNm" then Some (CText (Some (movieNm r)))
  else if String.eqb name "audiCnt" then Some (CInt (audiCnt r))
  else if String.eqb name "salesAmt" then Some (CInt (salesAmt r))
  else if String.eqb name "audiAcc" then Some (CInt (audiAcc r))
  else if String.eqb name "multiMovieYn" then Some (CText (multiMovieYn r))
  else if String.eqb name "repNationCd" then Some (CText (repNationCd r))
  else if String.eqb name "rank" then Some (CInt (rank r))
  else None.

Fixpoint sequence {X} (l : list (option X)) : option (list X) :=
  match l with
  | [] => Some []
  | Some x :: l' => option_map (cons x) (sequence l')
  | None :: _ => None
  end.

(** Line 48: [df[display_columns].head()]. *)
Definition preview (cols : list string) (df : DataFrame) : option (list (list Cell)) :=
  if forallb (fun name => existsb (String.eqb name) all_columns) cols
  then sequence (map (fun r => sequence (map (fun name => column name r) cols))
                     (Pandas.head 5 df))
  else None.

(** What the widgets return in one run: the multiselect, the date input and
    the position chosen in the select box (which returns one of its options,
    and [None] when there is none). *)
Record Widgets : Type := mkWidgets {
  selected_columns : list string;
  date_range : list Date;
  movie_index : nat
}.

Definition selectbox (options : list string) (index : nat) : option string :=
  nth_error options index.

(** *** The script as a sequence of statements

    A table is an object.  A variable holds a reference to it, two
    variables may hold the same reference, and a statement [x[col] = ...]
    changes the object [x] refers to, for whoever refers to it.
    [load_data] reads a table and converts its date column in place (line
    18).  After [df = load_data()] the script is a sequence of assignments,
    some of them under an [if].  [df[columns]], [df[mask]], [.head()],
    [groupby(...)...reset_index()] and [.copy()] return new tables;
    [.mean()] and the widgets return values that are no tables.  A statement
    that raises ends the run. *)

Inductive Obj : Type :=
  | ORaw (raw : RawFrame)                 (* the table as read, its dates as text *)
  | OFrame (frame : DataFrame)
  | OTable (rows : list (list Cell))
  | ONullRatios (rows : list NullRatioRow)
  | ORanking (rows : list (string * Z))
  | OAudience (rows : list AudienceRow)
  | OSeries (rows : list SeriesRow).

Inductive Value : Type :=
  | VRef (loc : nat)                      (* a table, by the place of its object *)
  | VColumns (cols : list string)
  | VRatio (q : option Q)
  | VDates (dates : list Date)
  | VName (name : option string).

Definition Heap : Type := list Obj.

Record State : Type := mkState {
  env : string -> option Value;
  heap : Heap
}.

Definition initial : State := mkState (fun _ => None) [].

Definition bind (x : string) (v : Value) (e : string -> option Value)
  : string -> option Value :=
  fun y => if String.eqb y x then Some v else e y.

(** The object a variable refers to. *)
Definition deref (st : State) (x : string) : option Obj :=
  match env st x with
  | Some (VRef loc) => nth_error (heap st) loc
  | _ => None
  end.

(** Replacing the object at a place of the heap. *)
Fixpoint store (loc : nat) (o : Obj) (h : Heap) : Heap :=
  match h, loc with
  | [], _ => []
  | _ :: h', O => o :: h'
  | x :: h', S loc' => x :: store loc' o h'
  end.

(** The three forms of statement: [x = e] where [e] is a value that is not
    a new table (it may be a reference already held), [x = e] where [e]
    returns a new table, and [x[col] = e], which updates in place the table
    [x] refers to. *)
Inductive Stmt : Type :=
  | Assign (guard : State -> bool) (target : string) (expr : State -> option Value)
  | New (guard : State -> bool) (target : string) (expr : State -> option Obj)
  | SetItem (target : string) (update : Obj -> option Obj).

(** One statement; [None] when it raises. *)
Definition step (s : Stmt) (st : State) : option State :=
  match s with
  | Assign guard x expr =>
      if guard st then
        match expr st with
        | Some v => Some (mkState (bind x v (env st)) (heap st))
        | None => None
        end
      else Some st
  | New guard x expr =>
      if guard st then
        match expr st with
        | Some o =>
            Some (mkState (bind x (VRef (List.length (heap st))) (env st))
                          (heap st ++ [o])%list)
        | None => None
        end
      else Some st
  | SetItem x update =>
      match env st x with
      | Some (VRef loc) =>
          match nth_error (heap st) loc with
          | Some o =>
              match update o with
              | Some o' => Some (mkState (env st) (store loc o' (heap st)))
              | None => None
              end
          | None => None
          end
      | _ => None
      end
  end.

Fixpoint exec (stmts : list Stmt) (st : State) : State :=
  match stmts with
  | [] => st
  | s :: rest =>
      match step s st with
      | Some st' => exec rest st'
      | None => st
      end
  end.

Definition always (_ : State) : bool := true.

(** The table [df] refers to. *)
Definition frame (st : State) : option DataFrame :=
  match deref st "df" with
  | Some (OFrame df) => Some df
  | _ => None
  end.

Definition on_df {X} (f : DataFrame -> option X) (st : State) : option X :=
  match frame st with
  | Some df => f df
  | None => None
  end.

(** Line 18, [df['dt'] = pd.to_datetime(df['dt'], ...)], on the object: the
    date column of the raw table is replaced by its conversion; a column of
    dates is returned as it is. *)
Definition parse_dt (in_bounds : Date -> bool) (o : Obj) : option Obj :=
  match o with
  | ORaw raw => Some (OFrame (load_data in_bounds raw))
  | OFrame df => Some (OFrame df)
  | _ => None
  end.

(** Lines 16-21, [raw] being the table read from the files: the table is
    made, converted in place, and returned under the name [df]. *)
Definition load_data_body (in_bounds : Date -> bool) (raw : RawFrame) : list Stmt :=
  [ New always "df" (fun _ => Some (ORaw raw));
    SetItem "df" (parse_dt in_bounds) ].

(** Line 109. *)
Definition two_dates (st : State) : bool :=
  match env st "date_range" with
  | Some (VDates dates) => Nat.eqb (List.length dates) 2
  | _ => false
  end.

(** Line 148. *)
Definition movie_chosen (st : State) : bool :=
  match env st "movie_name" with
  | Some (VName (Some name)) => truthy name
  | _ => false
  end.

(** Line 107: the date input is built with the earliest and the latest date
    of the table as its value, and raises when they are null (no row has a
    date); otherwise it returns what the user has set. *)
Definition date_input (w : Widgets) (df : DataFrame) : option Value :=
  match default_date_range df with
  | [Some _; Some _] => Some (VDates (date_range w))
  | _ => None
  end.

(** Lines 40-150, the statements that bind a variable; the argument of
    [st.dataframe] on line 48 is kept under the name [_preview]. *)
Definition script (A : Pandas.ArgSort) (w : Widgets) : list Stmt :=
  [ Assign always "display_columns"
      (fun _ => Some (VColumns (display_columns (selected_columns w))));
    New always "_preview"
      (fun st => match env st "display_columns" with
                 | Some (VColumns cols) =>
                     on_df (fun df => option_map OTable (preview cols df)) st
                 | _ => None
                 end);
    Assign always "multiMovieYn_null_ratio"
      (on_df (fun df => Some (VRatio (multiMovieYn_null_ratio df))));
    Assign always "repNationCd_null_ratio"
      (on_df (fun df => Some (VRatio (repNationCd_null_ratio df))));
    New always "null_ratios"
      (on_df (fun df => Some (ONullRatios (null_ratios df))));
    New always "top_sales"
      (on_df (fun df => Some (ORanking (top_sales A df))));
    New always "top_audience"
      (on_df (fun df => Some (ORanking (top_audience A df))));
    Assign always "date_range" (on_df (date_input w));
    New two_dates "filtered_df"
      (fun st => match env st "date_range" with
                 | Some (VDates [start_date; end_date]) =>
                     on_df (fun df => Some (OFrame (filtered_df df start_date end_date))) st
                 | _ => None
                 end);
    New two_dates "audience_data"
      (fun st => match deref st "filtered_df" with
                 | Some (OFrame filtered) => Some (OAudience (audience_of filtered))
                 | _ => None
                 end);
    Assign always "movie_name"
      (on_df (fun df => Some (VName (selectbox (movie_names df) (movie_index w)))));
    New movie_chosen "movie_data"
      (fun st => match env st "movie_name" with
                 | Some (VName (Some name)) =>
                     on_df (fun df => Some (OSeries (movie_rows df name))) st
                 | _ => None
                 end) ].

(** Line 21 and the state it leaves. *)
Definition loaded (in_bounds : Date -> bool) (raw : RawFrame) : State :=
  exec (load_data_body in_bounds raw) initial.

End App.

(** ** Vocabulary of the properties *)

(** Ascending date order of a column of dates: no date is followed, anywhere
    later, by an earlier one.  Null dates are left unconstrained. *)
Definition dt_le (a b : option Date) : Prop :=
  match a, b with
  | Some x, Some y => App.date_leb x y = true
  | _, _ => True
  end.

Definition ascending_dates (col : list (option Date)) : Prop :=
  StronglySorted dt_le col.

(** The number [k] of null values of a column among some rows, and the
    fraction [k/n]. *)
Definition null_count {A} (col : Row (option Date) -> option A) (rows : DataFrame) : nat :=
  List.length (filter (fun r => match col r with None => true | Some _ => false end) rows).

Definition fraction (k n : nat) : Q :=
  (inject_Z (Z.of_nat k) / inject_Z (Z.of_nat n))%Q.

(** The rows of a table that carry a given date. *)
Definition date_eqb (a b : Date) : bool :=
  Z.eqb (year a) (year b) && Z.eqb (month a) (month b) && Z.eqb (day a) (day b).

Definition on_date (d : Date) (r : Row (option Date)) : bool :=
  match dt r with Some d' => date_eqb d' d | None => false end.

Definition rows_on (d : Date) (df : DataFrame) : DataFrame := filter (on_date d) df.

(** The rows that carry a given (date, flag, nation) combination, and the
    rows whose flag and nation are both present. *)
Definition audience_match (d : Date) (m n : string) (r : Row (option Date)) : bool :=
  match dt r, multiMovieYn r, repNationCd r with
  | Some d', Some m', Some n' => date_eqb d' d && String.eqb m' m && String.eqb n' n
  | _, _, _ => false
  end.

Definition has_date (r : Row (option Date)) : bool :=
  match dt r with Some _ => true | None => false end.

Definition has_flag_and_nation (r : Row (option Date)) : bool :=
  match multiMovieYn r, repNationCd r with
  | Some _, Some _ => true
  | _, _ => false
  end.

(** The rows of a movie, and descending order of a ranking by its sums. *)
Definition rows_of_movie (name : string) (df : DataFrame) : DataFrame :=
  filter (fun r => String.eqb (movieNm r) name) df.

(** The rows with a name the script takes for a choice (a non-empty one),
    and the number of rows of the series the script extracts for an option
    of the select box: none when the option is the empty name. *)
Definition named (r : Row (option Date)) : bool := App.truthy (movieNm r).

Definition series_length (df : DataFrame) (name : string) : nat :=
  match App.movie_data df name with
  | Some rows => List.length rows
  | None => 0%nat
  end.

Definition descending (ranking : list (string * Z)) : Prop :=
  StronglySorted (fun x y => snd x >= snd y) ranking.

(** A sort that meets the contract of [Pandas.ArgSort], written here to
    show that the contract can be met and to evaluate the definitions on
    sample tables.  It is an insertion sort and stands for no routine of the
    library: on equal values numpy may answer in another order, and no
    statement below relies on the order this one gives them. *)
Fixpoint insert_position (a : list Z) (i : nat) (placed : list nat) : list nat :=
  match placed with
  | [] => [i]
  | j :: rest =>
      if Z.ltb (nth i a 0) (nth j a 0) then i :: j :: rest
      else j :: insert_position a i rest
  end.

Definition insertion_argsort (a : list Z) : list nat :=
  fold_left (fun placed i => insert_position a i placed) (seq 0 (List.length a)) [].

(** Order of first appearance: the position at which a name first occurs in
    the name column, and the requirement that rows of a ranking with equal
    sums follow that order. *)
Fixpoint first_pos (name : string) (col : list string) : nat :=
  match col with
  | [] => 0
  | x :: col' => if String.eqb x name then 0 else S (first_pos name col')
  end.

Definition ties_by_first_appearance (df : DataFrame) (ranking : list (string * Z)) : Prop :=
  forall i j a b v,
    (i < j)%nat ->
    nth_error ranking i = Some (a, v) ->
    nth_error ranking j = Some (b, v) ->
    (first_pos a (map movieNm df) < first_pos b (map movieNm df))%nat.

(** Modelled from the spec: formatting a date back to YYYYMMDD, which the
    script itself never does: four digits of the year, two of the month, two
    of the day. *)
Definition digit_char (k : Z) : ascii := ascii_of_N (Z.to_N (48 + k)).

Definition digits2 (n : Z) : list ascii := [digit_char (n / 10); digit_char (n mod 10)].

Definition digits4 (n : Z) : list ascii :=
  [digit_char (n / 1000); digit_char (n / 100 mod 10);
   digit_char (n / 10 mod 10); digit_char (n mod 10)].

Definition strftime_Ymd (d : Date) : string :=
  string_of_list_ascii (digits4 (year d) ++ digits2 (month d) ++ digits2 (day d)).

(** A raw value that is 8 digits, read by position as YYYYMMDD. *)
Definition read_YYYYMMDD (raw : string) : option Date :=
  match list_ascii_of_string raw with
  | [y1; y2; y3; y4; m1; m2; d1; d2] =>
      if forallb (Pandas.class 48 57) [y1; y2; y3; y4; m1; m2; d1; d2]
      then Some (mkDate
                   (1000 * Pandas.digit_value y1 + 100 * Pandas.digit_value y2
                    + 10 * Pandas.digit_value y3 + Pandas.digit_value y4)
                   (10 * Pandas.digit_value m1 + Pandas.digit_value m2)
                   (10 * Pandas.digit_value d1 + Pandas.digit_value d2))
      else None
  | _ => None
  end.

(** The texts the format accepts for a date: the year in four digits, then
    the month and the day, each with or without its leading zero (a blank
    may stand for the leading zero of the day). *)
Definition month_forms (m : Z) : list (list ascii) :=
  if Z.ltb m 10 then [digits2 m; [digit_char m]] else [digits2 m].

Definition day_forms (d : Z) : list (list ascii) :=
  if Z.ltb d 10 then [digits2 d; [digit_char d]; [" "%char; digit_char d]]
  else [digits2 d].

Definition readings (d : Date) : list (list ascii) :=
  flat_map (fun sm => map (fun sd => (digits4 (year d) ++ sm ++ sd)%list) (day_forms (day d)))
           (month_forms (month d)).

(** The value read at a position of an array. *)
Definition value_at (a : list Z) (i : nat) : Z := nth i a 0.

(** A statement that builds a value: it assigns a variable other than
    [df], what it assigns is no reference to a table that exists already,
    and it updates no table in place. *)
Definition builds_value (s : App.Stmt) : Prop :=
  match s with
  | App.Assign _ x expr => x <> "df" /\ forall st loc, expr st <> Some (App.VRef loc)
  | App.New _ x _ => x <> "df"
  | App.SetItem _ _ => False
  end.

(** The table has a date: some row carries one. *)
Definition dated (df : DataFrame) : Prop := exists r d, In r df /\ dt r = Some d.

(** The variable [df] refers to the first object of the heap, that object
    is the table [df], and no other variable refers to it. *)
Definition holds_dataset (df : DataFrame) (st : App.State) : Prop :=
  App.env st "df" = Some (App.VRef 0) /\
  (exists rest, App.heap st = App.OFrame df :: rest) /\
  (forall x loc, App.env st x = Some (App.VRef loc) -> x <> "df" -> loc <> 0%nat).

(** States a run over the table [df] goes through: after line 21, after
    line 92 when the preview is [table], after line 116 on a table with a
    date, and after line 150 from a state [st]. *)
Definition after_load (df : DataFrame) : App.State :=
  App.mkState (App.bind "df" (App.VRef 0) (fun _ => None)) [App.OFrame df].

Definition after_rankings (A : Pandas.ArgSort) (w : App.Widgets) (df : DataFrame)
    (table : list (list App.Cell)) : App.State :=
  App.mkState
    (App.bind "top_audience" (App.VRef 4)
    (App.bind "top_sales" (App.VRef 3)
    (App.bind "null_ratios" (App.VRef 2)
    (App.bind "repNationCd_null_ratio" (App.VRatio (App.repNationCd_null_ratio df))
    (App.bind "multiMovieYn_null_ratio" (App.VRatio (App.multiMovieYn_null_ratio df))
    (App.bind "_preview" (App.VRef 1)
    (App.bind "display_columns"
       (App.VColumns (App.display_columns (App.selected_columns w)))
    (App.bind "df" (App.VRef 0) (fun _ => None)))))))))
    [App.OFrame df; App.OTable table; App.ONullRatios (App.null_ratios df);
     App.ORanking (App.top_sales A df); App.ORanking (App.top_audience A df)].

Definition after_range (A : Pandas.ArgSort) (w : App.Widgets) (df : DataFrame)
    (table : list (list App.Cell)) : App.State :=
  match App.date_range w with
  | [start_date; end_date] =>
      App.mkState
        (App.bind "audience_data" (App.VRef 6)
        (App.bind "filtered_df" (App.VRef 5)
        (App.bind "date_range" (App.VDates [start_date; end_date])
           (App.env (after_rankings A w df table)))))
        (App.heap (after_rankings A w df table)
           ++ [App.OFrame (App.filtered_df df start_date end_date);
               App.OAudience (App.audience_data df start_date end_date)])%list
  | dates =>
      App.mkState
        (App.bind "date_range" (App.VDates dates) (App.env (after_rankings A w df table)))
        (App.heap (after_rankings A w df table))
  end.

Definition after_movie (w : App.Widgets) (df : DataFrame) (st : App.State) : App.State :=
  match App.selectbox (App.movie_names df) (App.movie_index w) with
  | Some name =>
      if App.truthy name
      then App.mkState
             (App.bind "movie_data" (App.VRef (List.length (App.heap st)))
             (App.bind "movie_name" (App.VName (Some name)) (App.env st)))
             (App.heap st ++ [App.OSeries (App.movie_rows df name)])%list
      else App.mkState (App.bind "movie_name" (App.VName (Some name)) (App.env st))
                       (App.heap st)
  | None => App.mkState (App.bind "movie_name" (App.VName None) (App.env st)) (App.heap st)
  end.

(** A column name the table has. *)
Definition known_column (name : string) : bool :=
  existsb (String.eqb name) App.all_columns.

(** A row without its date: what is left of it when the date column is
    ignored. *)
Definition undated {D} (r : Row D) : Row unit :=
  mkRow tt (movieCd r) (movieNm r) (audiCnt r) (salesAmt r) (audiAcc r)
        (multiMovieYn r) (repNationCd r) (rank r).

(** The key of a row of the time series. *)
Definition audience_row_key (a : App.AudienceRow) : Date * string * string :=
  (App.a_dt a, App.a_multiMovieYn a, App.a_repNationCd a).

(** A character of a date text: a decimal digit or a blank. *)
Definition date_char (c : ascii) : bool :=
  Pandas.class 48 57 c || Pandas.class 32 32 c.

(** Sample rows for the concrete instances below. *)
Definition sample_row (d : option Date) (name : string) (audi sales : Z)
    (multi nation : option string) : Row (option Date) :=
  mkRow d "20240001" name audi sales audi multi nation 1.

(** A movie with two records, and another movie between them. *)
Definition series_sample : DataFrame :=
  [ sample_row (Some (mkDate 2024 1 1)) "A" 1 10 (Some "Y") (Some "K");
    sample_row (Some (mkDate 2024 1 3)) "A" 2 20 (Some "Y") (Some "K");
    sample_row (Some (mkDate 2024 1 2)) "B" 5 50 None (Some "F") ].

(** The later record of a movie before the earlier one; a row without a name. *)
Definition unordered_sample : DataFrame :=
  [ sample_row (Some (mkDate 2024 1 3)) "A" 2 20 (Some "Y") (Some "K");
    sample_row (Some (mkDate 2024 1 1)) "A" 1 10 (Some "Y") (Some "K") ].

Definition unnamed_sample : DataFrame :=
  [ sample_row (Some (mkDate 2024 1 1)) "" 1 10 (Some "Y") (Some "K") ].

(** The table of the end-to-end scenario: on 2024-01-01 one of the two rows
    has no multi-theater flag. *)
Definition scenario : DataFrame :=
  [ sample_row (Some (mkDate 2024 1 1)) "A" 100 1000 (Some "Y") (Some "K");
    sample_row (Some (mkDate 2024 1 1)) "B" 50 500 None (Some "F");
    sample_row (Some (mkDate 2024 1 2)) "A" 200 2000 (Some "Y") (Some "K") ].

(** The synthetic table of three movies with sales 100, 100 and 50. *)
Definition ranking_sample : DataFrame :=
  [ sample_row (Some (mkDate 2024 1 1)) "A" 10 100 (Some "Y") (Some "K");
    sample_row (Some (mkDate 2024 1 1)) "B" 10 100 (Some "Y") (Some "K");
    sample_row (Some (mkDate 2024 1 1)) "C" 5 50 (Some "Y") (Some "K") ].

(** The table of [ranking_sample] with its first two rows exchanged: movie
    B now appears before movie A. *)
Definition ranking_sample_swapped : DataFrame :=
  [ sample_row (Some (mkDate 2024 1 1)) "B" 10 100 (Some "Y") (Some "K");
    sample_row (Some (mkDate 2024 1 1)) "A" 10 100 (Some "Y") (Some "K");
    sample_row (Some (mkDate 2024 1 1)) "C" 5 50 (Some "Y") (Some "K") ].

(** Raw rows of the scenario; the third has a date in another format. *)
Definition raw_scenario : RawFrame :=
  [ mkRow "20240101" "20240001" "A" 100 1000 100 (Some "Y") (Some "K") 1;
    mkRow "20240101" "20240002" "B" 50 500 50 None (Some "F") 2;
    mkRow "2024-01-02" "20240001" "A" 200 2000 300 (Some "Y") (Some "K") 1 ].

(** * Properties *)

(** ** Column projection *)

(** C3. A non-empty selection is shown as selected, the empty selection
    falls back to the default columns, and the list of columns shown is
    never empty; the function is total, so there is no failing case. *)
Theorem display_columns_projection :
  forall S : list string,
    (S <> [] -> App.display_columns S = S) /\
    App.display_columns [] = App.default_columns /\
    App.display_columns S <> [] /\
    (forall D : list string,
        App.column_projection [] D = D /\
        (S <> [] -> App.column_projection S D = S) /\
        (D <> [] -> App.column_projection S D <> [])).
Proof.
  intros S. unfold App.display_columns.
  repeat split.
  - destruct S as [|c S']; [congruence | reflexivity].
  - destruct S as [|c S']; simpl; discriminate.
  - destruct S as [|c S']; [congruence | reflexivity].
  - destruct S as [|c S']; simpl; [trivial | discriminate].
Qed.

Example display_columns_samples :
  App.display_columns [] = App.default_columns /\
  App.display_columns ["movieNm"; "dt"] = ["movieNm"; "dt"].
Proof. split; reflexivity. Qed.

(** ** The movie select box and the per-movie series *)

Section Unique.

Lemma existsb_eqb_In (x : string) (seen : list string) :
  existsb (String.eqb x) seen = true <-> In x seen.
Proof.
  rewrite existsb_exists. split.
  - intros [y [Hy He]]. apply String.eqb_eq in He. now subst.
  - intros Hx. exists x. split; [assumption | apply String.eqb_refl].
Qed.

Lemma unique_acc_In (l seen : list string) (x : string) :
  In x (Pandas.unique_acc seen l) <-> In x l /\ ~ In x seen.
Proof.
  revert seen. induction l as [|y l IH]; intros seen; simpl.
  - tauto.
  - destruct (existsb (String.eqb y) seen) eqn:E.
    + apply existsb_eqb_In in E. rewrite IH.
      split; [tauto|]. intros [[->|Hx] Hn]; tauto.
    + assert (Hy : ~ In y seen).
      { intros Hy. apply existsb_eqb_In in Hy. congruence. }
      simpl. rewrite IH. simpl.
      destruct (string_dec y x) as [->|Hne]; tauto.
Qed.

Lemma unique_acc_NoDup (l seen : list string) :
  NoDup (Pandas.unique_acc seen l).
Proof.
  revert seen. induction l as [|y l IH]; intros seen; simpl.
  - constructor.
  - destruct (existsb (String.eqb y) seen); [apply IH|].
    constructor; [|apply IH].
    rewrite unique_acc_In. simpl. tauto.
Qed.

Lemma unique_In (l : list string) (x : string) :
  In x (Pandas.unique l) <-> In x l.
Proof. unfold Pandas.unique. rewrite unique_acc_In. simpl. tauto. Qed.

Lemma unique_NoDup (l : list string) : NoDup (Pandas.unique l).
Proof. apply unique_acc_NoDup. Qed.

End Unique.

Section Series.

Variable df : DataFrame.
Variable movie_name : string.

Lemma movie_rows_In (x : App.SeriesRow) :
  In x (App.movie_rows df movie_name) <->
  exists r, In r df /\ movieNm r = movie_name /\ x = App.series_row r.
Proof.
  unfold App.movie_rows. rewrite in_map_iff. split.
  - intros [r [Hx Hr]]. apply filter_In in Hr. destruct Hr as [Hr He].
    apply String.eqb_eq in He. exists r. auto.
  - intros [r [Hr [He Hx]]]. exists r. split; [auto|].
    apply filter_In. split; [assumption|]. now apply String.eqb_eq.
Qed.

Lemma truthy_true : movie_name <> "" -> App.truthy movie_name = true.
Proof.
  intros H. unfold App.truthy. apply negb_true_iff. now apply String.eqb_neq.
Qed.

End Series.

(** Sortedness is inherited by the rows that a filter keeps and carried
    through a projection that preserves the compared component. *)
Lemma StronglySorted_filter {A} (R : A -> A -> Prop) (p : A -> bool) (l : list A) :
  StronglySorted R l -> StronglySorted R (filter p l).
Proof.
  induction 1 as [|a l Hs IH Hall]; simpl; [constructor|].
  destruct (p a); [|assumption].
  constructor; [assumption|].
  rewrite Forall_forall in *. intros x Hx. apply filter_In in Hx. now apply Hall.
Qed.

Lemma StronglySorted_map {A B} (R : B -> B -> Prop) (f : A -> B) (l : list A) :
  StronglySorted (fun a b => R (f a) (f b)) l -> StronglySorted R (map f l).
Proof.
  induction 1 as [|a l Hs IH Hall]; simpl; constructor; [assumption|].
  rewrite Forall_forall in *. intros y Hy. apply in_map_iff in Hy.
  destruct Hy as [x [<- Hx]]. now apply Hall.
Qed.

(** C2. For a non-empty movie name the extractor returns the rows of that
    movie and no others, each cut down to (date, audience, sales), once per
    matching row, in the order the rows have in the table: no sort is
    applied, so the dates are ascending whenever those of the table are (and
    likewise for any other order on the date column). *)
Theorem movie_data_rows (df : DataFrame) (movie_name : string) :
  movie_name <> "" ->
  exists rows,
    App.movie_data df movie_name = Some rows /\
    (forall x, In x rows <->
       exists r, In r df /\ movieNm r = movie_name /\ x = App.series_row r) /\
    List.length rows =
      List.length (filter (fun r => String.eqb (movieNm r) movie_name) df) /\
    rows = map App.series_row (filter (fun r => String.eqb (movieNm r) movie_name) df) /\
    (forall R : option Date -> option Date -> Prop,
        StronglySorted R (map dt df) -> StronglySorted R (map App.s_dt rows)) /\
    (ascending_dates (map dt df) -> ascending_dates (map App.s_dt rows)).
Proof.
  intros Hne. exists (App.movie_rows df movie_name).
  assert (Hsorted : forall R : option Date -> option Date -> Prop,
             StronglySorted R (map dt df) ->
             StronglySorted R (map App.s_dt (App.movie_rows df movie_name))).
  { intros R HR. unfold App.movie_rows. rewrite map_map. simpl.
    apply StronglySorted_map. apply StronglySorted_filter.
    clear -HR. induction df as [|a l IH]; simpl in *; [constructor|].
    inversion HR as [|? ? Hs Hall]; subst. constructor; [now apply IH|].
    rewrite Forall_forall in *. intros x Hx. apply Hall. now apply in_map. }
  repeat split.
  - unfold App.movie_data. now rewrite truthy_true.
  - apply movie_rows_In.
  - apply movie_rows_In.
  - unfold App.movie_rows. now rewrite length_map.
  - exact Hsorted.
  - apply Hsorted.
Qed.

Lemma movie_data_rows_witness :
  "A" <> "" /\
  exists rows,
    App.movie_data series_sample "A" = Some rows /\
    (forall x, In x rows <->
       exists r, In r series_sample /\ movieNm r = "A" /\ x = App.series_row r) /\
    List.length rows =
      List.length (filter (fun r => String.eqb (movieNm r) "A") series_sample) /\
    rows = map App.series_row (filter (fun r => String.eqb (movieNm r) "A") series_sample) /\
    (forall R : option Date -> option Date -> Prop,
        StronglySorted R (map dt series_sample) -> StronglySorted R (map App.s_dt rows)) /\
    (ascending_dates (map dt series_sample) -> ascending_dates (map App.s_dt rows)).
Proof.
  split; [discriminate|].
  apply (movie_data_rows series_sample "A"). discriminate.
Defined.

(** The extractor on the two-record movie of the specification: exactly the
    two rows, in date order. *)
Example movie_data_two_records :
  App.movie_data series_sample "A" =
    Some [ App.mkSeriesRow (Some (mkDate 2024 1 1)) 1 10;
           App.mkSeriesRow (Some (mkDate 2024 1 3)) 2 20 ].
Proof. reflexivity. Qed.

(** C2, as stated, fails: on a table that holds the later record of a movie
    before the earlier one the series comes out in table order, which is not
    ascending; and for the empty name nothing is extracted although a row
    carries that name. *)

Lemma movie_data_not_date_ordered :
  App.movie_data unordered_sample "A" =
    Some [ App.mkSeriesRow (Some (mkDate 2024 1 3)) 2 20;
           App.mkSeriesRow (Some (mkDate 2024 1 1)) 1 10 ] /\
  ~ ascending_dates [Some (mkDate 2024 1 3); Some (mkDate 2024 1 1)] /\
  (exists r, In r unnamed_sample /\ movieNm r = "") /\
  App.movie_data unnamed_sample "" = None.
Proof.
  split; [reflexivity|]. split.
  - intros H. inversion H as [|? ? _ Hall]; subst.
    inversion Hall as [|? ? Hle _]; subst. simpl in Hle. discriminate.
  - split; [|reflexivity].
    eexists. split; [left; reflexivity | reflexivity].
Qed.

(** C10. The options of the select box are the distinct movie names of the
    table, each once; choosing a non-empty one of them always yields a
    series with at least one row. *)
Theorem movie_names_selectable (df : DataFrame) :
  NoDup (App.movie_names df) /\
  (forall n, In n (App.movie_names df) <-> exists r, In r df /\ movieNm r = n) /\
  (forall n, In n (App.movie_names df) -> n <> "" ->
     exists rows, App.movie_data df n = Some rows /\ rows <> []).
Proof.
  assert (Hin : forall n, In n (App.movie_names df) <-> exists r, In r df /\ movieNm r = n).
  { intros n. unfold App.movie_names. rewrite unique_In, in_map_iff.
    split; intros [r Hr]; exists r; tauto. }
  split; [apply unique_NoDup|]. split; [exact Hin|].
  intros n Hn Hne. apply Hin in Hn. destruct Hn as [r [Hr He]].
  exists (App.movie_rows df n). split.
  - unfold App.movie_data. now rewrite truthy_true.
  - intros Hnil.
    assert (Hx : In (App.series_row r) (App.movie_rows df n)).
    { apply movie_rows_In. exists r. auto. }
    rewrite Hnil in Hx. destruct Hx.
Qed.

Example movie_names_scenario :
  App.movie_names scenario = ["A"; "B"] /\
  App.movie_data scenario "B" =
    Some [App.mkSeriesRow (Some (mkDate 2024 1 1)) 50 500].
Proof. split; reflexivity. Qed.

(** C10, as stated, fails for the empty name: it is an option of the select
    box when a row carries it, and the script extracts no series for it. *)
Lemma movie_names_empty_name :
  In "" (App.movie_names unnamed_sample) /\
  App.movie_data unnamed_sample "" = None.
Proof. split; [left; reflexivity | reflexivity]. Qed.

(** ** Grouping *)

(** The comparisons of the key types are strict total orders. *)

Lemma lex_eq (c1 c2 : comparison) : lex c1 c2 = Eq <-> c1 = Eq /\ c2 = Eq.
Proof. destruct c1, c2; simpl; intuition discriminate. Qed.

Lemma lex_opp (c1 c2 : comparison) : CompOpp (lex c1 c2) = lex (CompOpp c1) (CompOpp c2).
Proof. now destruct c1. Qed.

Lemma lex_lt (c1 c2 : comparison) :
  lex c1 c2 = Lt <-> c1 = Lt \/ (c1 = Eq /\ c2 = Lt).
Proof. destruct c1, c2; simpl; intuition discriminate. Qed.

#[export] Instance Z_laws : KeyOrderLaws Z.
Proof.
  split; simpl.
  - intros a b. apply Z.compare_eq_iff.
  - intros a b. apply Z.compare_antisym.
  - intros a b c. rewrite !Z.compare_lt_iff. lia.
Qed.

Lemma ascii_compare_trans (a b c : ascii) :
  Ascii.compare a b = Lt -> Ascii.compare b c = Lt -> Ascii.compare a c = Lt.
Proof. unfold Ascii.compare. rewrite !N.compare_lt_iff. lia. Qed.

Lemma ascii_compare_refl (a : ascii) : Ascii.compare a a = Eq.
Proof. unfold Ascii.compare. apply N.compare_refl. Qed.

Lemma string_compare_refl (s : string) : String.compare s s = Eq.
Proof. induction s as [|a s IH]; simpl; [reflexivity|]. now rewrite ascii_compare_refl. Qed.

Lemma string_compare_trans (s1 s2 s3 : string) :
  String.compare s1 s2 = Lt -> String.compare s2 s3 = Lt -> String.compare s1 s3 = Lt.
Proof.
  revert s2 s3. induction s1 as [|a s1 IH]; intros [|b s2] [|c s3]; simpl;
    try discriminate; try reflexivity.
  destruct (Ascii.compare a b) eqn:Eab; try discriminate;
    destruct (Ascii.compare b c) eqn:Ebc; try discriminate; intros H1 H2.
  - apply Ascii.compare_eq_iff in Eab, Ebc. subst.
    rewrite ascii_compare_refl. now apply IH with s2.
  - apply Ascii.compare_eq_iff in Eab. subst. now rewrite Ebc.
  - apply Ascii.compare_eq_iff in Ebc. subst. now rewrite Eab.
  - now rewrite (ascii_compare_trans _ _ _ Eab Ebc).
Qed.

#[export] Instance string_laws : KeyOrderLaws string.
Proof.
  split; simpl.
  - intros a b. split; [apply String.compare_eq_iff|].
    intros ->. apply string_compare_refl.
  - apply String.compare_antisym.
  - apply string_compare_trans.
Qed.

#[export] Instance pair_laws {A B} `{KeyOrderLaws A} `{KeyOrderLaws B} : KeyOrderLaws (A * B).
Proof.
  split; simpl.
  - intros [a1 b1] [a2 b2]. simpl. rewrite lex_eq, !kcmp_eq.
    split; [intros [-> ->]; reflexivity | intros E; inversion E; auto].
  - intros [a1 b1] [a2 b2]. simpl. rewrite lex_opp.
    now rewrite <- (kcmp_antisym a1 a2), <- (kcmp_antisym b1 b2).
  - intros [a1 b1] [a2 b2] [a3 b3]. simpl. rewrite !lex_lt, !kcmp_eq.
    intros [L1|[E1 L1]] [L2|[E2 L2]]; subst; auto.
    + left. eapply kcmp_trans; eassumption.
    + right. split; [reflexivity|]. eapply kcmp_trans; eassumption.
Qed.

Lemma date_compare_pairs (a b : Date) :
  date_compare a b = kcmp (year a, month a, day a) (year b, month b, day b).
Proof.
  unfold date_compare. simpl.
  destruct (year a ?= year b)%Z, (month a ?= month b)%Z; reflexivity.
Qed.

#[export] Instance date_laws : KeyOrderLaws Date.
Proof.
  split; simpl; intros a b.
  - rewrite date_compare_pairs, kcmp_eq. destruct a, b; simpl.
    split; intros E; inversion E; reflexivity.
  - rewrite !date_compare_pairs. apply kcmp_antisym.
  - intros c. rewrite !date_compare_pairs. apply kcmp_trans.
Qed.

Section GroupKeys.

Context {K : Type} `{KeyOrderLaws K}.

Lemma kcmp_refl (a : K) : kcmp a a = Eq.
Proof. now apply kcmp_eq. Qed.

Lemma klt_irrefl (a : K) : ~ klt a a.
Proof. unfold klt. rewrite kcmp_refl. discriminate. Qed.

Lemma kcmp_gt_lt (a b : K) : kcmp a b = Gt -> klt b a.
Proof. unfold klt. rewrite (kcmp_antisym b a). now intros ->. Qed.

Lemma keqb_eq (a b : K) : keqb a b = true <-> a = b.
Proof.
  unfold keqb. rewrite <- kcmp_eq.
  destruct (kcmp a b); intuition discriminate.
Qed.

Lemma key_insert_In (k x : K) (l : list K) :
  In x (Pandas.key_insert k l) <-> x = k \/ In x l.
Proof.
  induction l as [|y l IH]; simpl.
  - intuition.
  - destruct (kcmp k y) eqn:E; simpl.
    + apply kcmp_eq in E. subst. intuition.
    + intuition.
    + rewrite IH. intuition.
Qed.

Lemma key_insert_sorted (k : K) (l : list K) :
  StronglySorted klt l -> StronglySorted klt (Pandas.key_insert k l).
Proof.
  induction 1 as [|y l Hs IH Hall]; simpl.
  - repeat constructor.
  - destruct (kcmp k y) eqn:E.
    + now constructor.
    + constructor; [now constructor|].
      constructor; [exact E|].
      rewrite Forall_forall in *. intros z Hz.
      eapply kcmp_trans; [exact E | now apply Hall].
    + constructor; [assumption|].
      rewrite Forall_forall in *. intros z Hz.
      apply key_insert_In in Hz. destruct Hz as [->|Hz].
      * now apply kcmp_gt_lt.
      * now apply Hall.
Qed.

Lemma group_keys_In (ks : list K) (x : K) :
  In x (Pandas.group_keys ks) <-> In x ks.
Proof.
  induction ks as [|k ks IH]; simpl; [tauto|].
  rewrite key_insert_In, IH. intuition.
Qed.

Lemma group_keys_sorted (ks : list K) : StronglySorted klt (Pandas.group_keys ks).
Proof.
  induction ks as [|k ks IH]; simpl; [constructor|].
  now apply key_insert_sorted.
Qed.

Lemma sorted_NoDup (l : list K) : StronglySorted klt l -> NoDup l.
Proof.
  induction 1 as [|y l Hs IH Hall]; constructor; [|assumption].
  intros Hy. rewrite Forall_forall in Hall.
  exact (klt_irrefl y (Hall y Hy)).
Qed.

(** A strictly sorted list is determined by its elements. *)
Lemma sorted_unique (l1 l2 : list K) :
  StronglySorted klt l1 -> StronglySorted klt l2 ->
  (forall x, In x l1 <-> In x l2) -> l1 = l2.
Proof.
  intros H1. revert l2. induction H1 as [|a l1 Hs1 IH Hall1]; intros l2 H2 Hiff.
  - destruct l2 as [|b l2]; [reflexivity|].
    destruct (proj2 (Hiff b) (or_introl eq_refl)).
  - destruct H2 as [|b l2 Hs2 Hall2].
    + destruct (proj1 (Hiff a) (or_introl eq_refl)).
    + rewrite Forall_forall in Hall1, Hall2.
      assert (Hab : a = b).
      { destruct (proj1 (Hiff a) (or_introl eq_refl)) as [E|Ha]; [now subst|].
        destruct (proj2 (Hiff b) (or_introl eq_refl)) as [E|Hb]; [now subst|].
        exfalso. apply (klt_irrefl a).
        eapply kcmp_trans; [apply Hall1, Hb | apply Hall2, Ha]. }
      subst b. f_equal. apply IH; [assumption|].
      intros x. split; intros Hx.
      * destruct (proj1 (Hiff x) (or_intror Hx)) as [E|Hx']; [|assumption].
        subst x. exfalso. exact (klt_irrefl a (Hall1 a Hx)).
      * destruct (proj2 (Hiff x) (or_intror Hx)) as [E|Hx']; [|assumption].
        subst x. exfalso. exact (klt_irrefl a (Hall2 a Hx)).
Qed.

Lemma group_keys_ext (ks1 ks2 : list K) :
  (forall x, In x ks1 <-> In x ks2) -> Pandas.group_keys ks1 = Pandas.group_keys ks2.
Proof.
  intros Hiff. apply sorted_unique; try apply group_keys_sorted.
  intros x. now rewrite !group_keys_In.
Qed.

Section Groups.

Context {R : Type}.
Variable key : R -> option K.

Lemma has_key_true (k : K) (r : R) :
  Pandas.has_key key k r = true <-> key r = Some k.
Proof.
  unfold Pandas.has_key. destruct (key r) as [k'|].
  - rewrite keqb_eq. split; congruence.
  - split; discriminate.
Qed.

Lemma dropna_In (l : list (option K)) (k : K) :
  In k (Pandas.dropna l) <-> In (Some k) l.
Proof.
  induction l as [|[a|] l IH]; simpl.
  - tauto.
  - rewrite IH. split; intros [E|Hk]; auto; left; congruence.
  - rewrite IH. split; [auto|]. intros [E|Hk]; [discriminate | assumption].
Qed.

Lemma group_key_present (df : list R) (k : K) :
  In k (Pandas.group_keys (Pandas.dropna (map key df))) <->
  exists r, In r df /\ key r = Some k.
Proof.
  rewrite group_keys_In, dropna_In, in_map_iff.
  split; intros [r Hr]; exists r; tauto.
Qed.

Lemma groupby_keys (df : list R) :
  map fst (Pandas.groupby key df) = Pandas.group_keys (Pandas.dropna (map key df)).
Proof. unfold Pandas.groupby. rewrite map_map. simpl. apply map_id. Qed.

(** The groups: exactly one per key that some row carries, holding the
    rows that carry it. *)
Lemma groupby_In (df : list R) (k : K) (rows : list R) :
  In (k, rows) (Pandas.groupby key df) <->
  (exists r, In r df /\ key r = Some k) /\
  rows = filter (Pandas.has_key key k) df.
Proof.
  unfold Pandas.groupby. rewrite in_map_iff. split.
  - intros [k' [E Hk]]. inversion E; subst. split; [|reflexivity].
    now apply group_key_present.
  - intros [Hk ->]. exists k. split; [reflexivity|].
    now apply group_key_present.
Qed.

Lemma groupby_NoDup (df : list R) : NoDup (map fst (Pandas.groupby key df)).
Proof. rewrite groupby_keys. apply sorted_NoDup, group_keys_sorted. Qed.

Lemma groupby_sorted (df : list R) :
  StronglySorted klt (map fst (Pandas.groupby key df)).
Proof. rewrite groupby_keys. apply group_keys_sorted. Qed.

Lemma group_nonempty (df : list R) (k : K) :
  (exists r, In r df /\ key r = Some k) ->
  filter (Pandas.has_key key k) df <> [].
Proof.
  intros [r [Hr Hk]] Hnil.
  assert (Hin : In r (filter (Pandas.has_key key k) df)).
  { apply filter_In. split; [assumption|]. now apply has_key_true. }
  rewrite Hnil in Hin. destruct Hin.
Qed.

(** Rows with a null key belong to no group: grouping the table and
    grouping it without those rows is the same. *)
Lemma dropna_notna (df : list R) :
  Pandas.dropna (map key df) = Pandas.dropna (map key (filter (Pandas.notna key) df)).
Proof.
  induction df as [|r l IH]; simpl; [reflexivity|].
  unfold Pandas.notna at 1. destruct (key r) eqn:E; simpl; rewrite ?E; [f_equal|]; exact IH.
Qed.

Lemma has_key_notna (k : K) (df : list R) :
  filter (Pandas.has_key key k) df = filter (Pandas.has_key key k) (filter (Pandas.notna key) df).
Proof.
  induction df as [|r l IH]; simpl; [reflexivity|].
  destruct (Pandas.has_key key k r) eqn:Hk.
  - assert (Hn : Pandas.notna key r = true).
    { apply has_key_true in Hk. unfold Pandas.notna. now rewrite Hk. }
    rewrite Hn. simpl. rewrite Hk. now f_equal.
  - destruct (Pandas.notna key r); simpl; rewrite ?Hk; exact IH.
Qed.

Lemma groupby_dropna (df : list R) :
  Pandas.groupby key df = Pandas.groupby key (filter (Pandas.notna key) df).
Proof.
  unfold Pandas.groupby. rewrite <- dropna_notna.
  apply map_ext. intros k. f_equal. apply has_key_notna.
Qed.

End Groups.

End GroupKeys.

(** ** Null ratios *)

Lemma date_eqb_eq (a b : Date) : date_eqb a b = true <-> a = b.
Proof.
  unfold date_eqb. rewrite !andb_true_iff, !Z.eqb_eq.
  destruct a, b; simpl. split.
  - intros [[-> ->] ->]. reflexivity.
  - intros E. inversion E. auto.
Qed.

Lemma date_eqb_keqb (a b : Date) : date_eqb a b = keqb a b.
Proof.
  destruct (keqb a b) eqn:E.
  - apply keqb_eq in E. now apply date_eqb_eq.
  - destruct (date_eqb a b) eqn:E'; [|reflexivity].
    apply date_eqb_eq, keqb_eq in E'. congruence.
Qed.

Lemma rows_on_has_key (d : Date) (df : DataFrame) :
  filter (Pandas.has_key dt d) df = rows_on d df.
Proof.
  unfold rows_on. apply filter_ext. intros r.
  unfold Pandas.has_key, on_date. destruct (dt r); [|reflexivity].
  symmetry. apply date_eqb_keqb.
Qed.

Lemma count_true_isna {A} (col : Row (option Date) -> option A) (rows : DataFrame) :
  Pandas.count_true (Pandas.isna (map col rows)) = null_count col rows.
Proof.
  unfold Pandas.count_true, Pandas.isna, null_count.
  induction rows as [|r rows IH]; simpl; [reflexivity|].
  destruct (col r); simpl; now rewrite IH.
Qed.

Lemma count_true_le (l : list bool) : (Pandas.count_true l <= List.length l)%nat.
Proof. unfold Pandas.count_true. apply filter_length_le. Qed.

(** *** Rounding to [float64] *)

Lemma round_half_even_cases (n b : Z) :
  Pandas.round_half_even n b = n / b \/
  (Pandas.round_half_even n b = n / b + 1 /\ b <= 2 * (n mod b)).
Proof.
  unfold Pandas.round_half_even.
  destruct (Z.compare_spec (2 * (n mod b)) b) as [H|H|H].
  - destruct (Z.even (n / b)); [now left | right; split; [reflexivity | lia]].
  - now left.
  - right. split; [reflexivity | lia].
Qed.

Lemma round_half_even_near (n b : Z) :
  0 < b -> Z.abs (2 * (Pandas.round_half_even n b * b - n)) <= b.
Proof.
  intros Hb. unfold Pandas.round_half_even.
  pose proof (Z.div_mod n b ltac:(lia)) as Hdm.
  pose proof (Z.mod_pos_bound n b Hb) as Hr.
  destruct (Z.compare_spec (2 * (n mod b)) b) as [H|H|H];
    [destruct (Z.even (n / b))| |]; nia.
Qed.

Lemma round_half_even_le (n b N : Z) :
  0 < b -> n <= N * b -> Pandas.round_half_even n b <= N.
Proof.
  intros Hb Hn.
  pose proof (Z.div_mod n b ltac:(lia)) as Hdm.
  pose proof (Z.mod_pos_bound n b Hb) as Hr.
  destruct (round_half_even_cases n b) as [->|[-> Hhalf]]; nia.
Qed.

Lemma round_half_even_ge (n b N : Z) :
  0 < b -> N * b <= n -> N <= Pandas.round_half_even n b.
Proof.
  intros Hb Hn.
  pose proof (Z.div_mod n b ltac:(lia)) as Hdm.
  pose proof (Z.mod_pos_bound n b Hb) as Hr.
  destruct (round_half_even_cases n b) as [->|[-> Hhalf]]; nia.
Qed.

(** The shift puts the quotient between 2^52 and 2^53. *)
Lemma binade_shift_spec (a b : Z) :
  0 < a <= b ->
  52 <= Pandas.binade_shift a b /\
  2 ^ 52 * b <= a * 2 ^ Pandas.binade_shift a b < 2 ^ 53 * b.
Proof.
  intros [Ha Hab].
  assert (Hb : 0 < b) by lia.
  pose proof (Z.log2_le_mono a b Hab) as Hl.
  pose proof (Z.log2_nonneg a) as Hla.
  destruct (Z.log2_spec a Ha) as [A1 A2]. destruct (Z.log2_spec b Hb) as [B1 B2].
  rewrite Z.pow_succ_r in A2, B2 by (try apply Z.log2_nonneg).
  set (la := Z.log2 a) in *. set (lb := Z.log2 b) in *.
  assert (HT : 2 ^ lb = 2 ^ la * 2 ^ (lb - la)).
  { rewrite <- Z.pow_add_r by lia. f_equal. lia. }
  assert (HTpos : 0 < 2 ^ (lb - la)) by (apply Z.pow_pos_nonneg; lia).
  assert (Hp0 : 2 ^ (52 + lb - la) = 2 ^ 52 * 2 ^ (lb - la)).
  { rewrite <- Z.pow_add_r by lia. f_equal. lia. }
  assert (Hp1 : 2 ^ (52 + lb - la + 1) = 2 * (2 ^ 52 * 2 ^ (lb - la))).
  { rewrite Z.pow_add_r by lia. rewrite Hp0. change (2 ^ 1) with 2. lia. }
  unfold Pandas.binade_shift. fold la lb. unfold Pandas.scaled.
  replace (0 <=? 52 + lb - la)%Z with true by (symmetry; apply Z.leb_le; lia).
  set (T := 2 ^ (lb - la)) in *. set (A := 2 ^ la) in *. set (B := 2 ^ lb) in *.
  assert (H52 : 0 < 2 ^ 52) by reflexivity.
  assert (H53 : 2 ^ 53 = 2 * 2 ^ 52) by reflexivity.
  set (P := 2 ^ 52) in *.
  assert (HaT : a * T < 2 * b) by nia.
  assert (HbT : b < 2 * (a * T)) by nia.
  destruct (P * b <=? a * 2 ^ (52 + lb - la))%Z eqn:E.
  - apply Z.leb_le in E. split; [lia|]. split; [exact E|]. rewrite Hp0, H53. nia.
  - apply Z.leb_gt in E. split; [lia|]. rewrite Hp1, H53. rewrite Hp0 in E. nia.
Qed.

Lemma float64_pos_eq (a b : Z) :
  0 < a <= b ->
  (Pandas.float64_pos a b ==
   Pandas.round_half_even (a * 2 ^ Pandas.binade_shift a b) b
     # Z.to_pos (2 ^ Pandas.binade_shift a b))%Q.
Proof.
  intros Hab. destruct (binade_shift_spec a b Hab) as [Hp _].
  unfold Pandas.float64_pos, Pandas.scaled.
  replace (0 <=? Pandas.binade_shift a b)%Z with true by (symmetry; apply Z.leb_le; lia).
  apply Qred_correct.
Qed.

Section Quotient.

Variables a b : Z.
Hypothesis Hab : 0 < a <= b.

Let p := Pandas.binade_shift a b.
Let m := Pandas.round_half_even (a * 2 ^ p) b.

Lemma pow_shift_pos : 0 < 2 ^ p.
Proof. apply Z.pow_pos_nonneg; [lia|]. destruct (binade_shift_spec a b Hab). unfold p. lia. Qed.

Lemma float64_pos_bounds : (0 < Pandas.float64_pos a b)%Q /\ (Pandas.float64_pos a b <= 1)%Q.
Proof.
  rewrite (float64_pos_eq a b Hab). fold p m.
  destruct (binade_shift_spec a b Hab) as [Hp [Hlo Hhi]]. fold p in Hp, Hlo, Hhi.
  pose proof pow_shift_pos as HP.
  assert (Hm1 : 2 ^ 52 <= m) by (apply round_half_even_ge; lia).
  assert (Hm2 : m <= 2 ^ p) by (apply round_half_even_le; nia).
  assert (H52 : 0 < 2 ^ 52) by reflexivity.
  unfold Qlt, Qle. cbn [Qnum Qden]. rewrite Z2Pos.id by exact HP. lia.
Qed.

Lemma float64_pos_near :
  (Qabs (Pandas.float64_pos a b - (a # Z.to_pos b)) <= (a # Z.to_pos b) * (1 # 2 ^ 53))%Q.
Proof.
  rewrite (float64_pos_eq a b Hab). fold p m.
  destruct (binade_shift_spec a b Hab) as [Hp [Hlo Hhi]]. fold p in Hp, Hlo, Hhi.
  pose proof pow_shift_pos as HP.
  pose proof (round_half_even_near (a * 2 ^ p) b ltac:(lia)) as Hnear. fold m in Hnear.
  unfold Qle, Qminus, Qplus, Qopp, Qabs, Qmult. cbn [Qnum Qden].
  rewrite !Pos2Z.inj_mul, !Z2Pos.id by lia.
  change (Z.pos (2 ^ 53)) with (2 * 2 ^ 52).
  assert (H52 : 0 < 2 ^ 52) by reflexivity.
  set (P52 := 2 ^ 52) in *. set (P := 2 ^ p) in *.
  replace (m * b + - a * P) with (m * b - a * P) by lia.
  assert (HD : 2 * Z.abs (m * b - a * P) <= b) by lia.
  set (D := Z.abs (m * b - a * P)) in *.
  assert (HD0 : 0 <= D) by (unfold D; lia).
  nia.
Qed.

Lemma float64_pos_one : a = b -> (Pandas.float64_pos a b == 1)%Q.
Proof.
  intros E. rewrite (float64_pos_eq a b Hab). fold p m.
  pose proof pow_shift_pos as HP.
  assert (Hm1 : 2 ^ p <= m) by (apply round_half_even_ge; nia).
  assert (Hm2 : m <= 2 ^ p) by (apply round_half_even_le; nia).
  unfold Qeq. cbn [Qnum Qden]. rewrite Z2Pos.id by exact HP. lia.
Qed.

Lemma float64_pos_below_one : a < b -> b < 2 ^ 53 -> (Pandas.float64_pos a b < 1)%Q.
Proof.
  intros Hlt Hb. rewrite (float64_pos_eq a b Hab). fold p m.
  destruct (binade_shift_spec a b Hab) as [Hp [Hlo Hhi]]. fold p in Hp, Hlo, Hhi.
  pose proof pow_shift_pos as HP.
  assert (Hp53 : 2 ^ 53 <= 2 ^ p).
  { assert (52 < p).
    { destruct (Z.eq_dec p 52) as [E|E]; [|lia]. rewrite E in Hlo. lia. }
    apply Z.pow_le_mono_r; lia. }
  assert (Hm2 : m <= 2 ^ p - 1) by (apply round_half_even_le; nia).
  unfold Qlt. cbn [Qnum Qden]. rewrite Z2Pos.id by exact HP. lia.
Qed.

End Quotient.

Lemma pos_of_nat_Z (n : nat) : (0 < n)%nat -> Z.pos (Pos.of_nat n) = Z.of_nat n.
Proof.
  intros Hn. destruct n as [|n]; [lia|].
  rewrite <- positive_nat_Z, Nat2Pos.id; [reflexivity | discriminate].
Qed.

Lemma quotient_fraction (k n : nat) :
  (0 < n)%nat -> (Z.of_nat k # Pos.of_nat n == fraction k n)%Q.
Proof.
  intros Hn. unfold fraction. rewrite <- (pos_of_nat_Z n Hn). apply Qmake_Qdiv.
Qed.

(** The quotient of two counts and its rounding: the rounding stays between
    0 and 1, within one part in [2^53] of the quotient, and is 0 or 1 only
    when the quotient is. *)
Lemma quotient_extremes (k n : nat) :
  (0 < n)%nat -> (k <= n)%nat ->
  ((Z.of_nat k # Pos.of_nat n == 0)%Q <-> k = 0%nat) /\
  ((Z.of_nat k # Pos.of_nat n == 1)%Q <-> k = n).
Proof.
  intros Hn Hk. unfold Qeq. cbn [Qnum Qden]. rewrite (pos_of_nat_Z n Hn). lia.
Qed.

Lemma float64_count (k n : nat) :
  (0 < n)%nat -> (k <= n)%nat ->
  (0 <= Pandas.float64 (Z.of_nat k # Pos.of_nat n))%Q /\
  (Pandas.float64 (Z.of_nat k # Pos.of_nat n) <= 1)%Q /\
  (Qabs (Pandas.float64 (Z.of_nat k # Pos.of_nat n) - fraction k n)
     <= fraction k n * (1 # 2 ^ 53))%Q /\
  ((Pandas.float64 (Z.of_nat k # Pos.of_nat n) == 0)%Q <-> k = 0%nat) /\
  (Z.of_nat n < 2 ^ 53 ->
   ((Pandas.float64 (Z.of_nat k # Pos.of_nat n) == 1)%Q <-> k = n)).
Proof.
  intros Hn Hk. pose proof (pos_of_nat_Z n Hn) as Hpos.
  rewrite <- (quotient_fraction k n Hn).
  destruct (Z.of_nat k) as [|a|a] eqn:E; [| |lia].
  - assert (k = 0%nat) by lia. subst k.
    unfold Pandas.float64. cbn [Qnum Qden].
    split; [discriminate|]. split; [discriminate|]. split; [discriminate|].
    split; [split; reflexivity|].
    intros _. split; [discriminate | lia].
  - unfold Pandas.float64. cbn [Qnum Qden].
    assert (Hab : 0 < Z.pos a <= Z.pos (Pos.of_nat n)) by lia.
    destruct (float64_pos_bounds _ _ Hab) as [Hlo Hhi].
    pose proof (float64_pos_near _ _ Hab) as Hnear. cbn [Z.to_pos] in Hnear.
    split; [now apply Qlt_le_weak|]. split; [exact Hhi|]. split; [exact Hnear|].
    split.
    + split; [|lia]. intros H0. rewrite H0 in Hlo. discriminate Hlo.
    + intros Hbig. split.
      * intros H1. destruct (Nat.eq_dec k n) as [Heq|Hne]; [exact Heq|].
        assert (Hlt : Z.pos a < Z.pos (Pos.of_nat n)) by lia.
        pose proof (float64_pos_below_one _ _ Hab Hlt ltac:(lia)) as Hb.
        rewrite H1 in Hb. discriminate Hb.
      * intros Heq. apply float64_pos_one; lia.
Qed.

Lemma mean_bool_value (l : list bool) :
  l <> [] ->
  Pandas.mean_bool l =
  Some (if Z.ltb (Z.of_nat (List.length l)) (2 ^ 53)
        then Pandas.float64 (Z.of_nat (Pandas.count_true l) # Pos.of_nat (List.length l))
        else Z.of_nat (Pandas.count_true l) # Pos.of_nat (List.length l)).
Proof. intros Hne. destruct l as [|b l]; [congruence | reflexivity]. Qed.

(** The mean of a non-empty boolean column of fewer than [2^53] entries is
    the [float64] nearest to the fraction of its true entries, a number
    between 0 and 1. *)
Lemma null_ratio_of (A : Type) (col : Row (option Date) -> option A) (rows : DataFrame) :
  rows <> [] ->
  Z.of_nat (List.length rows) < 2 ^ 53 ->
  exists q, Pandas.mean_bool (Pandas.isna (map col rows)) = Some q /\
            q = Pandas.float64 (Z.of_nat (null_count col rows) # Pos.of_nat (List.length rows)) /\
            (Qabs (q - fraction (null_count col rows) (List.length rows))
               <= fraction (null_count col rows) (List.length rows) * (1 # 2 ^ 53))%Q /\
            (0 <= q)%Q /\ (q <= 1)%Q.
Proof.
  intros Hne Hbig.
  assert (Hlen : List.length (Pandas.isna (map col rows)) = List.length rows).
  { unfold Pandas.isna. now rewrite !length_map. }
  assert (Hn : (0 < List.length rows)%nat).
  { destruct rows; [congruence | simpl; lia]. }
  assert (Hk : (null_count col rows <= List.length rows)%nat).
  { unfold null_count. apply filter_length_le. }
  rewrite mean_bool_value by (destruct rows; [congruence | discriminate]).
  rewrite Hlen, count_true_isna.
  replace (Z.of_nat (List.length rows) <? 2 ^ 53)%Z with true
    by (symmetry; now apply Z.ltb_lt).
  destruct (float64_count _ _ Hn Hk) as [H0 [H1 [Hnear _]]].
  eexists. split; [reflexivity|]. split; [reflexivity|]. now split.
Qed.

(** C5. On a non-empty table each overall null ratio is the quotient [k/n]
    of the [k] nulls by the [n] rows computed in [float64]: the number of
    [float64] nearest to [k/n], within one part in [2^53] of it and between
    0 and 1.  The per-date table has one row for each date that some row
    carries and no row for any other date, and the ratios of a date are
    computed in the same way over the rows of that date (of which there is
    at least one, so no ratio is NaN). *)
Theorem null_ratios_rounded (df : DataFrame) :
  Z.of_nat (List.length df) < 2 ^ 53 ->
  (df <> [] ->
   exists q1 q2,
     App.multiMovieYn_null_ratio df = Some q1 /\
     App.repNationCd_null_ratio df = Some q2 /\
     q1 = Pandas.float64
            (Z.of_nat (null_count multiMovieYn df) # Pos.of_nat (List.length df)) /\
     q2 = Pandas.float64
            (Z.of_nat (null_count repNationCd df) # Pos.of_nat (List.length df)) /\
     (Qabs (q1 - fraction (null_count multiMovieYn df) (List.length df))
        <= fraction (null_count multiMovieYn df) (List.length df) * (1 # 2 ^ 53))%Q /\
     (Qabs (q2 - fraction (null_count repNationCd df) (List.length df))
        <= fraction (null_count repNationCd df) (List.length df) * (1 # 2 ^ 53))%Q /\
     (0 <= q1)%Q /\ (q1 <= 1)%Q /\ (0 <= q2)%Q /\ (q2 <= 1)%Q) /\
  NoDup (map App.nr_dt (App.null_ratios df)) /\
  (forall d, In d (map App.nr_dt (App.null_ratios df)) <->
             exists r, In r df /\ dt r = Some d) /\
  (forall row, In row (App.null_ratios df) ->
     rows_on (App.nr_dt row) df <> [] /\
     exists q1 q2,
       App.nr_multiMovieYn row = Some q1 /\
       App.nr_repNationCd row = Some q2 /\
       q1 = Pandas.float64
              (Z.of_nat (null_count multiMovieYn (rows_on (App.nr_dt row) df))
                 # Pos.of_nat (List.length (rows_on (App.nr_dt row) df))) /\
       q2 = Pandas.float64
              (Z.of_nat (null_count repNationCd (rows_on (App.nr_dt row) df))
                 # Pos.of_nat (List.length (rows_on (App.nr_dt row) df))) /\
       (Qabs (q1 - fraction (null_count multiMovieYn (rows_on (App.nr_dt row) df))
                            (List.length (rows_on (App.nr_dt row) df)))
          <= fraction (null_count multiMovieYn (rows_on (App.nr_dt row) df))
                      (List.length (rows_on (App.nr_dt row) df)) * (1 # 2 ^ 53))%Q /\
       (Qabs (q2 - fraction (null_count repNationCd (rows_on (App.nr_dt row) df))
                            (List.length (rows_on (App.nr_dt row) df)))
          <= fraction (null_count repNationCd (rows_on (App.nr_dt row) df))
                      (List.length (rows_on (App.nr_dt row) df)) * (1 # 2 ^ 53))%Q /\
       (0 <= q1)%Q /\ (q1 <= 1)%Q /\ (0 <= q2)%Q /\ (q2 <= 1)%Q).
Proof.
  intros Hbig.
  assert (Hkeys : map App.nr_dt (App.null_ratios df) = map fst (Pandas.groupby dt df)).
  { unfold App.null_ratios. rewrite map_map. reflexivity. }
  split; [|split; [|split]].
  - intros Hne.
    destruct (null_ratio_of _ multiMovieYn df Hne Hbig) as [q1 [H1 [E1 [N1 [L1 U1]]]]].
    destruct (null_ratio_of _ repNationCd df Hne Hbig) as [q2 [H2 [E2 [N2 [L2 U2]]]]].
    exists q1, q2. unfold App.multiMovieYn_null_ratio, App.repNationCd_null_ratio.
    repeat split; assumption.
  - rewrite Hkeys. apply groupby_NoDup.
  - intros d. rewrite Hkeys, groupby_keys. apply group_key_present.
  - intros row Hrow. unfold App.null_ratios in Hrow.
    apply in_map_iff in Hrow. destruct Hrow as [[d rows] [<- Hg]].
    apply groupby_In in Hg. destruct Hg as [Hex ->]. simpl.
    rewrite rows_on_has_key.
    assert (Hne : rows_on d df <> []).
    { rewrite <- rows_on_has_key. now apply group_nonempty. }
    assert (Hsmall : Z.of_nat (List.length (rows_on d df)) < 2 ^ 53).
    { pose proof (filter_length_le (on_date d) df) as Hle. unfold rows_on. lia. }
    split; [exact Hne|].
    destruct (null_ratio_of _ multiMovieYn _ Hne Hsmall) as [q1 [H1 [E1 [N1 [L1 U1]]]]].
    destruct (null_ratio_of _ repNationCd _ Hne Hsmall) as [q2 [H2 [E2 [N2 [L2 U2]]]]].
    exists q1, q2. repeat split; assumption.
Qed.

Lemma null_ratios_rounded_witness :
  Z.of_nat (List.length scenario) < 2 ^ 53 /\
  scenario <> [] /\
  exists q1 q2,
    App.multiMovieYn_null_ratio scenario = Some q1 /\
    App.repNationCd_null_ratio scenario = Some q2 /\
    q1 = Pandas.float64 (1 # 3) /\
    q2 = Pandas.float64 (0 # 3) /\
    (Qabs (q1 - fraction 1 3) <= fraction 1 3 * (1 # 2 ^ 53))%Q /\
    (Qabs (q2 - fraction 0 3) <= fraction 0 3 * (1 # 2 ^ 53))%Q /\
    (0 <= q1)%Q /\ (q1 <= 1)%Q /\ (0 <= q2)%Q /\ (q2 <= 1)%Q.
Proof.
  split; [reflexivity|]. split; [discriminate|].
  apply (null_ratios_rounded scenario); [reflexivity | discriminate].
Defined.

(** C5, as stated, fails.  In the scenario one row of three has no
    multi-theater flag: the ratio is the [float64] nearest to 1/3, which is
    not 1/3. *)
Lemma null_ratio_one_third :
  null_count multiMovieYn scenario = 1%nat /\
  List.length scenario = 3%nat /\
  App.multiMovieYn_null_ratio scenario
    = Some (6004799503160661 # 18014398509481984)%Q /\
  ~ (6004799503160661 # 18014398509481984 == fraction 1 3)%Q.
Proof.
  split; [reflexivity|]. split; [reflexivity|]. split; [reflexivity|].
  unfold fraction, Qeq. simpl. lia.
Qed.

Example null_ratios_scenario :
  App.null_ratios scenario =
    [ App.mkNullRatioRow (mkDate 2024 1 1) (Some (1 # 2)%Q) (Some 0%Q);
      App.mkNullRatioRow (mkDate 2024 1 2) (Some 0%Q) (Some 0%Q) ] /\
  App.repNationCd_null_ratio scenario = Some 0%Q.
Proof. split; reflexivity. Qed.

(** ** The date-range time series *)

Lemma filter_filter_andb {A} (p q : A -> bool) (l : list A) :
  filter p (filter q l) = filter (fun x => q x && p x) l.
Proof.
  induction l as [|a l IH]; simpl; [reflexivity|].
  destruct (q a); simpl; [destruct (p a)|]; now rewrite IH.
Qed.

Lemma date_leb_le (a b : Date) : App.date_leb a b = true <-> a = b \/ klt a b.
Proof.
  unfold App.date_leb, klt. change (date_compare a b) with (kcmp a b).
  destruct (kcmp a b) eqn:E.
  - apply kcmp_eq in E. intuition.
  - intuition.
  - split; [discriminate|]. intros [->|H]; [|discriminate].
    rewrite kcmp_refl in E. discriminate.
Qed.

(** No date lies in a range whose start is after its end. *)
Lemma in_range_empty (start_date end_date : Date) (v : option Date) :
  date_compare start_date end_date = Gt -> App.in_range start_date end_date v = false.
Proof.
  intros Hgt. destruct v as [d|]; [|reflexivity]. simpl.
  apply andb_false_iff.
  destruct (App.date_leb start_date d) eqn:E1; [right | now left].
  destruct (App.date_leb d end_date) eqn:E2; [exfalso | reflexivity].
  apply date_leb_le in E1, E2.
  change (kcmp start_date end_date = Gt) in Hgt. apply kcmp_gt_lt in Hgt.
  destruct E1 as [->|L1], E2 as [->|L2].
  - exact (klt_irrefl _ Hgt).
  - exact (klt_irrefl _ (kcmp_trans _ _ _ L2 Hgt)).
  - exact (klt_irrefl _ (kcmp_trans _ _ _ L1 Hgt)).
  - exact (klt_irrefl _ (kcmp_trans _ _ _ (kcmp_trans _ _ _ L1 L2) Hgt)).
Qed.

Lemma filtered_df_empty (df : DataFrame) (start_date end_date : Date) :
  date_compare start_date end_date = Gt -> App.filtered_df df start_date end_date = [].
Proof.
  intros Hgt. unfold App.filtered_df.
  induction df as [|r l IH]; simpl; [reflexivity|].
  now rewrite in_range_empty.
Qed.

Lemma audience_key_match (d : Date) (m n : string) (r : Row (option Date)) :
  Pandas.has_key App.audience_key (d, m, n) r = audience_match d m n r.
Proof.
  destruct (audience_match d m n r) eqn:E.
  - apply has_key_true. unfold audience_match in E. unfold App.audience_key.
    destruct (dt r), (multiMovieYn r), (repNationCd r); try discriminate.
    apply andb_true_iff in E. destruct E as [E E3].
    apply andb_true_iff in E. destruct E as [E1 E2].
    apply date_eqb_eq in E1. apply String.eqb_eq in E2, E3. now subst.
  - destruct (Pandas.has_key App.audience_key (d, m, n) r) eqn:E'; [|reflexivity].
    apply has_key_true in E'. unfold App.audience_key in E'.
    unfold audience_match in E.
    destruct (dt r), (multiMovieYn r), (repNationCd r); try discriminate.
    inversion E'; subst.
    rewrite !String.eqb_refl, (proj2 (date_eqb_eq d d) eq_refl) in E. discriminate.
Qed.

(** C6. A range whose start is after its end selects no row and gives an
    empty result, without failing.  In general the rows kept are those whose
    date lies between the endpoints, both included; the result has one row
    per (date, flag, nation) combination found among them, holding the sum
    of their audience counts. *)
Theorem audience_data_range (df : DataFrame) (start_date end_date : Date) :
  (date_compare start_date end_date = Gt ->
     App.filtered_df df start_date end_date = [] /\
     App.audience_data df start_date end_date = [] /\
     App.audience_section df [start_date; end_date] = Some []) /\
  (forall r, In r (App.filtered_df df start_date end_date) <->
     In r df /\ exists d, dt r = Some d /\
       date_compare start_date d <> Gt /\ date_compare d end_date <> Gt) /\
  (date_compare start_date end_date <> Gt ->
     forall r, In r df ->
       dt r = Some start_date \/ dt r = Some end_date ->
       In r (App.filtered_df df start_date end_date)) /\
  NoDup (map (fun a => (App.a_dt a, App.a_multiMovieYn a, App.a_repNationCd a))
             (App.audience_data df start_date end_date)) /\
  (forall row, In row (App.audience_data df start_date end_date) <->
     (exists r, In r (App.filtered_df df start_date end_date) /\
        audience_match (App.a_dt row) (App.a_multiMovieYn row) (App.a_repNationCd row) r
          = true) /\
     App.a_audiCnt row =
       Pandas.sum (map audiCnt
         (filter (audience_match (App.a_dt row) (App.a_multiMovieYn row)
                    (App.a_repNationCd row))
                 (App.filtered_df df start_date end_date)))).
Proof.
  assert (Hleb : forall a b, App.date_leb a b = true <-> date_compare a b <> Gt).
  { intros a b. unfold App.date_leb. destruct (date_compare a b); intuition congruence. }
  assert (Hin : forall r, In r (App.filtered_df df start_date end_date) <->
     In r df /\ exists d, dt r = Some d /\
       date_compare start_date d <> Gt /\ date_compare d end_date <> Gt).
  { intros r. unfold App.filtered_df. rewrite filter_In. unfold App.in_range.
    split.
    - intros [Hr Hd]. split; [assumption|]. destruct (dt r) as [d|]; [|discriminate].
      apply andb_true_iff in Hd. rewrite !Hleb in Hd. exists d. tauto.
    - intros [Hr [d [-> [H1 H2]]]]. split; [assumption|].
      apply andb_true_iff. now rewrite !Hleb. }
  split; [|split; [exact Hin | split; [|split]]].
  - intros Hgt. unfold App.audience_section, App.audience_data.
    rewrite (filtered_df_empty df _ _ Hgt). repeat split; reflexivity.
  - intros Hle r Hr Hd. apply Hin. split; [assumption|].
    assert (Hrefl : forall a, date_compare a a <> Gt).
    { intros a. change (date_compare a a) with (kcmp a a). rewrite kcmp_refl. discriminate. }
    destruct Hd as [Hd|Hd]; rewrite Hd; eexists; (split; [reflexivity|]); auto.
  - unfold App.audience_data, App.audience_of. rewrite map_map. simpl.
    rewrite (map_ext _ fst).
    + apply groupby_NoDup.
    + intros [[[d m] n] rows]. reflexivity.
  - intros row. unfold App.audience_data, App.audience_of. rewrite in_map_iff. split.
    + intros [[[[d m] n] rows] [<- Hg]]. simpl.
      apply groupby_In in Hg. destruct Hg as [[r [Hr Hk]] ->]. split.
      * exists r. split; [assumption|]. rewrite <- audience_key_match. now apply has_key_true.
      * f_equal. f_equal. apply filter_ext. intros x. apply audience_key_match.
    + intros [[r [Hr Hm]] Hsum]. destruct row as [d m n c]. simpl in *.
      exists ((d, m, n), filter (Pandas.has_key App.audience_key (d, m, n))
                           (App.filtered_df df start_date end_date)).
      split.
      * simpl. f_equal. rewrite Hsum. f_equal. f_equal. apply filter_ext.
        intros x. apply audience_key_match.
      * apply groupby_In. split; [|reflexivity].
        exists r. split; [assumption|]. apply has_key_true. now rewrite audience_key_match.
Qed.

Example audience_data_scenario :
  App.audience_data scenario (mkDate 2024 1 1) (mkDate 2024 1 2) =
    [ App.mkAudienceRow (mkDate 2024 1 1) "Y" "K" 100;
      App.mkAudienceRow (mkDate 2024 1 2) "Y" "K" 200 ] /\
  App.audience_data scenario (mkDate 2024 1 2) (mkDate 2024 1 1) = [] /\
  App.audience_section scenario [mkDate 2024 1 1] = None.
Proof. repeat split; reflexivity. Qed.

(** ** Rows with a null grouping key *)

Section GroupTotals.

Context {K : Type} `{KeyOrderLaws K} {R : Type}.
Variable key : R -> option K.
Variable measure : R -> Z.

Lemma sum_app (l1 l2 : list Z) : Pandas.sum (l1 ++ l2) = Pandas.sum l1 + Pandas.sum l2.
Proof. induction l1 as [|x l1 IH]; simpl; [reflexivity|]. rewrite IH. lia. Qed.

Lemma sum_map_add {A} (f g : A -> Z) (l : list A) :
  Pandas.sum (map (fun a => f a + g a) l) = Pandas.sum (map f l) + Pandas.sum (map g l).
Proof. induction l as [|a l IH]; simpl; [reflexivity|]. rewrite IH. lia. Qed.

Lemma sum_map_zero {A} (f : A -> Z) (l : list A) :
  (forall a, In a l -> f a = 0) -> Pandas.sum (map f l) = 0.
Proof.
  induction l as [|a l IH]; simpl; intros Hz; [reflexivity|].
  rewrite (Hz a), IH; auto.
Qed.

(** Among duplicate-free keys exactly one is the key of a given row. *)
Lemma sum_indicator (ks : list K) (k0 : K) (x : Z) :
  NoDup ks -> In k0 ks ->
  Pandas.sum (map (fun k => if keqb k0 k then x else 0) ks) = x.
Proof.
  induction 1 as [|k ks Hk Hnd IH]; simpl; [tauto|].
  intros [->|Hin].
  - rewrite (proj2 (keqb_eq k0 k0) eq_refl).
    rewrite sum_map_zero; [lia|].
    intros a Ha. destruct (keqb k0 a) eqn:E; [|reflexivity].
    apply keqb_eq in E. subst. contradiction.
  - destruct (keqb k0 k) eqn:E.
    + apply keqb_eq in E. subst. contradiction.
    + rewrite IH by assumption. lia.
Qed.

Lemma group_sums_total_aux (ks : list K) (df : list R) :
  NoDup ks ->
  (forall r k, In r df -> key r = Some k -> In k ks) ->
  Pandas.sum (map (fun k => Pandas.sum (map measure (filter (Pandas.has_key key k) df))) ks) =
  Pandas.sum (map measure (filter (Pandas.notna key) df)).
Proof.
  intros Hnd. induction df as [|r l IH]; intros Hcov.
  - simpl. now apply sum_map_zero.
  - rewrite (map_ext _ (fun k =>
              (if Pandas.has_key key k r then measure r else 0) +
              Pandas.sum (map measure (filter (Pandas.has_key key k) l)))).
    2:{ intros k. simpl. destruct (Pandas.has_key key k r); simpl; lia. }
    rewrite sum_map_add, IH by (intros r' k Hr'; apply Hcov; now right).
    simpl. unfold Pandas.notna at 2, Pandas.has_key at 1.
    destruct (key r) as [k0|] eqn:E; simpl.
    + rewrite sum_indicator; [lia | assumption |].
      apply (Hcov r k0); [now left | assumption].
    + rewrite sum_map_zero; [lia | reflexivity].
Qed.

(** The sums of the groups add up to the sum over the rows whose key is
    not null: a row with a null key contributes to no group. *)
Lemma group_sums_total (df : list R) :
  Pandas.sum (map (fun g => Pandas.sum (map measure (snd g))) (Pandas.groupby key df)) =
  Pandas.sum (map measure (filter (Pandas.notna key) df)).
Proof.
  unfold Pandas.groupby. rewrite map_map. simpl.
  apply group_sums_total_aux.
  - apply sorted_NoDup, group_keys_sorted.
  - intros r k Hr Hk. apply group_key_present. exists r. auto.
Qed.

End GroupTotals.

Lemma notna_audience_key (r : Row (option Date)) :
  Pandas.notna App.audience_key r = has_date r && has_flag_and_nation r.
Proof.
  unfold Pandas.notna, App.audience_key, has_date, has_flag_and_nation.
  destruct (dt r), (multiMovieYn r), (repNationCd r); reflexivity.
Qed.

Lemma in_range_has_date (s e : Date) (r : Row (option Date)) :
  App.in_range s e (dt r) = true -> has_date r = true.
Proof. unfold has_date. destruct (dt r); [reflexivity | discriminate]. Qed.

Lemma audience_rows_kept (df : DataFrame) (s e : Date) :
  filter (Pandas.notna App.audience_key) (App.filtered_df df s e) =
  filter has_flag_and_nation (App.filtered_df df s e).
Proof.
  apply filter_ext_in. intros r Hr. rewrite notna_audience_key.
  unfold App.filtered_df in Hr. apply filter_In in Hr. destruct Hr as [_ Hr].
  now rewrite (in_range_has_date _ _ _ Hr).
Qed.

(** C9. Grouping leaves out every row whose key is null.  The per-date null
    ratios are those of the table without its null-date rows; the time
    series is that of the table without the rows that lack the flag or the
    nation code, no row of it carries a key of such a row, and its audience
    counts add up to the audience of the remaining rows of the range only. *)
Theorem null_keys_excluded (df : DataFrame) (start_date end_date : Date) :
  App.null_ratios df = App.null_ratios (filter has_date df) /\
  App.audience_data df start_date end_date =
    App.audience_data (filter has_flag_and_nation df) start_date end_date /\
  (forall row r, In row (App.audience_data df start_date end_date) ->
     has_flag_and_nation r = false ->
     audience_match (App.a_dt row) (App.a_multiMovieYn row) (App.a_repNationCd row) r = false) /\
  Pandas.sum (map App.a_audiCnt (App.audience_data df start_date end_date)) =
    Pandas.sum (map audiCnt
      (filter has_flag_and_nation (App.filtered_df df start_date end_date))).
Proof.
  split; [|split; [|split]].
  - unfold App.null_ratios. now rewrite groupby_dropna.
  - unfold App.audience_data, App.audience_of.
    rewrite groupby_dropna.
    rewrite (groupby_dropna _ (App.filtered_df (filter has_flag_and_nation df) _ _)).
    f_equal. f_equal. rewrite !audience_rows_kept. unfold App.filtered_df.
    rewrite !filter_filter_andb. apply filter_ext. intros r.
    destruct (has_flag_and_nation r), (App.in_range start_date end_date (dt r)); reflexivity.
  - intros row r _ Hr. unfold audience_match. unfold has_flag_and_nation in Hr.
    destruct (dt r), (multiMovieYn r), (repNationCd r); try reflexivity; discriminate.
  - unfold App.audience_data, App.audience_of. rewrite map_map. simpl.
    rewrite <- audience_rows_kept. apply group_sums_total.
Qed.

(** In the scenario the row without a flag has 50 viewers on 2024-01-01:
    they are in no total, and its nation code heads no row. *)
Example null_keys_scenario :
  map App.a_audiCnt (App.audience_data scenario (mkDate 2024 1 1) (mkDate 2024 1 2))
    = [100; 200] /\
  Pandas.sum (map audiCnt scenario) = 350 /\
  App.null_ratios (scenario ++ [sample_row None "C" 7 70 None None])%list =
    App.null_ratios scenario.
Proof. repeat split; reflexivity. Qed.

(** ** Indexing and sorting *)

Lemma take_app {A} (a : list A) (ix1 ix2 : list nat) :
  Pandas.take a (ix1 ++ ix2) = (Pandas.take a ix1 ++ Pandas.take a ix2)%list.
Proof. unfold Pandas.take. apply flat_map_app. Qed.

Lemma take_single {A} (a : list A) (i : nat) :
  Pandas.take a [i] = match nth_error a i with Some x => [x] | None => [] end.
Proof. unfold Pandas.take. simpl. apply app_nil_r. Qed.

Section Take.

Context {A : Type}.

Lemma take_cons_in (a : list A) (i : nat) (ix : list nat) (x : A) :
  nth_error a i = Some x -> Pandas.take a (i :: ix) = x :: Pandas.take a ix.
Proof. intros Hx. unfold Pandas.take. simpl. now rewrite Hx. Qed.

Lemma take_seq_shift (pre a : list A) :
  Pandas.take (pre ++ a) (seq (List.length pre) (List.length a)) = a.
Proof.
  revert pre. induction a as [|x a IH]; intros pre; [reflexivity|].
  cbn [List.length seq]. rewrite (take_cons_in _ _ _ x).
  - f_equal. specialize (IH (pre ++ [x])%list).
    rewrite <- app_assoc, length_app, Nat.add_1_r in IH. exact IH.
  - rewrite nth_error_app2, Nat.sub_diag by lia. reflexivity.
Qed.

Lemma take_seq (a : list A) : Pandas.take a (seq 0 (List.length a)) = a.
Proof. exact (take_seq_shift [] a). Qed.

Lemma take_perm (a : list A) (ix1 ix2 : list nat) :
  Permutation ix1 ix2 -> Permutation (Pandas.take a ix1) (Pandas.take a ix2).
Proof. intros Hp. unfold Pandas.take. now apply Permutation_flat_map. Qed.

Lemma take_rev (a : list A) (ix : list nat) :
  Pandas.take a (rev ix) = rev (Pandas.take a ix).
Proof.
  induction ix as [|i ix IH]; [reflexivity|].
  cbn [rev]. rewrite take_app, IH, take_single.
  change (i :: ix) with ([i] ++ ix)%list.
  rewrite (take_app a [i] ix), take_single, rev_app_distr.
  destruct (nth_error a i); reflexivity.
Qed.

Lemma take_length (a : list A) (ix : list nat) :
  Forall (fun i => (i < List.length a)%nat) ix ->
  List.length (Pandas.take a ix) = List.length ix.
Proof.
  induction 1 as [|i ix Hi Hall IH]; [reflexivity|].
  destruct (nth_error a i) as [x|] eqn:E.
  - rewrite (take_cons_in _ _ _ x E). simpl. now rewrite IH.
  - apply nth_error_None in E. lia.
Qed.

(** Indexing through an indexer: [a[b][i]] is [a[b[i]]]. *)
Lemma nth_error_take (a : list A) (b : list nat) (i : nat) :
  Forall (fun j => (j < List.length a)%nat) b ->
  nth_error (Pandas.take a b) i =
  match nth_error b i with Some j => nth_error a j | None => None end.
Proof.
  intros Hall. revert i. induction Hall as [|j b Hj Hall IH]; intros i.
  - destruct i; reflexivity.
  - destruct (nth_error a j) as [x|] eqn:E.
    + rewrite (take_cons_in _ _ _ x E). destruct i; simpl; [now rewrite E | apply IH].
    + apply nth_error_None in E. lia.
Qed.

Lemma take_take (a : list A) (b c : list nat) :
  Forall (fun j => (j < List.length a)%nat) b ->
  Pandas.take a (Pandas.take b c) = Pandas.take (Pandas.take a b) c.
Proof.
  intros Hall. induction c as [|i c IH]; [reflexivity|].
  change (i :: c) with ([i] ++ c)%list. rewrite !take_app, IH. f_equal.
  rewrite (take_single b), (take_single (Pandas.take a b)).
  rewrite (nth_error_take a b i Hall).
  destruct (nth_error b i) as [j|]; [|reflexivity].
  apply take_single.
Qed.

End Take.

Lemma map_take {A B} (f : A -> B) (a : list A) (ix : list nat) :
  map f (Pandas.take a ix) = Pandas.take (map f a) ix.
Proof.
  induction ix as [|i ix IH]; [reflexivity|].
  change (i :: ix) with ([i] ++ ix)%list. rewrite !take_app, map_app, IH. f_equal.
  rewrite !take_single, nth_error_map.
  destruct (nth_error a i); reflexivity.
Qed.

Lemma seq_in_range (n : nat) : Forall (fun i => (i < n)%nat) (seq 0 n).
Proof. apply Forall_forall. intros i Hi. apply in_seq in Hi. lia. Qed.

Lemma StronglySorted_rev {A} (R : A -> A -> Prop) (l : list A) :
  StronglySorted R l -> StronglySorted (fun x y => R y x) (rev l).
Proof.
  induction 1 as [|a l Hs IH Hall]; simpl; [constructor|].
  assert (Happ : forall l1 l2, StronglySorted (fun x y => R y x) l1 ->
                   StronglySorted (fun x y => R y x) l2 ->
                   (forall x y, In x l1 -> In y l2 -> R y x) ->
                   StronglySorted (fun x y => R y x) (l1 ++ l2)).
  { induction l1 as [|b l1 IH1]; intros l2 H1 H2 Hc; simpl; [assumption|].
    inversion H1 as [|? ? Hs1 Hall1]; subst. constructor.
    - apply IH1; auto. intros x y Hx Hy. apply Hc; [now right | assumption].
    - rewrite Forall_forall in *. intros y Hy. apply in_app_or in Hy.
      destruct Hy as [Hy|Hy]; [now apply Hall1 | apply Hc; [now left | assumption]]. }
  apply Happ; [assumption | repeat constructor |].
  intros x y Hx [<-|[]]. rewrite Forall_forall in Hall. apply Hall.
  now apply in_rev.
Qed.

Lemma StronglySorted_firstn {A} (R : A -> A -> Prop) (n : nat) (l : list A) :
  StronglySorted R l -> StronglySorted R (firstn n l).
Proof.
  intros Hs. revert n. induction Hs as [|a l Hs IH Hall]; intros [|n]; simpl;
    try constructor.
  - apply IH.
  - rewrite Forall_forall in *. intros x Hx. apply Hall.
    rewrite <- (firstn_skipn n l). apply in_or_app. now left.
Qed.

Section SortValues.

Variable A : Pandas.ArgSort.
Context {K : Type}.

(** Sorting a series in descending order: the reversed series is indexed
    by the argsort of its reversed values, and the outcome is reversed. *)
Lemma sort_values_desc_eq (s : list (K * Z)) :
  Pandas.sort_values_desc A s =
  rev (Pandas.take (rev s) (Pandas.argsort A (rev (map snd s)))).
Proof.
  unfold Pandas.sort_values_desc, Pandas.nargsort_desc.
  rewrite take_rev. f_equal. rewrite length_map.
  rewrite take_take.
  - now rewrite take_rev, take_seq.
  - apply Forall_forall. intros i Hi. apply in_rev in Hi.
    apply in_seq in Hi. lia.
Qed.

Lemma sort_values_desc_perm (s : list (K * Z)) :
  Permutation (Pandas.sort_values_desc A s) s.
Proof.
  rewrite sort_values_desc_eq.
  eapply Permutation_trans; [symmetry; apply Permutation_rev|].
  eapply Permutation_trans; [|symmetry; apply Permutation_rev].
  eapply Permutation_trans.
  - apply take_perm, Pandas.argsort_perm.
  - rewrite length_rev, length_map, <- (length_rev s), take_seq. reflexivity.
Qed.

Lemma sort_values_desc_sorted (s : list (K * Z)) :
  StronglySorted (fun x y => x >= y) (map snd (Pandas.sort_values_desc A s)).
Proof.
  rewrite sort_values_desc_eq, map_rev, map_take, map_rev.
  pose proof (StronglySorted_rev Z.le _ (Pandas.argsort_sorted A (rev (map snd s)))) as Hs.
  induction Hs as [|a l _ IH Hall]; constructor; [assumption|].
  rewrite Forall_forall in *. intros x Hx. apply Hall in Hx. lia.
Qed.

End SortValues.

(** The insertion sort of the samples meets the contract of [argsort]. *)
Section InsertionSort.

Variable a : list Z.

Lemma insert_position_perm (i : nat) (placed : list nat) :
  Permutation (insert_position a i placed) (i :: placed).
Proof.
  induction placed as [|j rest IH]; simpl; [reflexivity|].
  destruct (nth i a 0 <? nth j a 0)%Z; [reflexivity|].
  eapply Permutation_trans; [apply perm_skip, IH | apply perm_swap].
Qed.

Lemma insert_all_perm (l placed : list nat) :
  Permutation (fold_left (fun p i => insert_position a i p) l placed)
              (l ++ placed).
Proof.
  revert placed. induction l as [|i l IH]; intros placed; simpl; [reflexivity|].
  eapply Permutation_trans; [apply IH|].
  eapply Permutation_trans; [apply Permutation_app_head, insert_position_perm|].
  symmetry. apply Permutation_middle.
Qed.

Lemma insert_position_sorted (i : nat) (placed : list nat) :
  StronglySorted (fun x y => value_at a x <= value_at a y) placed ->
  StronglySorted (fun x y => value_at a x <= value_at a y) (insert_position a i placed).
Proof.
  induction 1 as [|j rest Hs IH Hall]; simpl.
  - repeat constructor.
  - fold (value_at a i). fold (value_at a j).
    destruct (value_at a i <? value_at a j)%Z eqn:E.
    + apply Z.ltb_lt in E. constructor; [now constructor|].
      constructor; [lia|].
      rewrite Forall_forall in *. intros x Hx. apply Hall in Hx. lia.
    + apply Z.ltb_ge in E. constructor; [assumption|].
      rewrite Forall_forall in *. intros x Hx.
      apply (Permutation_in _ (insert_position_perm i rest)) in Hx.
      destruct Hx as [<-|Hx]; [assumption | now apply Hall].
Qed.

Lemma insert_all_sorted (l placed : list nat) :
  StronglySorted (fun x y => value_at a x <= value_at a y) placed ->
  StronglySorted (fun x y => value_at a x <= value_at a y)
    (fold_left (fun p i => insert_position a i p) l placed).
Proof.
  revert placed. induction l as [|i l IH]; intros placed Hs; simpl; [assumption|].
  apply IH. now apply insert_position_sorted.
Qed.

Lemma take_values (ix : list nat) :
  Forall (fun i => (i < List.length a)%nat) ix ->
  Pandas.take a ix = map (value_at a) ix.
Proof.
  induction 1 as [|i ix Hi Hall IH]; [reflexivity|].
  rewrite (take_cons_in a i ix (value_at a i)).
  - simpl. now f_equal.
  - unfold value_at. now apply nth_error_nth'.
Qed.

End InsertionSort.

Lemma insertion_argsort_perm (a : list Z) :
  Permutation (insertion_argsort a) (seq 0 (List.length a)).
Proof.
  unfold insertion_argsort.
  eapply Permutation_trans; [apply insert_all_perm|]. now rewrite app_nil_r.
Qed.

Lemma insertion_argsort_sorted (a : list Z) :
  StronglySorted Z.le (Pandas.take a (insertion_argsort a)).
Proof.
  rewrite take_values.
  - apply StronglySorted_map. unfold insertion_argsort.
    apply insert_all_sorted. constructor.
  - apply Forall_forall. intros i Hi.
    apply (Permutation_in _ (insertion_argsort_perm a)) in Hi.
    apply in_seq in Hi. lia.
Qed.

(** An instance of the parameter, for the sample tables: the contract of
    [Pandas.ArgSort] can be met.  The library's own routine is another
    instance, which may order equal values differently. *)
Definition sample_argsort : Pandas.ArgSort :=
  Pandas.mkArgSort insertion_argsort insertion_argsort_perm insertion_argsort_sorted.

(** ** The top-10 rankings *)

Section Ranking.

Variable measure : Row (option Date) -> Z.

Lemma dropna_movieNm (df : DataFrame) :
  Pandas.dropna (map (fun r => Some (movieNm r)) df) = map movieNm df.
Proof. induction df as [|r l IH]; simpl; [reflexivity | now rewrite IH]. Qed.

Lemma has_key_movieNm (name : string) (df : DataFrame) :
  filter (Pandas.has_key (fun r => Some (movieNm r)) name) df = rows_of_movie name df.
Proof.
  unfold rows_of_movie. apply filter_ext. intros r. unfold Pandas.has_key.
  destruct (String.eqb (movieNm r) name) eqn:E.
  - apply keqb_eq. now apply String.eqb_eq.
  - destruct (keqb (movieNm r) name) eqn:E'; [|reflexivity].
    apply keqb_eq, String.eqb_eq in E'. congruence.
Qed.

Lemma groupby_sum_names (df : DataFrame) :
  map fst (App.groupby_sum measure df) = Pandas.group_keys (map movieNm df).
Proof.
  unfold App.groupby_sum. rewrite map_map. simpl.
  rewrite <- dropna_movieNm. apply groupby_keys.
Qed.

(** One row per movie of the table, holding the sum over its rows. *)
Lemma groupby_sum_In (df : DataFrame) (name : string) (total : Z) :
  In (name, total) (App.groupby_sum measure df) <->
  (exists r, In r df /\ movieNm r = name) /\
  total = Pandas.sum (map measure (rows_of_movie name df)).
Proof.
  unfold App.groupby_sum. rewrite in_map_iff. split.
  - intros [[k rows] [E Hg]]. simpl in E. inversion E; subst.
    apply groupby_In in Hg. destruct Hg as [[r [Hr Hk]] ->]. split.
    + exists r. split; [assumption | congruence].
    + now rewrite has_key_movieNm.
  - intros [[r [Hr Hk]] ->].
    exists (name, filter (Pandas.has_key (fun r => Some (movieNm r)) name) df).
    split; [simpl; now rewrite has_key_movieNm|].
    apply groupby_In. split; [|reflexivity]. exists r. split; [assumption | congruence].
Qed.

Lemma groupby_sum_length (df : DataFrame) :
  List.length (App.groupby_sum measure df) = List.length (Pandas.unique (map movieNm df)).
Proof.
  rewrite <- (length_map fst), groupby_sum_names.
  apply Permutation_length, NoDup_Permutation.
  - apply sorted_NoDup, group_keys_sorted.
  - apply unique_NoDup.
  - intros x. now rewrite group_keys_In, unique_In.
Qed.

End Ranking.

Lemma StronglySorted_app_inv {A} (R : A -> A -> Prop) (l1 l2 : list A) :
  StronglySorted R (l1 ++ l2) -> forall x y, In x l1 -> In y l2 -> R x y.
Proof.
  induction l1 as [|a l1 IH]; simpl; intros Hs x y Hx Hy; [destruct Hx|].
  inversion Hs as [|? ? Hs' Hall]; subst.
  destruct Hx as [<-|Hx]; [|now apply IH].
  rewrite Forall_forall in Hall. apply Hall, in_or_app. now right.
Qed.

Lemma sorted_by_snd (l : list (string * Z)) :
  StronglySorted (fun x y => x >= y) (map snd l) -> descending l.
Proof.
  unfold descending. induction l as [|a l IH]; simpl; intros Hs; [constructor|].
  inversion Hs as [|? ? Hs' Hall]; subst. constructor; [now apply IH|].
  rewrite Forall_forall in *. intros x Hx. apply Hall. now apply in_map.
Qed.

Section TopN.

Variable A : Pandas.ArgSort.
Variable measure : Row (option Date) -> Z.
Variable df : DataFrame.

Let grouped := App.groupby_sum measure df.
Let sorted := Pandas.sort_values_desc A grouped.

Lemma top_n_split : (App.top_n A measure df ++ skipn 10 sorted)%list = sorted.
Proof. apply firstn_skipn. Qed.

Lemma top_n_length :
  List.length (App.top_n A measure df) =
    Nat.min 10 (List.length (Pandas.unique (map movieNm df))).
Proof.
  unfold App.top_n, Pandas.head.
  rewrite length_firstn, (Permutation_length (sort_values_desc_perm A _)).
  now rewrite groupby_sum_length.
Qed.

Lemma sorted_descending : descending sorted.
Proof. apply sorted_by_snd, sort_values_desc_sorted. Qed.

Lemma top_n_descending : descending (App.top_n A measure df).
Proof. apply StronglySorted_firstn, sorted_descending. Qed.

Lemma top_n_NoDup : NoDup (map fst (App.top_n A measure df)).
Proof.
  unfold App.top_n, Pandas.head. rewrite <- firstn_map.
  assert (Hnd : NoDup (map fst sorted)).
  { apply (Permutation_NoDup (l := map fst grouped)).
    - symmetry. apply Permutation_map, sort_values_desc_perm.
    - unfold grouped. rewrite groupby_sum_names. apply sorted_NoDup, group_keys_sorted. }
  rewrite <- (firstn_skipn 10 (map fst sorted)) in Hnd.
  now apply NoDup_app_remove_r in Hnd.
Qed.

Lemma top_n_In (name : string) (total : Z) :
  In (name, total) (App.top_n A measure df) ->
  (exists r, In r df /\ movieNm r = name) /\
  total = Pandas.sum (map measure (rows_of_movie name df)).
Proof.
  intros Hin. apply groupby_sum_In.
  apply (Permutation_in _ (sort_values_desc_perm A _)).
  fold grouped. fold sorted. rewrite <- top_n_split. apply in_or_app. now left.
Qed.

Lemma top_n_largest :
  exists rest,
    Permutation (App.top_n A measure df ++ rest) (App.groupby_sum measure df) /\
    forall x y, In x (App.top_n A measure df) -> In y rest -> snd x >= snd y.
Proof.
  exists (skipn 10 sorted). split.
  - rewrite top_n_split. apply sort_values_desc_perm.
  - apply (StronglySorted_app_inv (fun x y => snd x >= snd y)).
    rewrite top_n_split. exact sorted_descending.
Qed.

End TopN.

(** C7. A ranking has as many rows as there are distinct movie names, up to
    ten, in descending order of the sums.  Its rows are rows of the
    per-movie sums, one per movie, and none of the movies left out has a
    larger sum than one of the ranking. *)
Theorem top_n_length_sorted (A : Pandas.ArgSort) (df : DataFrame)
    (measure : Row (option Date) -> Z) :
  List.length (App.top_n A measure df) =
    Nat.min 10 (List.length (Pandas.unique (map movieNm df))) /\
  descending (App.top_n A measure df) /\
  NoDup (map fst (App.top_n A measure df)) /\
  (forall name total, In (name, total) (App.top_n A measure df) ->
     (exists r, In r df /\ movieNm r = name) /\
     total = Pandas.sum (map measure (rows_of_movie name df))) /\
  (exists rest,
     Permutation (App.top_n A measure df ++ rest) (App.groupby_sum measure df) /\
     forall x y, In x (App.top_n A measure df) -> In y rest -> snd x >= snd y) /\
  App.top_sales A df = App.top_n A salesAmt df /\
  App.top_audience A df = App.top_n A audiCnt df.
Proof.
  split; [apply top_n_length|].
  split; [apply top_n_descending|].
  split; [apply top_n_NoDup|].
  split; [apply top_n_In|].
  split; [apply top_n_largest|].
  split; reflexivity.
Qed.

Example top_sales_sample :
  App.top_sales sample_argsort scenario = [("A", 3000); ("B", 500)] /\
  App.top_audience sample_argsort scenario = [("A", 300); ("B", 50)].
Proof. split; reflexivity. Qed.

(** ** The order of equal sums *)

Lemma sum_filter_perm {R} (p : R -> bool) (m : R -> Z) (l1 l2 : list R) :
  Permutation l1 l2 ->
  Pandas.sum (map m (filter p l1)) = Pandas.sum (map m (filter p l2)).
Proof.
  induction 1 as [|x l1 l2 Hp IH|x y l|l1 l2 l3 H12 IH12 H23 IH23]; simpl.
  - reflexivity.
  - destruct (p x); simpl; now rewrite IH.
  - destruct (p x), (p y); simpl; lia.
  - congruence.
Qed.

(** The per-movie sums do not depend on the order of the rows. *)
Lemma groupby_sum_perm (measure : Row (option Date) -> Z) (df1 df2 : DataFrame) :
  Permutation df1 df2 -> App.groupby_sum measure df1 = App.groupby_sum measure df2.
Proof.
  intros Hp. unfold App.groupby_sum, Pandas.groupby. rewrite !map_map. simpl.
  rewrite !dropna_movieNm.
  rewrite (group_keys_ext (map movieNm df1) (map movieNm df2)).
  - apply map_ext. intros k. f_equal. now apply sum_filter_perm.
  - intros x. split; apply Permutation_in; [|symmetry]; now apply Permutation_map.
Qed.

Lemma groupby_sum_by_name (measure : Row (option Date) -> Z) (df : DataFrame) :
  App.groupby_sum measure df =
  map (fun name => (name, Pandas.sum (map measure (rows_of_movie name df))))
      (Pandas.group_keys (map movieNm df)).
Proof.
  unfold App.groupby_sum, Pandas.groupby. rewrite map_map, dropna_movieNm.
  apply map_ext. intros name. cbn [fst snd]. now rewrite has_key_movieNm.
Qed.

Lemma top_n_perm (A : Pandas.ArgSort) (measure : Row (option Date) -> Z)
    (df1 df2 : DataFrame) :
  Permutation df1 df2 -> App.top_n A measure df1 = App.top_n A measure df2.
Proof. intros Hp. unfold App.top_n. now rewrite (groupby_sum_perm _ df1 df2 Hp). Qed.

Lemma StronglySorted_nth {X} (R : X -> X -> Prop) (l : list X) (i j : nat) (x y : X) :
  StronglySorted R l -> (i < j)%nat ->
  nth_error l i = Some x -> nth_error l j = Some y -> R x y.
Proof.
  intros Hs. revert i j. induction Hs as [|z l Hs IH Hall]; intros i j Hij Hx Hy.
  - destruct i; discriminate.
  - destruct j as [|j]; [lia|]. simpl in Hy. destruct i as [|i].
    + simpl in Hx. inversion Hx; subst. rewrite Forall_forall in Hall.
      apply Hall. eapply nth_error_In; eassumption.
    + simpl in Hx. apply (IH i j); [lia | assumption | assumption].
Qed.

(** C1. A ranking is computed from the per-movie sums listed in ascending
    order of the movie names, so it is the same for any two tables that
    hold the same rows in whatever order, and the same table always gives
    the same ranking: where a movie first appears in the table has no part
    in the place of equal sums. *)
Theorem top_n_order_determined (A : Pandas.ArgSort) (measure : Row (option Date) -> Z)
    (df1 df2 : DataFrame) :
  Permutation df1 df2 ->
  App.top_n A measure df1 = App.top_n A measure df2 /\
  App.top_sales A df1 = App.top_sales A df2 /\
  App.top_audience A df1 = App.top_audience A df2 /\
  App.top_n A measure df1 =
    Pandas.head 10 (Pandas.sort_values_desc A
      (map (fun name => (name, Pandas.sum (map measure (rows_of_movie name df1))))
           (Pandas.group_keys (map movieNm df1)))).
Proof.
  intros Hp. unfold App.top_sales.
  unfold App.top_audience. rewrite !(top_n_perm A _ df1 df2 Hp).
  split; [reflexivity|]. split; [reflexivity|]. split; [reflexivity|].
  rewrite <- (top_n_perm A _ df1 df2 Hp).
  unfold App.top_n. now rewrite groupby_sum_by_name.
Qed.

Lemma top_n_order_determined_witness :
  Permutation ranking_sample ranking_sample_swapped /\
  App.top_n sample_argsort salesAmt ranking_sample =
    App.top_n sample_argsort salesAmt ranking_sample_swapped /\
  App.top_sales sample_argsort ranking_sample =
    App.top_sales sample_argsort ranking_sample_swapped /\
  App.top_audience sample_argsort ranking_sample =
    App.top_audience sample_argsort ranking_sample_swapped /\
  App.top_n sample_argsort salesAmt ranking_sample =
    Pandas.head 10 (Pandas.sort_values_desc sample_argsort
      (map (fun name => (name, Pandas.sum (map salesAmt (rows_of_movie name ranking_sample))))
           (Pandas.group_keys (map movieNm ranking_sample)))).
Proof.
  split; [apply perm_swap|].
  apply (top_n_order_determined sample_argsort salesAmt ranking_sample ranking_sample_swapped).
  apply perm_swap.
Defined.

(** C1, as stated, fails.  Two tables hold the same three rows, A first in
    one and B first in the other, and A and B have equal sums.  Whatever the
    sort routine does with equal sums, it gives one ranking for the two
    tables, and that ranking goes against the order of first appearance in
    one of them. *)
Lemma top_sales_ties_not_first_appearance :
  Pandas.unique (map movieNm ranking_sample) = ["A"; "B"; "C"] /\
  Pandas.unique (map movieNm ranking_sample_swapped) = ["B"; "A"; "C"] /\
  App.groupby_sum salesAmt ranking_sample = [("A", 100); ("B", 100); ("C", 50)] /\
  App.groupby_sum salesAmt ranking_sample_swapped = [("A", 100); ("B", 100); ("C", 50)] /\
  (forall A : Pandas.ArgSort,
      App.top_sales A ranking_sample = App.top_sales A ranking_sample_swapped) /\
  (forall A : Pandas.ArgSort,
      ~ (ties_by_first_appearance ranking_sample (App.top_sales A ranking_sample) /\
         ties_by_first_appearance ranking_sample_swapped
           (App.top_sales A ranking_sample_swapped))).
Proof.
  split; [reflexivity|]. split; [reflexivity|].
  split; [reflexivity|]. split; [reflexivity|]. split.
  - intros A. apply top_n_perm. apply perm_swap.
  - intros A [H1 H2].
    pose proof (top_n_length A salesAmt ranking_sample) as Hlen.
    pose proof (top_n_descending A salesAmt ranking_sample) as Hdesc.
    pose proof (top_n_NoDup A salesAmt ranking_sample) as Hnd.
    pose proof (top_n_In A salesAmt ranking_sample) as Hin.
    assert (Hsame : App.top_sales A ranking_sample_swapped = App.top_sales A ranking_sample).
    { symmetry. apply top_n_perm. apply perm_swap. }
    rewrite Hsame in H2. unfold App.top_sales in *.
    destruct (App.top_n A salesAmt ranking_sample) as [|[a va] [|[b vb] [|[c vc] [|? ?]]]];
      try discriminate Hlen.
    assert (Hv : forall n t, In (n, t) [(a, va); (b, vb); (c, vc)] ->
                   (n = "A" /\ t = 100) \/ (n = "B" /\ t = 100) \/ (n = "C" /\ t = 50)).
    { intros n t Hnt. apply Hin in Hnt. destruct Hnt as [[r [Hr Hn]] ->].
      destruct Hr as [<-|[<-|[<-|[]]]]; subst n; auto. }
    pose proof (Hv a va (or_introl eq_refl)) as Ha.
    pose proof (Hv b vb (or_intror (or_introl eq_refl))) as Hb.
    pose proof (Hv c vc (or_intror (or_intror (or_introl eq_refl)))) as Hc.
    inversion Hdesc as [|? ? Hd1 Hall1]; subst.
    inversion Hd1 as [|? ? Hd2 Hall2]; subst.
    inversion Hall1 as [|? ? Hab Hall1']; subst. inversion Hall1' as [|? ? Hac _]; subst.
    inversion Hall2 as [|? ? Hbc _]; subst. simpl in Hab, Hac, Hbc.
    inversion Hnd as [|? ? Hna Hnd1]; subst. inversion Hnd1 as [|? ? Hnb _]; subst.
    simpl in Hna, Hnb.
    destruct Ha as [[-> ->]|[[-> ->]|[-> ->]]], Hb as [[-> ->]|[[-> ->]|[-> ->]]],
      Hc as [[-> ->]|[[-> ->]|[-> ->]]]; try lia; try tauto.
    + specialize (H2 0%nat 1%nat "A" "B" 100 ltac:(lia) eq_refl eq_refl).
      simpl in H2. lia.
    + specialize (H1 0%nat 1%nat "B" "A" 100 ltac:(lia) eq_refl eq_refl).
      simpl in H1. lia.
Qed.

(** ** Parsing the date column *)

Lemma class_true (lo hi : Z) (c : ascii) :
  Pandas.class lo hi c = true <-> lo <= Pandas.code c <= hi.
Proof. unfold Pandas.class. rewrite andb_true_iff, !Z.leb_le. tauto. Qed.

Lemma class_false (lo hi : Z) (c : ascii) :
  Pandas.class lo hi c = false <-> Pandas.code c < lo \/ hi < Pandas.code c.
Proof. unfold Pandas.class. rewrite andb_false_iff, !Z.leb_gt. tauto. Qed.

Lemma code_range (c : ascii) : 0 <= Pandas.code c < 256.
Proof.
  unfold Pandas.code. pose proof (N_ascii_bounded c) as Hb. lia.
Qed.

Lemma digit_char_code (c : ascii) : digit_char (Pandas.code c - 48) = c.
Proof.
  unfold digit_char, Pandas.code.
  replace (48 + (Z.of_N (N_of_ascii c) - 48)) with (Z.of_N (N_of_ascii c)) by lia.
  rewrite N2Z.id. apply ascii_N_embedding.
Qed.

Lemma code_digit_char (k : Z) : 0 <= k <= 9 -> Pandas.code (digit_char k) = 48 + k.
Proof.
  intros Hk. unfold Pandas.code, digit_char.
  rewrite N_ascii_embedding; lia.
Qed.

Lemma code_blank (c : ascii) : Pandas.code c = 32 -> c = " "%char.
Proof.
  intros Hc. rewrite <- (ascii_N_embedding c). unfold Pandas.code in Hc.
  replace (N_of_ascii c) with 32%N by lia. reflexivity.
Qed.

Ltac class_facts :=
  repeat match goal with
    | H : Pandas.class _ _ _ = true |- _ => apply class_true in H
    | H : Pandas.class _ _ _ = false |- _ => apply class_false in H
    end.

Ltac split_class :=
  repeat match goal with
    | |- context [Pandas.class ?lo ?hi ?c] =>
        let E := fresh "E" in destruct (Pandas.class lo hi c) eqn:E; cbn [andb]
    end.

(** A zero-padded two-digit day is matched by one of the two-character
    alternatives, and a zero-padded two-digit month followed by it is matched
    without backtracking. *)
Lemma match_d_padded (d1 d2 : ascii) (rest : list ascii) :
  Pandas.class 48 57 d1 = true -> Pandas.class 48 57 d2 = true ->
  1 <= 10 * Pandas.digit_value d1 + Pandas.digit_value d2 <= 31 ->
  Pandas.match_d (d1 :: d2 :: rest) =
    Some (10 * Pandas.digit_value d1 + Pandas.digit_value d2, rest).
Proof.
  intros H1 H2 Hd. unfold Pandas.match_d, Pandas.first_of, Pandas.two.
  cbn [fold_right]. unfold Pandas.digit_value in *.
  split_class; class_facts; try reflexivity; exfalso; lia.
Qed.

Lemma match_md_padded (m1 m2 d1 d2 : ascii) (rest : list ascii) :
  Pandas.class 48 57 m1 = true -> Pandas.class 48 57 m2 = true ->
  Pandas.class 48 57 d1 = true -> Pandas.class 48 57 d2 = true ->
  1 <= 10 * Pandas.digit_value m1 + Pandas.digit_value m2 <= 12 ->
  1 <= 10 * Pandas.digit_value d1 + Pandas.digit_value d2 <= 31 ->
  Pandas.match_md (m1 :: m2 :: d1 :: d2 :: rest) =
    Some (10 * Pandas.digit_value m1 + Pandas.digit_value m2,
          10 * Pandas.digit_value d1 + Pandas.digit_value d2, rest).
Proof.
  intros H1 H2 H3 H4 Hm Hd. unfold Pandas.match_md, Pandas.first_of, Pandas.two.
  cbn [fold_right].
  destruct (Pandas.class 49 49 m1 && Pandas.class 48 50 m2) eqn:E1.
  - unfold Pandas.then_d. now rewrite match_d_padded.
  - cbn [Pandas.then_d].
    destruct (Pandas.class 48 48 m1 && Pandas.class 49 57 m2) eqn:E2.
    + unfold Pandas.then_d. now rewrite match_d_padded.
    + exfalso. unfold Pandas.digit_value in *.
      apply andb_false_iff in E1, E2. class_facts.
      destruct E1 as [E1|E1], E2 as [E2|E2]; class_facts; lia.
Qed.

Lemma valid_date_bounds (d : Date) :
  Pandas.valid_date d = true ->
  1 <= month d <= 12 /\ 1 <= day d <= 31.
Proof.
  unfold Pandas.valid_date. rewrite !andb_true_iff, !Z.leb_le.
  intros [[[H3 H4] H5] H6].
  assert (Pandas.days_in_month (year d) (month d) <= 31).
  { unfold Pandas.days_in_month.
    destruct (month d =? 2)%Z; [destruct (Pandas.is_leap (year d)); lia|].
    destruct ((month d =? 4)%Z || (month d =? 6)%Z || (month d =? 9)%Z || (month d =? 11)%Z);
      lia. }
  lia.
Qed.

Lemma digits2_value (c1 c2 : ascii) :
  Pandas.class 48 57 c1 = true -> Pandas.class 48 57 c2 = true ->
  digits2 (10 * Pandas.digit_value c1 + Pandas.digit_value c2) = [c1; c2].
Proof.
  intros H1 H2. class_facts. unfold digits2, Pandas.digit_value.
  replace ((10 * (Pandas.code c1 - 48) + (Pandas.code c2 - 48)) / 10)
    with (Pandas.code c1 - 48) by (Z.div_mod_to_equations; lia).
  replace ((10 * (Pandas.code c1 - 48) + (Pandas.code c2 - 48)) mod 10)
    with (Pandas.code c2 - 48) by (Z.div_mod_to_equations; lia).
  now rewrite !digit_char_code.
Qed.

Lemma digits4_value (c1 c2 c3 c4 : ascii) :
  Pandas.class 48 57 c1 = true -> Pandas.class 48 57 c2 = true ->
  Pandas.class 48 57 c3 = true -> Pandas.class 48 57 c4 = true ->
  digits4 (1000 * Pandas.digit_value c1 + 100 * Pandas.digit_value c2
           + 10 * Pandas.digit_value c3 + Pandas.digit_value c4) = [c1; c2; c3; c4].
Proof.
  intros H1 H2 H3 H4. class_facts. unfold digits4, Pandas.digit_value.
  set (a := Pandas.code c1 - 48) in *. set (b := Pandas.code c2 - 48) in *.
  set (c := Pandas.code c3 - 48) in *. set (e := Pandas.code c4 - 48) in *.
  assert (Ha : 0 <= a <= 9) by (unfold a; lia).
  assert (Hb : 0 <= b <= 9) by (unfold b; lia).
  assert (Hc : 0 <= c <= 9) by (unfold c; lia).
  assert (He : 0 <= e <= 9) by (unfold e; lia).
  replace ((1000 * a + 100 * b + 10 * c + e) / 1000) with a
    by (Z.div_mod_to_equations; lia).
  replace ((1000 * a + 100 * b + 10 * c + e) / 100 mod 10) with b
    by (Z.div_mod_to_equations; lia).
  replace ((1000 * a + 100 * b + 10 * c + e) / 10 mod 10) with c
    by (Z.div_mod_to_equations; lia).
  replace ((1000 * a + 100 * b + 10 * c + e) mod 10) with e
    by (Z.div_mod_to_equations; lia).
  unfold a, b, c, e. now rewrite !digit_char_code.
Qed.

(** Off the clock literals the conversion is the parse against the format;
    on them the format does not match either. *)
Lemma to_datetime_strptime (in_bounds : Date -> bool) (raw : string) :
  Pandas.to_datetime in_bounds raw =
  match Pandas.strptime in_bounds raw with
  | inl d => Some d
  | inr _ => None
  end.
Proof.
  unfold Pandas.to_datetime, Pandas.convert.
  destruct (Pandas.clock_literal raw) eqn:C.
  - unfold Pandas.clock_literal in C. apply orb_true_iff in C.
    destruct C as [C|C]; apply String.eqb_eq in C; subst raw; reflexivity.
  - destruct (Pandas.strptime in_bounds raw); reflexivity.
Qed.

(** What [read_YYYYMMDD] says of a raw value it accepts. *)
Lemma read_YYYYMMDD_inv (raw : string) (d : Date) :
  read_YYYYMMDD raw = Some d ->
  exists y1 y2 y3 y4 m1 m2 d1 d2,
    list_ascii_of_string raw = [y1; y2; y3; y4; m1; m2; d1; d2] /\
    (Pandas.class 48 57 y1 = true /\ Pandas.class 48 57 y2 = true /\
     Pandas.class 48 57 y3 = true /\ Pandas.class 48 57 y4 = true /\
     Pandas.class 48 57 m1 = true /\ Pandas.class 48 57 m2 = true /\
     Pandas.class 48 57 d1 = true /\ Pandas.class 48 57 d2 = true) /\
    d = mkDate (1000 * Pandas.digit_value y1 + 100 * Pandas.digit_value y2
                + 10 * Pandas.digit_value y3 + Pandas.digit_value y4)
               (10 * Pandas.digit_value m1 + Pandas.digit_value m2)
               (10 * Pandas.digit_value d1 + Pandas.digit_value d2).
Proof.
  unfold read_YYYYMMDD.
  destruct (list_ascii_of_string raw)
    as [|y1 [|y2 [|y3 [|y4 [|m1 [|m2 [|d1 [|d2 [|? ?]]]]]]]]]; try discriminate.
  destruct (forallb (Pandas.class 48 57) [y1; y2; y3; y4; m1; m2; d1; d2]) eqn:E;
    [|discriminate].
  intros Hd. inversion Hd; subst. exists y1, y2, y3, y4, m1, m2, d1, d2.
  split; [reflexivity|]. split; [|reflexivity].
  cbn [forallb] in E. rewrite !andb_true_iff in E. tauto.
Qed.

(** Eight digits that form a calendar date the timestamp type holds are
    parsed to that date, and formatting the date gives the digits back. *)
Lemma to_datetime_valid (in_bounds : Date -> bool) (raw : string) (d : Date) :
  read_YYYYMMDD raw = Some d ->
  Pandas.valid_date d = true ->
  in_bounds d = true ->
  Pandas.to_datetime in_bounds raw = Some d /\ strftime_Ymd d = raw.
Proof.
  intros Hread Hvalid Hin.
  destruct (read_YYYYMMDD_inv raw d Hread)
    as [y1 [y2 [y3 [y4 [m1 [m2 [d1 [d2 [Hs [Hall Hd]]]]]]]]]].
  destruct Hall as [Y1 [Y2 [Y3 [Y4 [M1 [M2 [D1 D2]]]]]]].
  pose proof (valid_date_bounds d Hvalid) as Hb. split.
  - rewrite to_datetime_strptime. unfold Pandas.strptime, Pandas.regex_match. rewrite Hs.
    unfold Pandas.match_Y. rewrite Y1, Y2, Y3, Y4. cbn [andb].
    rewrite match_md_padded
      by (try assumption; rewrite Hd in Hb; cbn [year month day] in Hb; lia).
    rewrite <- Hd, Hvalid, Hin. reflexivity.
  - unfold strftime_Ymd. rewrite Hd. cbn [year month day].
    rewrite digits4_value, !digits2_value by assumption.
    cbn [app]. rewrite <- Hs. apply string_of_list_ascii_of_string.
Qed.

(** Conversely, what the pattern matched is one of the readings of the
    numbers it returns. *)
Lemma two_inv (lo1 hi1 lo2 hi2 : Z) (s rest : list ascii) (n : Z) :
  48 <= lo1 -> hi1 <= 57 -> 48 <= lo2 -> hi2 <= 57 ->
  Pandas.two lo1 hi1 lo2 hi2 s = Some (n, rest) ->
  s = (digits2 n ++ rest)%list /\
  10 * (lo1 - 48) + (lo2 - 48) <= n <= 10 * (hi1 - 48) + (hi2 - 48).
Proof.
  intros L1 U1 L2 U2. unfold Pandas.two.
  destruct s as [|c1 [|c2 r]]; try discriminate.
  destruct (Pandas.class lo1 hi1 c1) eqn:E1; [|discriminate].
  destruct (Pandas.class lo2 hi2 c2) eqn:E2; [|discriminate].
  cbn [andb]. intros H.
  assert (Hn : n = 10 * Pandas.digit_value c1 + Pandas.digit_value c2) by congruence.
  assert (Hr : rest = r) by congruence.
  clear H. subst n rest. class_facts. split.
  - rewrite digits2_value; [reflexivity | |]; apply class_true; lia.
  - unfold Pandas.digit_value. lia.
Qed.

Lemma one_inv (lo hi : Z) (s rest : list ascii) (n : Z) :
  Pandas.one lo hi s = Some (n, rest) ->
  s = digit_char n :: rest /\ lo - 48 <= n <= hi - 48.
Proof.
  unfold Pandas.one. destruct s as [|c1 r]; try discriminate.
  destruct (Pandas.class lo hi c1) eqn:E1; [|discriminate].
  intros H.
  assert (Hn : n = Pandas.digit_value c1) by congruence.
  assert (Hr : rest = r) by congruence.
  clear H. subst n rest. class_facts. unfold Pandas.digit_value. split.
  - now rewrite digit_char_code.
  - lia.
Qed.

Lemma blank_one_inv (s rest : list ascii) (n : Z) :
  Pandas.blank_one s = Some (n, rest) ->
  s = " "%char :: digit_char n :: rest /\ 1 <= n <= 9.
Proof.
  unfold Pandas.blank_one. destruct s as [|c1 [|c2 r]]; try discriminate.
  destruct (Pandas.class 32 32 c1) eqn:E1; [|discriminate].
  destruct (Pandas.class 49 57 c2) eqn:E2; [|discriminate].
  cbn [andb]. intros H.
  assert (Hn : n = Pandas.digit_value c2) by congruence.
  assert (Hr : rest = r) by congruence.
  clear H. subst n rest. class_facts.
  unfold Pandas.digit_value. split; [|lia].
  rewrite digit_char_code. f_equal. apply code_blank. lia.
Qed.

Lemma day_forms_padded (n : Z) : In (digits2 n) (day_forms n).
Proof. unfold day_forms. destruct (n <? 10)%Z; now left. Qed.

Lemma month_forms_padded (n : Z) : In (digits2 n) (month_forms n).
Proof. unfold month_forms. destruct (n <? 10)%Z; now left. Qed.

Lemma match_d_inv (s rest : list ascii) (n : Z) :
  Pandas.match_d s = Some (n, rest) ->
  1 <= n <= 31 /\ exists f, In f (day_forms n) /\ s = (f ++ rest)%list.
Proof.
  unfold Pandas.match_d, Pandas.first_of. cbn [fold_right].
  destruct (Pandas.two 51 51 48 49 s) as [[n1 r1]|] eqn:A1.
  { intros H. inversion H; subst. apply two_inv in A1; try lia.
    destruct A1 as [-> Hn]. split; [lia|]. eexists. split; [apply day_forms_padded | reflexivity]. }
  destruct (Pandas.two 49 50 48 57 s) as [[n2 r2]|] eqn:A2.
  { intros H. inversion H; subst. apply two_inv in A2; try lia.
    destruct A2 as [-> Hn]. split; [lia|]. eexists. split; [apply day_forms_padded | reflexivity]. }
  destruct (Pandas.two 48 48 49 57 s) as [[n3 r3]|] eqn:A3.
  { intros H. inversion H; subst. apply two_inv in A3; try lia.
    destruct A3 as [-> Hn]. split; [lia|]. eexists. split; [apply day_forms_padded | reflexivity]. }
  destruct (Pandas.one 49 57 s) as [[n4 r4]|] eqn:A4.
  { intros H. inversion H; subst. apply one_inv in A4.
    destruct A4 as [-> Hn]. split; [lia|]. exists [digit_char n]. split; [|reflexivity].
    unfold day_forms. replace (n <? 10)%Z with true by (symmetry; apply Z.ltb_lt; lia).
    right. now left. }
  destruct (Pandas.blank_one s) as [[n5 r5]|] eqn:A5; [|discriminate].
  intros H. inversion H; subst. apply blank_one_inv in A5.
  destruct A5 as [-> Hn]. split; [lia|]. exists [" "%char; digit_char n]. split; [|reflexivity].
  unfold day_forms. replace (n <? 10)%Z with true by (symmetry; apply Z.ltb_lt; lia).
  right. right. now left.
Qed.

Lemma then_d_inv (alt : option (Z * list ascii)) (m d : Z) (rest : list ascii) :
  Pandas.then_d alt = Some (m, d, rest) ->
  exists r, alt = Some (m, r) /\ Pandas.match_d r = Some (d, rest).
Proof.
  unfold Pandas.then_d. destruct alt as [[mm r]|]; [|discriminate].
  destruct (Pandas.match_d r) as [[dd r']|] eqn:E; [|discriminate].
  intros H. inversion H; subst. exists r. auto.
Qed.

Lemma match_md_inv (s rest : list ascii) (m d : Z) :
  Pandas.match_md s = Some (m, d, rest) ->
  1 <= m <= 12 /\ 1 <= d <= 31 /\
  exists fm fd, In fm (month_forms m) /\ In fd (day_forms d) /\
                s = (fm ++ fd ++ rest)%list.
Proof.
  unfold Pandas.match_md, Pandas.first_of. cbn [fold_right].
  destruct (Pandas.then_d (Pandas.two 49 49 48 50 s)) as [[[m1 d1] r1]|] eqn:A1.
  { intros H. inversion H; subst. apply then_d_inv in A1. destruct A1 as [r [Hm Hd]].
    apply two_inv in Hm; try lia. destruct Hm as [-> Hm].
    apply match_d_inv in Hd. destruct Hd as [Hd [fd [Hfd ->]]].
    split; [lia|]. split; [lia|]. exists (digits2 m), fd.
    split; [apply month_forms_padded|]. split; [assumption | reflexivity]. }
  destruct (Pandas.then_d (Pandas.two 48 48 49 57 s)) as [[[m2 d2] r2]|] eqn:A2.
  { intros H. inversion H; subst. apply then_d_inv in A2. destruct A2 as [r [Hm Hd]].
    apply two_inv in Hm; try lia. destruct Hm as [-> Hm].
    apply match_d_inv in Hd. destruct Hd as [Hd [fd [Hfd ->]]].
    split; [lia|]. split; [lia|]. exists (digits2 m), fd.
    split; [apply month_forms_padded|]. split; [assumption | reflexivity]. }
  destruct (Pandas.then_d (Pandas.one 49 57 s)) as [[[m3 d3] r3]|] eqn:A3; [|discriminate].
  intros H. inversion H; subst. apply then_d_inv in A3. destruct A3 as [r [Hm Hd]].
  apply one_inv in Hm. destruct Hm as [-> Hm].
  apply match_d_inv in Hd. destruct Hd as [Hd [fd [Hfd ->]]].
  split; [lia|]. split; [lia|]. exists [digit_char m], fd. split.
  - unfold month_forms. replace (m <? 10)%Z with true by (symmetry; apply Z.ltb_lt; lia).
    right. now left.
  - split; [assumption | reflexivity].
Qed.

Lemma match_Y_range (s rest : list ascii) (y : Z) :
  Pandas.match_Y s = Some (y, rest) -> 0 <= y <= 9999.
Proof.
  unfold Pandas.match_Y. destruct s as [|c1 [|c2 [|c3 [|c4 r]]]]; try discriminate.
  destruct (Pandas.class 48 57 c1) eqn:E1; [|discriminate].
  destruct (Pandas.class 48 57 c2) eqn:E2; [|discriminate].
  destruct (Pandas.class 48 57 c3) eqn:E3; [|discriminate].
  destruct (Pandas.class 48 57 c4) eqn:E4; [|discriminate].
  cbn [andb]. intros H.
  assert (Hn : y = 1000 * Pandas.digit_value c1 + 100 * Pandas.digit_value c2
                   + 10 * Pandas.digit_value c3 + Pandas.digit_value c4) by congruence.
  clear H. subst y. class_facts. unfold Pandas.digit_value. lia.
Qed.

Lemma match_Y_inv (s rest : list ascii) (y : Z) :
  Pandas.match_Y s = Some (y, rest) -> s = (digits4 y ++ rest)%list.
Proof.
  unfold Pandas.match_Y. destruct s as [|c1 [|c2 [|c3 [|c4 r]]]]; try discriminate.
  destruct (Pandas.class 48 57 c1) eqn:E1; [|discriminate].
  destruct (Pandas.class 48 57 c2) eqn:E2; [|discriminate].
  destruct (Pandas.class 48 57 c3) eqn:E3; [|discriminate].
  destruct (Pandas.class 48 57 c4) eqn:E4; [|discriminate].
  cbn [andb]. intros H.
  assert (Hn : y = 1000 * Pandas.digit_value c1 + 100 * Pandas.digit_value c2
                   + 10 * Pandas.digit_value c3 + Pandas.digit_value c4) by congruence.
  assert (Hr : rest = r) by congruence.
  clear H. subst y rest.
  now rewrite digits4_value.
Qed.

Lemma regex_match_inv (s rest : list ascii) (d : Date) :
  Pandas.regex_match s = Some (d, rest) ->
  exists l, In l (readings d) /\ s = (l ++ rest)%list.
Proof.
  unfold Pandas.regex_match.
  destruct (Pandas.match_Y s) as [[y r]|] eqn:EY; [|discriminate].
  destruct (Pandas.match_md r) as [[[m dd] r']|] eqn:EM; [|discriminate].
  intros H. inversion H; subst.
  apply match_Y_inv in EY. apply match_md_inv in EM.
  destruct EM as [_ [_ [fm [fd [Hfm [Hfd ->]]]]]]. subst s.
  exists (digits4 y ++ fm ++ fd)%list. split.
  - unfold readings. cbn [year month day]. apply in_flat_map. exists fm.
    split; [assumption|]. apply in_map_iff. exists fd. auto.
  - now rewrite <- !app_assoc.
Qed.

(** A parsed date is a calendar date the timestamp type holds, and the raw
    value is one of its readings. *)
Lemma to_datetime_inv (in_bounds : Date -> bool) (raw : string) (d : Date) :
  Pandas.to_datetime in_bounds raw = Some d ->
  Pandas.valid_date d = true /\ in_bounds d = true /\
  In (list_ascii_of_string raw) (readings d).
Proof.
  rewrite to_datetime_strptime. unfold Pandas.strptime.
  destruct (Pandas.regex_match (list_ascii_of_string raw)) as [[d' [|c r]]|] eqn:E;
    try discriminate.
  destruct (Pandas.valid_date d') eqn:V; [|discriminate].
  destruct (in_bounds d') eqn:B; [|discriminate].
  intros H. inversion H; subst.
  apply regex_match_inv in E. destruct E as [l [Hl Hs]].
  rewrite app_nil_r in Hs. subst l. auto.
Qed.

(** The year of a parsed date is the number its four digits spell. *)
Lemma to_datetime_year (in_bounds : Date -> bool) (raw : string) (d : Date) :
  Pandas.to_datetime in_bounds raw = Some d -> 0 <= year d <= 9999.
Proof.
  rewrite to_datetime_strptime. unfold Pandas.strptime, Pandas.regex_match.
  destruct (Pandas.match_Y (list_ascii_of_string raw)) as [[y r]|] eqn:EY; [|discriminate].
  destruct (Pandas.match_md r) as [[[m dd] [|c r']]|]; try discriminate.
  destruct (Pandas.valid_date (mkDate y m dd)); [|discriminate].
  destruct (in_bounds (mkDate y m dd)); [|discriminate].
  intros H. assert (Hd : d = mkDate y m dd) by congruence. subst d.
  cbn [year]. eapply match_Y_range; eassumption.
Qed.

Lemma digit_value_char (k : Z) : 0 <= k <= 9 -> Pandas.digit_value (digit_char k) = k.
Proof. intros Hk. unfold Pandas.digit_value. rewrite code_digit_char; lia. Qed.

Lemma value_digits2 (n : Z) (c1 c2 : ascii) :
  0 <= n <= 99 -> digits2 n = [c1; c2] ->
  10 * Pandas.digit_value c1 + Pandas.digit_value c2 = n.
Proof.
  intros Hn H. unfold digits2 in H.
  assert (H1 : c1 = digit_char (n / 10)) by congruence.
  assert (H2 : c2 = digit_char (n mod 10)) by congruence.
  subst c1 c2. rewrite !digit_value_char by (Z.div_mod_to_equations; lia).
  Z.div_mod_to_equations; lia.
Qed.

Lemma value_digits4 (n : Z) (c1 c2 c3 c4 : ascii) :
  0 <= n <= 9999 -> digits4 n = [c1; c2; c3; c4] ->
  1000 * Pandas.digit_value c1 + 100 * Pandas.digit_value c2
  + 10 * Pandas.digit_value c3 + Pandas.digit_value c4 = n.
Proof.
  intros Hn H. unfold digits4 in H.
  assert (H1 : c1 = digit_char (n / 1000)) by congruence.
  assert (H2 : c2 = digit_char (n / 100 mod 10)) by congruence.
  assert (H3 : c3 = digit_char (n / 10 mod 10)) by congruence.
  assert (H4 : c4 = digit_char (n mod 10)) by congruence.
  subst c1 c2 c3 c4. rewrite !digit_value_char by (Z.div_mod_to_equations; lia).
  Z.div_mod_to_equations; lia.
Qed.

(** On a raw value of 8 digits a parsed date is the date read by
    position. *)
Lemma to_datetime_eight_digits (in_bounds : Date -> bool) (raw : string) (d d' : Date) :
  read_YYYYMMDD raw = Some d ->
  Pandas.to_datetime in_bounds raw = Some d' ->
  d' = d.
Proof.
  intros Hread Hparse.
  pose proof (to_datetime_year _ _ _ Hparse) as Hyear.
  apply to_datetime_inv in Hparse. destruct Hparse as [V [_ Hin]].
  pose proof (valid_date_bounds d' V) as Hb.
  destruct (read_YYYYMMDD_inv raw d Hread)
    as [y1 [y2 [y3 [y4 [m1 [m2 [d1 [d2 [Hs [Hall Hd]]]]]]]]]].
  destruct Hall as [Y1 [Y2 [Y3 [Y4 [M1 [M2 [D1 D2]]]]]]].
  rewrite Hs in Hin. unfold readings in Hin.
  apply in_flat_map in Hin. destruct Hin as [fm [Hfm Hin]].
  apply in_map_iff in Hin. destruct Hin as [fd [Heq Hfd]].
  assert (Hfm' : fm = digits2 (month d') \/ fm = [digit_char (month d')]).
  { unfold month_forms in Hfm. destruct (month d' <? 10)%Z; simpl in Hfm; intuition. }
  assert (Hfd' : fd = digits2 (day d') \/ fd = [digit_char (day d')] \/
                 fd = [" "%char; digit_char (day d')]).
  { unfold day_forms in Hfd. destruct (day d' <? 10)%Z; simpl in Hfd; intuition. }
  unfold digits4 in Heq.
  destruct Hfm' as [->| ->], Hfd' as [->|[->| ->]]; unfold digits2 in Heq;
    cbn [app] in Heq; try discriminate Heq.
  - assert (Hy : digits4 (year d') = [y1; y2; y3; y4]) by (unfold digits4; congruence).
    assert (Hm : digits2 (month d') = [m1; m2]) by (unfold digits2; congruence).
    assert (Hdd : digits2 (day d') = [d1; d2]) by (unfold digits2; congruence).
    apply value_digits4 in Hy; [|lia]. apply value_digits2 in Hm; [|lia].
    apply value_digits2 in Hdd; [|lia].
    rewrite Hd, Hy, Hm, Hdd. now destruct d'.
  - exfalso. assert (Hblank : d1 = " "%char) by congruence.
    subst d1. apply class_true in D1. vm_compute in D1. destruct D1 as [D1 _]. now apply D1.
Qed.

Lemma to_datetime_none_iff (in_bounds : Date -> bool) (raw : string) :
  Pandas.to_datetime in_bounds raw = None <->
  exists e, Pandas.strptime in_bounds raw = inr e.
Proof.
  rewrite to_datetime_strptime. destruct (Pandas.strptime in_bounds raw) as [d|e].
  - split; [discriminate | intros [e He]; discriminate].
  - split; [eauto | reflexivity].
Qed.

(** C4. Parsing never fails: every failure of the parser is turned into a
    null.  A raw value of 8 digits parses to the date it spells when that is
    a calendar date the library holds, formatting that date gives the raw
    value back, and it parses to null otherwise.  In general, for an ASCII
    value that is no clock literal, the result is a date only if the raw
    value is one of the readings of that date under the format (year in four
    digits; month and day with or without the leading zero), and any other
    such value becomes null.  A clock literal is not parsed at all: it
    stands for the time of the run.  [load_data] converts the date of every
    row. *)
Theorem to_datetime_coerce (in_bounds : Date -> bool) (raw : string) :
  (forall d, read_YYYYMMDD raw = Some d ->
     Pandas.valid_date d = true -> in_bounds d = true ->
     Pandas.to_datetime in_bounds raw = Some d /\ strftime_Ymd d = raw /\
     Pandas.convert in_bounds raw = Pandas.Stamp d) /\
  (forall d, read_YYYYMMDD raw = Some d ->
     Pandas.valid_date d = false \/ in_bounds d = false ->
     Pandas.to_datetime in_bounds raw = None /\
     Pandas.convert in_bounds raw = Pandas.NaT) /\
  (forall d, Pandas.clock_literal raw = false -> Pandas.ascii_text raw = true ->
     Pandas.to_datetime in_bounds raw = Some d ->
     Pandas.valid_date d = true /\ in_bounds d = true /\
     In (list_ascii_of_string raw) (readings d)) /\
  (Pandas.clock_literal raw = false -> Pandas.ascii_text raw = true ->
   (forall d, Pandas.valid_date d = true -> in_bounds d = true ->
              ~ In (list_ascii_of_string raw) (readings d)) ->
   Pandas.to_datetime in_bounds raw = None /\
   Pandas.convert in_bounds raw = Pandas.NaT) /\
  (Pandas.clock_literal raw = false ->
   (Pandas.to_datetime in_bounds raw = None <->
    exists e, Pandas.strptime in_bounds raw = inr e)) /\
  (Pandas.convert in_bounds raw = Pandas.RunTime <-> Pandas.clock_literal raw = true) /\
  (forall rows : RawFrame,
     (forall r, In r rows -> Pandas.clock_literal (dt r) = false) ->
     map dt (App.load_data in_bounds rows) =
     map (fun r => Pandas.to_datetime in_bounds (dt r)) rows).
Proof.
  assert (Hnat : Pandas.clock_literal raw = false ->
                 Pandas.to_datetime in_bounds raw = None ->
                 Pandas.convert in_bounds raw = Pandas.NaT).
  { unfold Pandas.to_datetime, Pandas.convert. intros ->.
    destruct (Pandas.strptime in_bounds raw); [discriminate | reflexivity]. }
  assert (Hdigits : forall d, read_YYYYMMDD raw = Some d -> Pandas.clock_literal raw = false).
  { intros d Hread. destruct (read_YYYYMMDD_inv raw d Hread)
      as [y1 [y2 [y3 [y4 [m1 [m2 [d1 [d2 [Hs _]]]]]]]]].
    pose proof (string_of_list_ascii_of_string raw) as Hraw. rewrite Hs in Hraw.
    unfold Pandas.clock_literal. apply orb_false_iff.
    split; apply String.eqb_neq; intros ->; discriminate Hs. }
  split; [|split; [|split; [|split; [|split; [|split]]]]].
  - intros d Hread V B. destruct (to_datetime_valid in_bounds raw d Hread V B) as [P F].
    split; [exact P|]. split; [exact F|].
    revert P. unfold Pandas.to_datetime.
    destruct (Pandas.convert in_bounds raw); congruence.
  - intros d Hread Hbad.
    assert (Hnone : Pandas.to_datetime in_bounds raw = None).
    { destruct (Pandas.to_datetime in_bounds raw) as [d'|] eqn:E; [|reflexivity].
      pose proof (to_datetime_eight_digits _ _ _ _ Hread E) as ->.
      apply to_datetime_inv in E. destruct E as [V [B _]].
      destruct Hbad; congruence. }
    split; [exact Hnone|]. apply Hnat; [eapply Hdigits; eassumption | exact Hnone].
  - intros d _ _. apply to_datetime_inv.
  - intros Hc _ Hno.
    assert (Hnone : Pandas.to_datetime in_bounds raw = None).
    { destruct (Pandas.to_datetime in_bounds raw) as [d|] eqn:E; [|reflexivity].
      apply to_datetime_inv in E. destruct E as [V [B Hin]].
      destruct (Hno d V B Hin). }
    split; [exact Hnone | now apply Hnat].
  - intros _. apply to_datetime_none_iff.
  - unfold Pandas.convert. destruct (Pandas.clock_literal raw).
    + split; reflexivity.
    + destruct (Pandas.strptime in_bounds raw); split; discriminate.
  - intros rows _. unfold App.load_data. rewrite map_map. reflexivity.
Qed.

(** Year 0 is a year of the pattern: eight zeros-and-ones such as 00000101
    parse to a date exactly when the library holds that date. *)
Example to_datetime_year_zero :
  read_YYYYMMDD "00000101" = Some (mkDate 0 1 1) /\
  Pandas.valid_date (mkDate 0 1 1) = true /\
  Pandas.to_datetime Pandas.ns_bounds "00000101" = None /\
  (forall in_bounds : Date -> bool,
      Pandas.to_datetime in_bounds "00000101" =
      if in_bounds (mkDate 0 1 1) then Some (mkDate 0 1 1) else None).
Proof.
  split; [reflexivity|]. split; [reflexivity|]. split; [reflexivity|].
  intros in_bounds. unfold Pandas.to_datetime, Pandas.convert, Pandas.strptime.
  change (Pandas.clock_literal "00000101") with false. cbv iota.
  change (Pandas.regex_match (list_ascii_of_string "00000101"))
    with (Some (mkDate 0 1 1, @nil ascii)).
  change (Pandas.valid_date (mkDate 0 1 1)) with true. cbv iota.
  now destruct (in_bounds (mkDate 0 1 1)).
Qed.

Example to_datetime_samples :
  map (Pandas.to_datetime Pandas.ns_bounds)
      ["20240101"; "20240229"; "20230229"; "20241301"; "2024-01-01"; "abcd"; ""] =
    [Some (mkDate 2024 1 1); Some (mkDate 2024 2 29); None; None; None; None; None] /\
  strftime_Ymd (mkDate 2024 2 29) = "20240229".
Proof. split; reflexivity. Qed.

(** C4, as stated, fails.  The six characters 202411 are not 8 digits, yet
    the format reads them as year 2024, month 1, day 1: they parse to a
    date and not to null, whenever the library holds that date, and
    formatting the date does not give them back. *)
Lemma to_datetime_six_digits :
  read_YYYYMMDD "202411" = None /\
  Pandas.clock_literal "202411" = false /\
  Pandas.ascii_text "202411" = true /\
  Pandas.valid_date (mkDate 2024 1 1) = true /\
  (forall in_bounds : Date -> bool,
      in_bounds (mkDate 2024 1 1) = true ->
      Pandas.to_datetime in_bounds "202411" = Some (mkDate 2024 1 1) /\
      Pandas.convert in_bounds "202411" = Pandas.Stamp (mkDate 2024 1 1)) /\
  Pandas.to_datetime Pandas.ns_bounds "202411" = Some (mkDate 2024 1 1) /\
  strftime_Ymd (mkDate 2024 1 1) = "20240101" /\
  strftime_Ymd (mkDate 2024 1 1) <> "202411".
Proof.
  split; [reflexivity|]. split; [reflexivity|]. split; [reflexivity|].
  split; [reflexivity|]. split; [|split; [reflexivity|split; [reflexivity|discriminate]]].
  intros in_bounds Hb. unfold Pandas.to_datetime, Pandas.convert, Pandas.strptime.
  change (Pandas.clock_literal "202411") with false. cbv iota.
  change (Pandas.regex_match (list_ascii_of_string "202411"))
    with (Some (mkDate 2024 1 1, @nil ascii)).
  change (Pandas.valid_date (mkDate 2024 1 1)) with true.
  cbv iota. now rewrite Hb.
Qed.

(** ** The table after loading *)

Lemma exec_cons (s : App.Stmt) (rest : list App.Stmt) (st : App.State) :
  App.exec (s :: rest) st =
  match App.step s st with
  | Some st' => App.exec rest st'
  | None => st
  end.
Proof. reflexivity. Qed.

Lemma exec_assign (g : App.State -> bool) (x : string) (e : App.State -> option App.Value)
    (rest : list App.Stmt) (st : App.State) (v : App.Value) :
  g st = true -> e st = Some v ->
  App.exec (App.Assign g x e :: rest) st =
  App.exec rest (App.mkState (App.bind x v (App.env st)) (App.heap st)).
Proof. intros G E. rewrite exec_cons. cbn [App.step]. now rewrite G, E. Qed.

Lemma exec_new (g : App.State -> bool) (x : string) (e : App.State -> option App.Obj)
    (rest : list App.Stmt) (st : App.State) (o : App.Obj) :
  g st = true -> e st = Some o ->
  App.exec (App.New g x e :: rest) st =
  App.exec rest (App.mkState (App.bind x (App.VRef (List.length (App.heap st))) (App.env st))
                             (App.heap st ++ [o])%list).
Proof. intros G E. rewrite exec_cons. cbn [App.step]. now rewrite G, E. Qed.

Lemma exec_new_skip (g : App.State -> bool) (x : string) (e : App.State -> option App.Obj)
    (rest : list App.Stmt) (st : App.State) :
  g st = false -> App.exec (App.New g x e :: rest) st = App.exec rest st.
Proof. intros G. rewrite exec_cons. cbn [App.step]. now rewrite G. Qed.

Lemma exec_assign_raise (g : App.State -> bool) (x : string)
    (e : App.State -> option App.Value) (rest : list App.Stmt) (st : App.State) :
  g st = true -> e st = None -> App.exec (App.Assign g x e :: rest) st = st.
Proof. intros G E. rewrite exec_cons. cbn [App.step]. now rewrite G, E. Qed.

(** Loading leaves one object, the converted table, and [df] refers to
    it. *)
Lemma loaded_state (in_bounds : Date -> bool) (raw : RawFrame) :
  App.loaded in_bounds raw = after_load (App.load_data in_bounds raw).
Proof. reflexivity. Qed.

Section Preserved.

Variable df : DataFrame.

Lemma step_builds (s : App.Stmt) (st st' : App.State) :
  builds_value s -> holds_dataset df st -> App.step s st = Some st' ->
  holds_dataset df st'.
Proof.
  intros Hs [Hdf [[rest Hheap] Hrefs]] Hstep.
  destruct s as [g x e|g x e|x u]; cbn [builds_value App.step] in *.
  - destruct Hs as [Hx Hval].
    destruct (g st); [|inversion Hstep; subst; repeat split; eauto].
    destruct (e st) as [v|] eqn:E; [|discriminate]. inversion Hstep; subst st'. clear Hstep.
    assert (Hne : String.eqb "df" x = false) by (apply String.eqb_neq; congruence).
    split; [|split].
    + cbn [App.env]. unfold App.bind. now rewrite Hne.
    + exists rest. exact Hheap.
    + intros y loc. cbn [App.env]. unfold App.bind.
      destruct (String.eqb y x) eqn:Ey.
      * intros Hv _. exfalso. apply (Hval st loc). congruence.
      * apply Hrefs.
  - destruct (g st); [|inversion Hstep; subst; repeat split; eauto].
    destruct (e st) as [o|] eqn:E; [|discriminate]. inversion Hstep; subst st'. clear Hstep.
    assert (Hne : String.eqb "df" x = false) by (apply String.eqb_neq; congruence).
    split; [|split].
    + cbn [App.env]. unfold App.bind. now rewrite Hne.
    + exists (rest ++ [o])%list. cbn [App.heap]. now rewrite Hheap.
    + intros y loc. cbn [App.env]. unfold App.bind.
      destruct (String.eqb y x) eqn:Ey.
      * intros Hv _. rewrite Hheap in Hv. cbn [List.length] in Hv.
        assert (loc = S (List.length rest)) by congruence. lia.
      * apply Hrefs.
  - destruct Hs.
Qed.

(** A run of statements that build values leaves the table [df] refers to
    as it is, and no other variable comes to refer to it. *)
Lemma exec_builds (stmts : list App.Stmt) (st : App.State) :
  Forall builds_value stmts -> holds_dataset df st ->
  holds_dataset df (App.exec stmts st).
Proof.
  intros Hall. revert st. induction Hall as [|s rest Hs Hrest IH]; intros st Hst;
    [exact Hst|].
  rewrite exec_cons. destruct (App.step s st) as [st'|] eqn:E; [|exact Hst].
  apply IH. eapply step_builds; eassumption.
Qed.

Lemma holds_dataset_frame (st : App.State) :
  holds_dataset df st -> App.frame st = Some df.
Proof.
  intros [Hdf [[rest Hheap] _]]. unfold App.frame, App.deref.
  now rewrite Hdf, Hheap.
Qed.

End Preserved.

(** Every statement of the script builds a value. *)
Lemma script_builds (A : Pandas.ArgSort) (w : App.Widgets) :
  Forall builds_value (App.script A w).
Proof.
  unfold App.script.
  repeat (apply Forall_cons; [|]); try apply Forall_nil;
    cbn [builds_value]; try discriminate;
    (split; [discriminate|]); intros st loc; unfold App.on_df, App.date_input;
    try discriminate;
    destruct (App.frame st) as [df|]; try discriminate.
  destruct (App.default_date_range df) as [|[lo|] [|[hi|] [|x l]]]; discriminate.
Qed.

Lemma Forall_firstn {X} (P : X -> Prop) (n : nat) (l : list X) :
  Forall P l -> Forall P (firstn n l).
Proof.
  intros H. revert n. induction H as [|x l Hx Hl IH]; intros [|n]; simpl; constructor;
    auto.
Qed.

Lemma after_load_holds (df : DataFrame) : holds_dataset df (after_load df).
Proof.
  split; [reflexivity|]. split; [now exists []|].
  intros x loc. unfold after_load, App.bind. cbn [App.env].
  destruct (String.eqb x "df") eqn:E.
  - apply String.eqb_eq in E. congruence.
  - discriminate.
Qed.

(** The preview of known columns is defined. *)
Lemma column_known (name : string) (r : Row (option Date)) :
  existsb (String.eqb name) App.all_columns = true -> App.column name r <> None.
Proof.
  unfold App.all_columns, App.column. cbn [existsb].
  repeat match goal with
    | |- context [String.eqb name ?c] => destruct (String.eqb name c); [discriminate|]
    end.
  discriminate.
Qed.

Lemma sequence_defined {X} (l : list (option X)) :
  (forall o, In o l -> o <> None) -> App.sequence l <> None.
Proof.
  induction l as [|[x|] l IH]; simpl; intros Hall.
  - discriminate.
  - destruct (App.sequence l); [discriminate|].
    exfalso. apply IH; [|reflexivity]. intros o Ho. apply Hall. now right.
  - exfalso. now apply (Hall None); [left|].
Qed.

Lemma preview_defined (cols : list string) (df : DataFrame) :
  forallb (fun name => existsb (String.eqb name) App.all_columns) cols = true ->
  App.preview cols df <> None.
Proof.
  intros Hk. unfold App.preview. rewrite Hk.
  apply sequence_defined. intros o Ho. apply in_map_iff in Ho.
  destruct Ho as [r [<- _]]. apply sequence_defined.
  intros o Ho. apply in_map_iff in Ho. destruct Ho as [name [<- Hname]].
  apply column_known. rewrite forallb_forall in Hk. now apply Hk.
Qed.

Lemma display_columns_known (selected : list string) :
  forallb (fun name => existsb (String.eqb name) App.all_columns) selected = true ->
  forallb (fun name => existsb (String.eqb name) App.all_columns)
          (App.display_columns selected) = true.
Proof. destruct selected; [reflexivity | trivial]. Qed.

(** The date input is built exactly on a table that has a date. *)
Lemma dropna_dated (df : DataFrame) :
  Pandas.dropna (map dt df) <> [] <-> dated df.
Proof.
  unfold dated. induction df as [|r l IH]; simpl.
  - split; [congruence | intros [r [d [[] _]]]].
  - destruct (dt r) as [d|] eqn:E.
    + split; [|discriminate]. intros _. exists r, d. auto.
    + rewrite IH. split.
      * intros [r' [d' [Hr Hd]]]. exists r', d'. auto.
      * intros [r' [d' [[<-|Hr] Hd]]]; [congruence|]. exists r', d'. auto.
Qed.

Lemma date_input_dated (w : App.Widgets) (df : DataFrame) :
  dated df -> App.date_input w df = Some (App.VDates (App.date_range w)).
Proof.
  intros Hd. apply dropna_dated in Hd.
  unfold App.date_input, App.default_date_range, Pandas.series_min, Pandas.series_max.
  destruct (Pandas.dropna (map dt df)); [congruence | reflexivity].
Qed.

Lemma date_input_undated (w : App.Widgets) (df : DataFrame) :
  ~ dated df -> App.date_input w df = None.
Proof.
  intros Hd. rewrite <- dropna_dated in Hd.
  unfold App.date_input, App.default_date_range, Pandas.series_min, Pandas.series_max.
  destruct (Pandas.dropna (map dt df)); [reflexivity | exfalso; apply Hd; discriminate].
Qed.

Section Run.

Variable A : Pandas.ArgSort.
Variable w : App.Widgets.
Variable df : DataFrame.

(** With a selection among the columns of the table the statements up to
    the rankings all run. *)
Lemma script_prefix (table : list (list App.Cell)) :
  App.preview (App.display_columns (App.selected_columns w)) df = Some table ->
  App.exec (App.script A w) (after_load df) =
  App.exec (skipn 7 (App.script A w)) (after_rankings A w df table).
Proof.
  intros Ep. unfold App.script. cbn [skipn].
  erewrite exec_assign; [|reflexivity|reflexivity].
  erewrite exec_new; [|reflexivity|].
  2:{ match goal with |- ?lhs = _ =>
        change lhs with (option_map App.OTable
                           (App.preview (App.display_columns (App.selected_columns w)) df))
      end. rewrite Ep. reflexivity. }
  erewrite exec_assign; [|reflexivity|reflexivity].
  erewrite exec_assign; [|reflexivity|reflexivity].
  erewrite exec_new; [|reflexivity|reflexivity].
  erewrite exec_new; [|reflexivity|reflexivity].
  erewrite exec_new; [|reflexivity|reflexivity].
  reflexivity.
Qed.

(** On a table without a date the date input raises and the run ends. *)
Lemma script_undated (table : list (list App.Cell)) :
  ~ dated df ->
  App.exec (skipn 7 (App.script A w)) (after_rankings A w df table) =
  after_rankings A w df table.
Proof.
  intros Hd. unfold App.script. cbn [skipn].
  apply exec_assign_raise; [reflexivity|].
  change (App.on_df (App.date_input w) (after_rankings A w df table))
    with (App.date_input w df).
  now apply date_input_undated.
Qed.

(** On a table with a date the run goes on to the select box. *)
Lemma script_range (table : list (list App.Cell)) :
  dated df ->
  App.exec (skipn 7 (App.script A w)) (after_rankings A w df table) =
  App.exec (skipn 10 (App.script A w)) (after_range A w df table).
Proof.
  intros Hd. unfold App.script. cbn [skipn].
  erewrite exec_assign; [|reflexivity|].
  2:{ change (App.on_df (App.date_input w) (after_rankings A w df table))
        with (App.date_input w df).
      now apply date_input_dated. }
  unfold after_range.
  destruct (App.date_range w) as [|d1 [|d2 [|d3 rest]]] eqn:Er.
  1,2,4: (rewrite exec_new_skip by reflexivity; rewrite exec_new_skip by reflexivity;
          reflexivity).
  erewrite exec_new; [|reflexivity|reflexivity].
  erewrite exec_new; [|reflexivity|reflexivity].
  reflexivity.
Qed.

Lemma script_movie (st : App.State) :
  App.frame st = Some df ->
  App.exec (skipn 10 (App.script A w)) st = after_movie w df st.
Proof.
  intros Hf. unfold App.script. cbn [skipn].
  erewrite exec_assign; [|reflexivity|].
  2:{ unfold App.on_df. rewrite Hf. reflexivity. }
  unfold after_movie.
  destruct (App.selectbox (App.movie_names df) (App.movie_index w)) as [name|] eqn:En.
  - destruct (App.truthy name) eqn:Et.
    + erewrite exec_new; [reflexivity| |].
      * unfold App.movie_chosen. cbn [App.env]. unfold App.bind at 1.
        cbn [String.eqb Ascii.eqb Bool.eqb andb]. exact Et.
      * cbn [App.env]. unfold App.bind at 1. cbn [String.eqb Ascii.eqb Bool.eqb andb].
        unfold App.on_df.
        assert (Hf' : App.frame
                        (App.mkState
                           (App.bind "movie_name" (App.VName (Some name)) (App.env st))
                           (App.heap st)) = Some df).
        { revert Hf. unfold App.frame, App.deref. cbn [App.env App.heap].
          unfold App.bind at 1. cbn [String.eqb Ascii.eqb Bool.eqb andb]. trivial. }
        rewrite Hf'. reflexivity.
    + rewrite exec_new_skip; [reflexivity|].
      unfold App.movie_chosen. cbn [App.env]. unfold App.bind at 1.
      cbn [String.eqb Ascii.eqb Bool.eqb andb]. exact Et.
  - rewrite exec_new_skip; [reflexivity|]. reflexivity.
Qed.

End Run.

Lemma after_range_frame (A : Pandas.ArgSort) (w : App.Widgets) (df : DataFrame)
    (table : list (list App.Cell)) :
  App.frame (after_range A w df table) = Some df.
Proof.
  unfold after_range.
  destruct (App.date_range w) as [|d1 [|d2 [|d3 rest]]]; reflexivity.
Qed.

(** The whole run, on a table with a date and on a table without. *)
Lemma script_final_dated (A : Pandas.ArgSort) (w : App.Widgets) (df : DataFrame)
    (table : list (list App.Cell)) :
  App.preview (App.display_columns (App.selected_columns w)) df = Some table ->
  dated df ->
  App.exec (App.script A w) (after_load df) =
  after_movie w df (after_range A w df table).
Proof.
  intros Ep Hd.
  rewrite (script_prefix A w df table Ep), (script_range A w df table Hd).
  apply script_movie. apply after_range_frame.
Qed.

Lemma script_final_undated (A : Pandas.ArgSort) (w : App.Widgets) (df : DataFrame)
    (table : list (list App.Cell)) :
  App.preview (App.display_columns (App.selected_columns w)) df = Some table ->
  ~ dated df ->
  App.exec (App.script A w) (after_load df) = after_rankings A w df table.
Proof.
  intros Ep Hd.
  rewrite (script_prefix A w df table Ep). now apply script_undated.
Qed.

Ltac finish :=
  solve [ discriminate | intros; lia | intros; reflexivity | intros; exfalso; lia
        | intros; assumption | intros; contradiction | tauto ].

Ltac lookup :=
  cbv [App.env App.bind after_movie after_range after_rankings
       String.eqb Ascii.eqb Bool.eqb andb].

(** C8. [load_data] makes the table and converts its date column in place;
    from then on, at every point of the script, the variable [df] refers to
    that same object and the object still is the table as loaded, every
    other table is a new object, and no statement of the script updates a
    table in place or hands on a reference to one.  On a table with a date
    and with the selected columns among its columns, the run goes through
    to the select box. *)
Theorem dataset_immutable (in_bounds : Date -> bool) (A : Pandas.ArgSort)
    (w : App.Widgets) (raw : RawFrame) (n : nat) :
  App.heap (App.exec (firstn 1 (App.load_data_body in_bounds raw)) App.initial)
    = [App.ORaw raw] /\
  App.heap (App.loaded in_bounds raw) = [App.OFrame (App.load_data in_bounds raw)] /\
  App.env (App.loaded in_bounds raw) "df" = Some (App.VRef 0) /\
  App.env (App.exec (firstn n (App.script A w)) (App.loaded in_bounds raw)) "df"
    = Some (App.VRef 0) /\
  App.frame (App.exec (firstn n (App.script A w)) (App.loaded in_bounds raw))
    = Some (App.load_data in_bounds raw) /\
  (exists rest,
     App.heap (App.exec (firstn n (App.script A w)) (App.loaded in_bounds raw))
       = App.OFrame (App.load_data in_bounds raw) :: rest) /\
  (forall x loc,
     App.env (App.exec (firstn n (App.script A w)) (App.loaded in_bounds raw)) x
       = Some (App.VRef loc) ->
     x <> "df" -> loc <> 0%nat) /\
  Forall builds_value (App.script A w) /\
  (forallb known_column (App.selected_columns w) = true ->
   dated (App.load_data in_bounds raw) ->
   forall x,
     In x ["display_columns"; "_preview"; "multiMovieYn_null_ratio";
           "repNationCd_null_ratio"; "null_ratios"; "top_sales"; "top_audience";
           "date_range"; "movie_name"] ->
     App.env (App.exec (App.script A w) (App.loaded in_bounds raw)) x <> None).
Proof.
  split; [reflexivity|]. split; [reflexivity|]. split; [reflexivity|].
  pose proof (exec_builds (App.load_data in_bounds raw)
                (firstn n (App.script A w)) (App.loaded in_bounds raw)
                (Forall_firstn _ n _ (script_builds A w))
                (after_load_holds _)) as Hinv.
  pose proof (holds_dataset_frame _ _ Hinv) as Hframe.
  destruct Hinv as [Hdf [Hheap Hrefs]].
  split; [exact Hdf|]. split; [exact Hframe|]. split; [exact Hheap|].
  split; [exact Hrefs|]. split; [apply script_builds|].
  intros Hsel Hd x Hx. rewrite loaded_state.
  pose proof (preview_defined _ (App.load_data in_bounds raw)
                (display_columns_known _ Hsel)) as Hprev.
  destruct (App.preview (App.display_columns (App.selected_columns w))
              (App.load_data in_bounds raw)) as [table|] eqn:Ep; [clear Hprev | congruence].
  rewrite (script_final_dated A w _ table Ep Hd).
  unfold after_movie, after_range.
  destruct (App.selectbox (App.movie_names (App.load_data in_bounds raw)) (App.movie_index w))
    as [name|]; [destruct (App.truthy name)|];
    destruct (App.date_range w) as [|d1 [|d2 [|d3 rest]]];
    repeat (destruct Hx as [<-|Hx]; [lookup; discriminate|]); destruct Hx.
Qed.

(** An update in place is seen through every reference to the object: had
    a statement of the script been one, [df] would have changed. *)
Example setitem_through_alias :
  let replace_rows (o : App.Obj) := Some (App.OFrame []) in
  let program :=
    [ App.Assign App.always "view" (fun st => App.env st "df");
      App.SetItem "view" replace_rows ] in
  App.frame (after_load scenario) = Some scenario /\
  App.frame (App.exec program (after_load scenario)) = Some [] /\
  ~ Forall builds_value program.
Proof.
  split; [reflexivity|]. split; [reflexivity|].
  intros H. inversion H as [|? ? H1 H2]; subst. inversion H2 as [|? ? H3 _]; subst.
  exact H3.
Qed.

Example session_scenario :
  let w := App.mkWidgets [] [mkDate 2024 1 1; mkDate 2024 1 31] 0 in
  let final := App.exec (App.script sample_argsort w)
                        (App.loaded Pandas.ns_bounds raw_scenario) in
  App.frame final = Some (App.load_data Pandas.ns_bounds raw_scenario) /\
  map dt (App.load_data Pandas.ns_bounds raw_scenario) =
    [Some (mkDate 2024 1 1); Some (mkDate 2024 1 1); None] /\
  App.env final "display_columns" = Some (App.VColumns App.default_columns) /\
  App.deref final "top_audience" = Some (App.ORanking [("A", 300); ("B", 50)]) /\
  App.env final "date_range" =
    Some (App.VDates [mkDate 2024 1 1; mkDate 2024 1 31]) /\
  App.deref final "audience_data" =
    Some (App.OAudience [App.mkAudienceRow (mkDate 2024 1 1) "Y" "K" 100]) /\
  App.env final "movie_name" = Some (App.VName (Some "A")) /\
  App.deref final "movie_data" =
    Some (App.OSeries [App.mkSeriesRow (Some (mkDate 2024 1 1)) 100 1000;
                       App.mkSeriesRow None 200 2000]).
Proof. repeat split; reflexivity. Qed.

(** On a table of which no row has a date the run ends at the date input. *)
Example session_without_dates :
  let w := App.mkWidgets [] [mkDate 2024 1 1; mkDate 2024 1 31] 0 in
  let final := App.exec (App.script sample_argsort w)
                        (App.loaded (fun _ => false) raw_scenario) in
  App.deref final "top_audience" = Some (App.ORanking [("A", 300); ("B", 50)]) /\
  App.env final "date_range" = None /\
  App.env final "movie_name" = None.
Proof. repeat split; reflexivity. Qed.

(** * Further properties of the script *)

(** ** The select box *)

(** X12. The select box starts on the movie of the first row of the table;
    whatever position is chosen, the name it returns is the name of some row,
    two positions never return the same name, and it returns nothing exactly
    when the position is past the last option (at position 0: when the table
    is empty). *)
Theorem selectbox_choice (df : DataFrame) :
  App.selectbox (App.movie_names df) 0 = option_map movieNm (hd_error df) /\
  (forall i n, App.selectbox (App.movie_names df) i = Some n ->
     exists r, In r df /\ movieNm r = n) /\
  (forall i j n, App.selectbox (App.movie_names df) i = Some n ->
     App.selectbox (App.movie_names df) j = Some n -> i = j) /\
  (forall i, App.selectbox (App.movie_names df) i = None <->
     (List.length (App.movie_names df) <= i)%nat) /\
  (App.selectbox (App.movie_names df) 0 = None <-> df = []).
Proof.
  unfold App.selectbox. split; [|split; [|split; [|split]]].
  - destruct df as [|r l]; reflexivity.
  - intros i n Hn. apply nth_error_In in Hn. unfold App.movie_names in Hn.
    apply unique_In, in_map_iff in Hn. destruct Hn as [r [Hr Hin]]. eauto.
  - intros i j n Hi Hj.
    assert (Hlt : (i < List.length (App.movie_names df))%nat).
    { apply nth_error_Some. congruence. }
    apply (proj1 (NoDup_nth_error (App.movie_names df)) (unique_NoDup _) i j Hlt).
    congruence.
  - intros i. apply nth_error_None.
  - destruct df as [|r l]; [tauto|]. split; discriminate.
Qed.

(** ** The preview table *)

Lemma sequence_Some {X} (l : list (option X)) (t : list X) :
  App.sequence l = Some t -> l = map Some t.
Proof.
  revert t. induction l as [|[x|] l IH]; simpl; intros t Ht.
  - inversion Ht. reflexivity.
  - destruct (App.sequence l) as [t'|]; [|discriminate].
    inversion Ht; subst. simpl. f_equal. now apply IH.
  - discriminate.
Qed.

(** X1. For a selection among the columns of the table, which is all the
    multiselect can return, the preview never fails on a missing column: it
    shows the first five rows of the table (all of them if there are fewer),
    in order, each with one cell per displayed column, in the order of the
    columns, and at least one cell.  A name that is no column of the table
    would make it fail. *)
Theorem preview_shape (selected : list string) (df : DataFrame) :
  forallb known_column selected = true ->
  exists table,
    App.preview (App.display_columns selected) df = Some table /\
    List.length table = Nat.min 5 (List.length df) /\
    (forall i cells, nth_error table i = Some cells ->
       cells <> [] /\
       List.length cells = List.length (App.display_columns selected) /\
       exists r, nth_error df i = Some r /\ (i < 5)%nat /\
         map Some cells = map (fun name => App.column name r) (App.display_columns selected)) /\
    (forall cols, forallb known_column cols = false -> App.preview cols df = None).
Proof.
  intros Hsel.
  pose proof (preview_defined _ df (display_columns_known _ Hsel)) as Hdef.
  destruct (App.preview (App.display_columns selected) df) as [table|] eqn:E;
    [clear Hdef | congruence].
  exists table. split; [reflexivity|].
  unfold App.preview in E.
  change (forallb (fun name => existsb (String.eqb name) App.all_columns)
            (App.display_columns selected))
    with (forallb known_column (App.display_columns selected)) in E.
  destruct (forallb known_column (App.display_columns selected)); [|discriminate].
  apply sequence_Some in E.
  assert (Hlen : List.length table = Nat.min 5 (List.length df)).
  { rewrite <- (length_map Some table), <- E, length_map.
    unfold Pandas.head. apply length_firstn. }
  split; [exact Hlen|]. split.
  - intros i cells Hi.
    assert (Hrow : nth_error (map Some table) i = Some (Some cells))
      by (rewrite nth_error_map, Hi; reflexivity).
    rewrite <- E, nth_error_map in Hrow.
    destruct (nth_error (Pandas.head 5 df) i) as [r|] eqn:Er; [|discriminate].
    simpl in Hrow. inversion Hrow as [Hseq]. apply sequence_Some in Hseq.
    assert (Hcells : List.length cells = List.length (App.display_columns selected)).
    { rewrite <- (length_map Some cells), <- Hseq, length_map. reflexivity. }
    split; [|split; [exact Hcells|]].
    + intros ->. simpl in Hcells.
      destruct selected; simpl in Hcells; discriminate.
    + exists r. unfold Pandas.head in Er.
      assert (Hi5 : (i < 5)%nat).
      { assert (Hl : (i < List.length (firstn 5 df))%nat)
          by (apply nth_error_Some; congruence).
        rewrite length_firstn in Hl. lia. }
      split; [|split; [exact Hi5 | now symmetry]].
      rewrite <- Er, nth_error_firstn.
      now replace (i <? 5)%nat with true by (symmetry; apply Nat.ltb_lt; exact Hi5).
  - intros cols Hc. unfold App.preview.
    change (forallb (fun name => existsb (String.eqb name) App.all_columns) cols)
      with (forallb known_column cols).
    now rewrite Hc.
Qed.

Lemma preview_shape_witness :
  forallb known_column ["movieNm"; "dt"] = true /\
  exists table,
    App.preview (App.display_columns ["movieNm"; "dt"]) scenario = Some table /\
    List.length table = Nat.min 5 (List.length scenario) /\
    (forall i cells, nth_error table i = Some cells ->
       cells <> [] /\
       List.length cells = List.length (App.display_columns ["movieNm"; "dt"]) /\
       exists r, nth_error scenario i = Some r /\ (i < 5)%nat /\
         map Some cells =
           map (fun name => App.column name r) (App.display_columns ["movieNm"; "dt"])) /\
    (forall cols, forallb known_column cols = false -> App.preview cols scenario = None).
Proof.
  split; [reflexivity|].
  apply (preview_shape ["movieNm"; "dt"] scenario). reflexivity.
Defined.

(** ** Order and range of the grouped tables *)

Lemma date_leb_refl (a : Date) : App.date_leb a a = true.
Proof. apply date_leb_le. now left. Qed.

Lemma date_leb_trans (a b c : Date) :
  App.date_leb a b = true -> App.date_leb b c = true -> App.date_leb a c = true.
Proof.
  rewrite !date_leb_le. intros [->|H1] [->|H2]; auto.
  right. eapply kcmp_trans; eassumption.
Qed.

Lemma date_leb_total (a b : Date) : App.date_leb a b = false -> App.date_leb b a = true.
Proof.
  unfold App.date_leb. change (date_compare a b) with (kcmp a b).
  change (date_compare b a) with (kcmp b a). rewrite (kcmp_antisym b a).
  destruct (kcmp a b); simpl; congruence.
Qed.

Lemma filtered_df_In (df : DataFrame) (s e : Date) (r : Row (option Date)) :
  In r (App.filtered_df df s e) <->
  In r df /\ exists d, dt r = Some d /\ App.date_leb s d = true /\ App.date_leb d e = true.
Proof.
  unfold App.filtered_df. rewrite filter_In. unfold App.in_range. split.
  - intros [Hr Hd]. split; [assumption|]. destruct (dt r) as [d|]; [|discriminate].
    apply andb_true_iff in Hd. exists d. tauto.
  - intros [Hr [d [-> [H1 H2]]]]. split; [assumption|]. now rewrite H1, H2.
Qed.

Lemma audience_data_keys (df : DataFrame) (s e : Date) :
  map audience_row_key (App.audience_data df s e) =
  map fst (Pandas.groupby App.audience_key (App.filtered_df df s e)).
Proof.
  unfold App.audience_data, App.audience_of. rewrite map_map.
  apply map_ext. intros [[[d m] n] rows]. reflexivity.
Qed.

(** X4. The per-date null ratios come in strictly ascending order of the
    dates, and the rows of the time series in strictly ascending order of
    (date, flag, nation code), compared in that order: the order is that of
    the keys, not that of the rows of the table. *)
Theorem grouped_tables_ascending (df : DataFrame) (start_date end_date : Date) :
  StronglySorted (fun a b => date_compare a b = Lt) (map App.nr_dt (App.null_ratios df)) /\
  StronglySorted
    (fun a b =>
       lex (lex (date_compare (fst (fst a)) (fst (fst b)))
                (String.compare (snd (fst a)) (snd (fst b))))
           (String.compare (snd a) (snd b)) = Lt)
    (map audience_row_key (App.audience_data df start_date end_date)) /\
  (forall i j a b,
     (i < j)%nat ->
     nth_error (App.audience_data df start_date end_date) i = Some a ->
     nth_error (App.audience_data df start_date end_date) j = Some b ->
     App.date_leb (App.a_dt a) (App.a_dt b) = true).
Proof.
  assert (H1 : StronglySorted (fun a b => date_compare a b = Lt)
                 (map App.nr_dt (App.null_ratios df))).
  { unfold App.null_ratios. rewrite map_map. cbn [App.nr_dt].
    exact (groupby_sorted dt df). }
  assert (H2 : StronglySorted
    (fun a b =>
       lex (lex (date_compare (fst (fst a)) (fst (fst b)))
                (String.compare (snd (fst a)) (snd (fst b))))
           (String.compare (snd a) (snd b)) = Lt)
    (map audience_row_key (App.audience_data df start_date end_date))).
  { rewrite audience_data_keys.
    exact (groupby_sorted App.audience_key (App.filtered_df df start_date end_date)). }
  split; [exact H1|]. split; [exact H2|].
  intros i j a b Hij Ha Hb.
  assert (Hlt := StronglySorted_nth _ _ i j (audience_row_key a) (audience_row_key b) H2 Hij).
  rewrite !nth_error_map, Ha, Hb in Hlt. specialize (Hlt eq_refl eq_refl).
  cbn [audience_row_key fst snd] in Hlt.
  apply lex_lt in Hlt. unfold App.date_leb.
  destruct Hlt as [Hlt|[Heq _]].
  - apply lex_lt in Hlt. destruct Hlt as [->|[-> _]]; reflexivity.
  - apply lex_eq in Heq. destruct Heq as [-> _]. reflexivity.
Qed.

(** X5. Every row of the time series carries a date of the selected range,
    endpoints included, and a flag and a nation code that some row of the
    table has on that date.  Widening the range never loses a row of the
    filtered table, and a range of one day keeps exactly the rows of that
    day. *)
Theorem audience_data_within_range (df : DataFrame) (start_date end_date : Date) :
  (forall row, In row (App.audience_data df start_date end_date) ->
     App.date_leb start_date (App.a_dt row) = true /\
     App.date_leb (App.a_dt row) end_date = true /\
     exists r, In r df /\ dt r = Some (App.a_dt row) /\
               multiMovieYn r = Some (App.a_multiMovieYn row) /\
               repNationCd r = Some (App.a_repNationCd row)) /\
  (forall start_date' end_date' r,
     App.date_leb start_date' start_date = true ->
     App.date_leb end_date end_date' = true ->
     In r (App.filtered_df df start_date end_date) ->
     In r (App.filtered_df df start_date' end_date')) /\
  (forall r, In r (App.filtered_df df start_date start_date) <->
     In r df /\ dt r = Some start_date).
Proof.
  split; [|split].
  - intros row Hrow. unfold App.audience_data, App.audience_of in Hrow.
    apply in_map_iff in Hrow. destruct Hrow as [[[[d m] n] rows] [<- Hg]].
    cbn [App.a_dt App.a_multiMovieYn App.a_repNationCd fst snd].
    apply groupby_In in Hg. destruct Hg as [[r [Hr Hk]] _].
    apply filtered_df_In in Hr. destruct Hr as [Hr [d' [Hd [H1 H2]]]].
    unfold App.audience_key in Hk. rewrite Hd in Hk.
    destruct (multiMovieYn r) as [m'|] eqn:Em; [|discriminate].
    destruct (repNationCd r) as [n'|] eqn:En; [|discriminate].
    inversion Hk; subst. split; [assumption|]. split; [assumption|].
    exists r. auto.
  - intros s' e' r Hs He Hr. apply filtered_df_In in Hr. apply filtered_df_In.
    destruct Hr as [Hr [d [Hd [H1 H2]]]]. split; [assumption|]. exists d.
    split; [assumption|]. split; eapply date_leb_trans; eassumption.
  - intros r. rewrite filtered_df_In. split.
    + intros [Hr [d [Hd [H1 H2]]]]. split; [assumption|]. rewrite Hd. f_equal.
      apply date_leb_le in H1, H2. destruct H1 as [->|H1]; [reflexivity|].
      destruct H2 as [->|H2]; [reflexivity|].
      exfalso. exact (klt_irrefl _ (kcmp_trans _ _ _ H1 H2)).
    + intros [Hr Hd]. split; [assumption|]. exists start_date.
      split; [assumption|]. split; apply date_leb_refl.
Qed.

(** ** The default date range *)

Lemma date_min_spec (a b : Date) :
  (Pandas.date_min a b = a \/ Pandas.date_min a b = b) /\
  App.date_leb (Pandas.date_min a b) a = true /\
  App.date_leb (Pandas.date_min a b) b = true.
Proof.
  unfold Pandas.date_min. destruct (date_compare a b) eqn:E.
  - repeat split; auto using date_leb_refl. unfold App.date_leb. now rewrite E.
  - repeat split; auto using date_leb_refl. unfold App.date_leb. now rewrite E.
  - repeat split; auto using date_leb_refl. apply date_leb_total.
    unfold App.date_leb. now rewrite E.
Qed.

Lemma date_max_spec (a b : Date) :
  (Pandas.date_max a b = a \/ Pandas.date_max a b = b) /\
  App.date_leb a (Pandas.date_max a b) = true /\
  App.date_leb b (Pandas.date_max a b) = true.
Proof.
  unfold Pandas.date_max. destruct (date_compare a b) eqn:E.
  - repeat split; auto using date_leb_refl. apply date_leb_le. left. symmetry.
    now apply (proj1 (kcmp_eq a b)).
  - repeat split; auto using date_leb_refl. unfold App.date_leb. now rewrite E.
  - repeat split; auto using date_leb_refl. apply date_leb_total.
    unfold App.date_leb. now rewrite E.
Qed.

Lemma fold_min_spec (ds : list Date) (d : Date) :
  In (fold_left Pandas.date_min ds d) (d :: ds) /\
  forall x, In x (d :: ds) -> App.date_leb (fold_left Pandas.date_min ds d) x = true.
Proof.
  revert d. induction ds as [|y ds IH]; intros d; simpl.
  - split; [now left|]. intros x [<-|[]]. apply date_leb_refl.
  - destruct (IH (Pandas.date_min d y)) as [Hin Hle].
    destruct (date_min_spec d y) as [Hm [Hd Hy]]. split.
    + destruct Hin as [Hin|Hin]; [|now right; right].
      rewrite <- Hin. destruct Hm as [->| ->]; auto.
    + intros x [<-|[<-|Hx]].
      * eapply date_leb_trans; [apply Hle; now left | exact Hd].
      * eapply date_leb_trans; [apply Hle; now left | exact Hy].
      * apply Hle. now right.
Qed.

Lemma fold_max_spec (ds : list Date) (d : Date) :
  In (fold_left Pandas.date_max ds d) (d :: ds) /\
  forall x, In x (d :: ds) -> App.date_leb x (fold_left Pandas.date_max ds d) = true.
Proof.
  revert d. induction ds as [|y ds IH]; intros d; simpl.
  - split; [now left|]. intros x [<-|[]]. apply date_leb_refl.
  - destruct (IH (Pandas.date_max d y)) as [Hin Hle].
    destruct (date_max_spec d y) as [Hm [Hd Hy]]. split.
    + destruct Hin as [Hin|Hin]; [|now right; right].
      rewrite <- Hin. destruct Hm as [->| ->]; auto.
    + intros x [<-|[<-|Hx]].
      * eapply date_leb_trans; [exact Hd | apply Hle; now left].
      * eapply date_leb_trans; [exact Hy | apply Hle; now left].
      * apply Hle. now right.
Qed.

Lemma dates_In (df : DataFrame) (d : Date) :
  In d (Pandas.dropna (map dt df)) <-> exists r, In r df /\ dt r = Some d.
Proof.
  rewrite dropna_In, in_map_iff. split; intros [r Hr]; exists r; tauto.
Qed.

Lemma series_min_spec (df : DataFrame) (lo : Date) :
  Pandas.series_min (map dt df) = Some lo ->
  (exists r, In r df /\ dt r = Some lo) /\
  forall r d, In r df -> dt r = Some d -> App.date_leb lo d = true.
Proof.
  unfold Pandas.series_min.
  destruct (Pandas.dropna (map dt df)) as [|d ds] eqn:E; [discriminate|].
  intros H. inversion H; subst. destruct (fold_min_spec ds d) as [Hin Hle].
  rewrite <- E in Hin. split; [now apply dates_In|].
  intros r x Hr Hx. apply Hle. rewrite <- E. apply dates_In. eauto.
Qed.

Lemma series_max_spec (df : DataFrame) (hi : Date) :
  Pandas.series_max (map dt df) = Some hi ->
  (exists r, In r df /\ dt r = Some hi) /\
  forall r d, In r df -> dt r = Some d -> App.date_leb d hi = true.
Proof.
  unfold Pandas.series_max.
  destruct (Pandas.dropna (map dt df)) as [|d ds] eqn:E; [discriminate|].
  intros H. inversion H; subst. destruct (fold_max_spec ds d) as [Hin Hle].
  rewrite <- E in Hin. split; [now apply dates_In|].
  intros r x Hr Hx. apply Hle. rewrite <- E. apply dates_In. eauto.
Qed.

Lemma audience_of_dated (df : DataFrame) :
  App.audience_of (filter has_date df) = App.audience_of df.
Proof.
  unfold App.audience_of. rewrite (groupby_dropna _ df), (groupby_dropna _ (filter has_date df)).
  do 2 f_equal. rewrite filter_filter_andb. apply filter_ext.
  intros r. rewrite notna_audience_key. now destruct (has_date r).
Qed.

(** X2. Left at its default, the date input gives the earliest and the
    latest date of the table, each carried by some row.  That range keeps
    every row that has a date, so the time series it produces is the grouping
    of the whole table. *)
Theorem default_date_range_covers (df : DataFrame) (lo hi : Date) :
  App.default_date_range df = [Some lo; Some hi] ->
  App.date_leb lo hi = true /\
  (exists r, In r df /\ dt r = Some lo) /\
  (exists r, In r df /\ dt r = Some hi) /\
  (forall r d, In r df -> dt r = Some d ->
     App.date_leb lo d = true /\ App.date_leb d hi = true) /\
  App.filtered_df df lo hi = filter has_date df /\
  App.audience_data df lo hi = App.audience_of df /\
  App.audience_section df [lo; hi] = Some (App.audience_of df).
Proof.
  unfold App.default_date_range. intros H.
  assert (Hlo : Pandas.series_min (map dt df) = Some lo) by congruence.
  assert (Hhi : Pandas.series_max (map dt df) = Some hi) by congruence.
  destruct (series_min_spec df lo Hlo) as [[rlo [Hrlo Hdlo]] Hmin].
  destruct (series_max_spec df hi Hhi) as [[rhi [Hrhi Hdhi]] Hmax].
  assert (Hf : App.filtered_df df lo hi = filter has_date df).
  { unfold App.filtered_df. apply filter_ext_in. intros r Hr.
    unfold App.in_range, has_date. destruct (dt r) as [d|] eqn:Ed; [|reflexivity].
    now rewrite (Hmin r d Hr Ed), (Hmax r d Hr Ed). }
  split; [exact (Hmax rlo lo Hrlo Hdlo)|].
  split; [eauto|]. split; [eauto|]. split; [intros r d Hr Hd; split; eauto|].
  split; [exact Hf|].
  unfold App.audience_section, App.audience_data. rewrite Hf, audience_of_dated.
  split; reflexivity.
Qed.

Lemma default_date_range_covers_witness :
  App.default_date_range scenario = [Some (mkDate 2024 1 1); Some (mkDate 2024 1 2)] /\
  App.date_leb (mkDate 2024 1 1) (mkDate 2024 1 2) = true /\
  (exists r, In r scenario /\ dt r = Some (mkDate 2024 1 1)) /\
  (exists r, In r scenario /\ dt r = Some (mkDate 2024 1 2)) /\
  (forall r d, In r scenario -> dt r = Some d ->
     App.date_leb (mkDate 2024 1 1) d = true /\ App.date_leb d (mkDate 2024 1 2) = true) /\
  App.filtered_df scenario (mkDate 2024 1 1) (mkDate 2024 1 2) = filter has_date scenario /\
  App.audience_data scenario (mkDate 2024 1 1) (mkDate 2024 1 2) = App.audience_of scenario /\
  App.audience_section scenario [mkDate 2024 1 1; mkDate 2024 1 2] =
    Some (App.audience_of scenario).
Proof.
  split; [reflexivity|].
  apply (default_date_range_covers scenario (mkDate 2024 1 1) (mkDate 2024 1 2)).
  reflexivity.
Defined.

(** X11. A table has no per-date null ratio exactly when no row of it has a
    date, which is also when the default date range has no endpoint; then no
    range selects a row and every time series is empty.  This is what
    loading leaves when every raw date fails to parse. *)
Theorem no_dates_no_trend (df : DataFrame) :
  (App.null_ratios df = [] <-> forall r, In r df -> dt r = None) /\
  (App.default_date_range df = [None; None] <-> forall r, In r df -> dt r = None) /\
  ((forall r, In r df -> dt r = None) ->
   forall start_date end_date,
     App.filtered_df df start_date end_date = [] /\
     App.audience_data df start_date end_date = []) /\
  (forall in_bounds raw,
     (forall r, In r raw -> Pandas.to_datetime in_bounds (dt r) = None) ->
     forall r, In r (App.load_data in_bounds raw) -> dt r = None).
Proof.
  assert (Hkeys : Pandas.dropna (map dt df) = [] <-> forall r, In r df -> dt r = None).
  { split.
    - intros E r Hr. destruct (dt r) as [d|] eqn:Ed; [|reflexivity].
      assert (Hd : In d (Pandas.dropna (map dt df))) by (apply dates_In; eauto).
      rewrite E in Hd. destruct Hd.
    - intros Hall. destruct (Pandas.dropna (map dt df)) as [|d ds] eqn:E; [reflexivity|].
      assert (Hd : In d (Pandas.dropna (map dt df))) by (rewrite E; now left).
      apply dates_In in Hd. destruct Hd as [r [Hr Hd]]. rewrite (Hall r Hr) in Hd.
      discriminate. }
  split; [|split; [|split]].
  - rewrite <- Hkeys. unfold App.null_ratios, Pandas.groupby.
    destruct (Pandas.dropna (map dt df)) as [|d ds] eqn:E.
    + split; reflexivity.
    + split; [|discriminate]. intros Hnil.
      apply (f_equal (@List.length _)) in Hnil. rewrite !length_map in Hnil.
      assert (Hd : In d (Pandas.group_keys (d :: ds))) by (apply group_keys_In; now left).
      destruct (Pandas.group_keys (d :: ds)); [destruct Hd | discriminate].
  - rewrite <- Hkeys. unfold App.default_date_range, Pandas.series_min, Pandas.series_max.
    destruct (Pandas.dropna (map dt df)); split; try reflexivity; discriminate.
  - intros Hall s e.
    assert (Hf : App.filtered_df df s e = []).
    { unfold App.filtered_df.
      destruct (filter (fun r => App.in_range s e (dt r)) df) as [|r l] eqn:E;
        [reflexivity|].
      assert (Hr : In r (filter (fun r => App.in_range s e (dt r)) df))
        by (rewrite E; now left).
      apply filter_In in Hr. destruct Hr as [Hr Hd].
      rewrite (Hall r Hr) in Hd. discriminate. }
    split; [exact Hf|]. unfold App.audience_data. now rewrite Hf.
  - intros in_bounds raw Hall r Hr. unfold App.load_data in Hr.
    apply in_map_iff in Hr. destruct Hr as [r0 [<- Hr0]]. simpl. now apply Hall.
Qed.

(** ** Rankings, totals and the per-movie series *)

Lemma sum_perm (l1 l2 : list Z) : Permutation l1 l2 -> Pandas.sum l1 = Pandas.sum l2.
Proof.
  induction 1 as [|x l1 l2 Hp IH|x y l|l1 l2 l3 H12 IH12 H23 IH23]; simpl; lia.
Qed.

Lemma filter_all {X} (p : X -> bool) (l : list X) :
  (forall x, In x l -> p x = true) -> filter p l = l.
Proof.
  induction l as [|x l IH]; simpl; intros Hall; [reflexivity|].
  rewrite (Hall x (or_introl eq_refl)). f_equal. apply IH. intros y Hy. apply Hall. now right.
Qed.

(** The per-movie sums add up to the sum over the whole table. *)
Lemma groupby_sum_total (measure : Row (option Date) -> Z) (df : DataFrame) :
  Pandas.sum (map snd (App.groupby_sum measure df)) = Pandas.sum (map measure df).
Proof.
  unfold App.groupby_sum. rewrite map_map. cbn [snd].
  rewrite (group_sums_total (fun r => Some (movieNm r)) measure df).
  now rewrite filter_all.
Qed.

Lemma top_n_all (A : Pandas.ArgSort) (measure : Row (option Date) -> Z) (df : DataFrame) :
  (List.length (App.movie_names df) <= 10)%nat ->
  Permutation (App.top_n A measure df) (App.groupby_sum measure df).
Proof.
  intros Hlen. unfold App.top_n, Pandas.head. rewrite firstn_all2.
  - apply sort_values_desc_perm.
  - rewrite (Permutation_length (sort_values_desc_perm A _)), groupby_sum_length.
    exact Hlen.
Qed.

(** X3. With at most ten movies in the table a ranking lists every movie,
    each with the sum over its rows, and the sums of the ranking add up to
    the sum of the measure over the whole table: nothing is cut off. *)
Theorem ranking_complete (A : Pandas.ArgSort) (measure : Row (option Date) -> Z)
    (df : DataFrame) :
  (List.length (App.movie_names df) <= 10)%nat ->
  List.length (App.top_n A measure df) = List.length (App.movie_names df) /\
  (forall r, In r df ->
     In (movieNm r, Pandas.sum (map measure (rows_of_movie (movieNm r) df)))
        (App.top_n A measure df)) /\
  Pandas.sum (map snd (App.top_n A measure df)) = Pandas.sum (map measure df) /\
  Pandas.sum (map snd (App.top_sales A df)) = Pandas.sum (map salesAmt df) /\
  Pandas.sum (map snd (App.top_audience A df)) = Pandas.sum (map audiCnt df).
Proof.
  intros Hlen.
  assert (Hsum : forall m, Pandas.sum (map snd (App.top_n A m df)) = Pandas.sum (map m df)).
  { intros m. rewrite <- groupby_sum_total.
    apply sum_perm, Permutation_map, top_n_all, Hlen. }
  split; [|split; [|split; [apply Hsum | split; apply Hsum]]].
  - rewrite (Permutation_length (top_n_all A measure df Hlen)). apply groupby_sum_length.
  - intros r Hr. apply (Permutation_in _ (Permutation_sym (top_n_all A measure df Hlen))).
    apply groupby_sum_In. split; [eauto | reflexivity].
Qed.

Lemma ranking_complete_witness :
  (List.length (App.movie_names scenario) <= 10)%nat /\
  List.length (App.top_n sample_argsort audiCnt scenario) =
    List.length (App.movie_names scenario) /\
  (forall r, In r scenario ->
     In (movieNm r, Pandas.sum (map audiCnt (rows_of_movie (movieNm r) scenario)))
        (App.top_n sample_argsort audiCnt scenario)) /\
  Pandas.sum (map snd (App.top_n sample_argsort audiCnt scenario)) =
    Pandas.sum (map audiCnt scenario) /\
  Pandas.sum (map snd (App.top_sales sample_argsort scenario)) =
    Pandas.sum (map salesAmt scenario) /\
  Pandas.sum (map snd (App.top_audience sample_argsort scenario)) =
    Pandas.sum (map audiCnt scenario).
Proof.
  split; [simpl; lia|].
  apply (ranking_complete sample_argsort audiCnt scenario). simpl. lia.
Defined.

(** X14. A ranking is empty only for the empty table, and its first row has
    the largest sum: no movie of the table, ranked or not, has a larger
    one. *)
Theorem ranking_first_is_largest (A : Pandas.ArgSort) (measure : Row (option Date) -> Z)
    (df : DataFrame) :
  (App.top_n A measure df = [] <-> df = []) /\
  (forall name total,
     hd_error (App.top_n A measure df) = Some (name, total) ->
     (exists r, In r df /\ movieNm r = name) /\
     forall r, In r df ->
       Pandas.sum (map measure (rows_of_movie (movieNm r) df)) <= total).
Proof.
  split.
  - pose proof (top_n_length A measure df) as Hlen. split.
    + intros Hnil. rewrite Hnil in Hlen. simpl in Hlen.
      destruct df as [|r l]; [reflexivity|]. exfalso.
      unfold Pandas.unique in Hlen. simpl in Hlen. lia.
    + intros ->. destruct (App.top_n A measure []) as [|x l]; [reflexivity|].
      simpl in Hlen. discriminate.
  - intros name total Hhd.
    destruct (App.top_n A measure df) as [|[n t] rest] eqn:E; [discriminate|].
    simpl in Hhd. inversion Hhd; subst n t. split.
    + apply (top_n_In A measure df name total). rewrite E. now left.
    + intros r Hr.
      assert (Hg : In (movieNm r, Pandas.sum (map measure (rows_of_movie (movieNm r) df)))
                      (App.groupby_sum measure df)).
      { apply groupby_sum_In. split; [eauto | reflexivity]. }
      destruct (top_n_largest A measure df) as [others [Hperm Hle]].
      pose proof (top_n_descending A measure df) as Hdesc.
      rewrite E in Hperm, Hle, Hdesc.
      apply (Permutation_in _ (Permutation_sym Hperm)) in Hg.
      apply in_app_or in Hg. destruct Hg as [[Hg|Hg]|Hg].
      * inversion Hg. lia.
      * inversion Hdesc as [|? ? _ Hall]; subst. rewrite Forall_forall in Hall.
        apply Hall in Hg. simpl in Hg. lia.
      * specialize (Hle (name, total) _ (or_introl eq_refl) Hg). simpl in Hle. lia.
Qed.

(** X7. The total a ranking shows for a movie is the total of that movie's
    detail series: for a ranked movie with a non-empty name the series is
    extracted, has at least one row, and its audience counts (its sales
    amounts) add up to the sum in the audience (sales) ranking. *)
Theorem ranking_matches_series (A : Pandas.ArgSort) (df : DataFrame) (name : string) :
  name <> "" ->
  (forall total, In (name, total) (App.top_audience A df) ->
     exists rows, App.movie_data df name = Some rows /\ rows <> [] /\
                  total = Pandas.sum (map App.s_audiCnt rows)) /\
  (forall total, In (name, total) (App.top_sales A df) ->
     exists rows, App.movie_data df name = Some rows /\ rows <> [] /\
                  total = Pandas.sum (map App.s_salesAmt rows)).
Proof.
  intros Hne.
  assert (Hdata : App.movie_data df name = Some (App.movie_rows df name)).
  { unfold App.movie_data. now rewrite truthy_true. }
  assert (Hrows : forall r, In r df -> movieNm r = name -> App.movie_rows df name <> []).
  { intros r Hr Hn Hnil.
    assert (Hx : In (App.series_row r) (App.movie_rows df name))
      by (apply movie_rows_In; eauto).
    rewrite Hnil in Hx. destruct Hx. }
  split; intros total Hin; exists (App.movie_rows df name);
    (split; [exact Hdata|]);
    apply top_n_In in Hin; destruct Hin as [[r [Hr Hn]] ->];
    (split; [eapply Hrows; eassumption|]);
    unfold App.movie_rows, rows_of_movie; now rewrite map_map.
Qed.

Lemma ranking_matches_series_witness :
  "A" <> "" /\
  (forall total, In ("A", total) (App.top_audience sample_argsort scenario) ->
     exists rows, App.movie_data scenario "A" = Some rows /\ rows <> [] /\
                  total = Pandas.sum (map App.s_audiCnt rows)) /\
  (forall total, In ("A", total) (App.top_sales sample_argsort scenario) ->
     exists rows, App.movie_data scenario "A" = Some rows /\ rows <> [] /\
                  total = Pandas.sum (map App.s_salesAmt rows)).
Proof.
  split; [discriminate|].
  apply (ranking_matches_series sample_argsort scenario "A"). discriminate.
Defined.

Lemma sum_ones {X} (l : list X) : Pandas.sum (map (fun _ => 1) l) = Z.of_nat (List.length l).
Proof.
  induction l as [|x l IH]; [reflexivity|].
  cbn [map Pandas.sum fold_right List.length]. fold (Pandas.sum (map (fun _ : X => 1) l)).
  rewrite IH. lia.
Qed.

(** X6. The series the script extracts for the options of the select box
    split the rows that have a name: their row counts add up to the number
    of rows with a non-empty movie name (to the number of rows of the table
    when every row has one), each such row is in the series extracted for
    its own movie and in the rows of no other option, and for a row with an
    empty name nothing is extracted. *)
Theorem series_partition (df : DataFrame) :
  Pandas.sum (map (fun name => Z.of_nat (series_length df name)) (App.movie_names df))
    = Z.of_nat (List.length (filter named df)) /\
  ((forall r, In r df -> named r = true) ->
   Pandas.sum (map (fun name => Z.of_nat (series_length df name)) (App.movie_names df))
     = Z.of_nat (List.length df)) /\
  (forall r, In r df -> named r = true ->
     In (movieNm r) (App.movie_names df) /\
     exists rows, App.movie_data df (movieNm r) = Some rows /\
                  In (App.series_row r) rows) /\
  (forall r, In r df -> named r = false ->
     App.movie_data df (movieNm r) = None /\ series_length df (movieNm r) = 0%nat) /\
  (forall r name, In r df -> movieNm r <> name ->
     ~ In r (rows_of_movie name df)).
Proof.
  assert (Htotal :
    Pandas.sum (map (fun name => Z.of_nat (series_length df name)) (App.movie_names df))
      = Z.of_nat (List.length (filter named df))).
  { set (key := fun r : Row (option Date) =>
                  if named r then Some (movieNm r) else None).
    assert (Hcov : forall (r : Row (option Date)) k, In r df -> key r = Some k ->
                     In k (App.movie_names df)).
    { intros r k Hr Hk. unfold key in Hk. destruct (named r); [|discriminate].
      inversion Hk; subst. unfold App.movie_names. apply unique_In. now apply in_map. }
    pose proof (group_sums_total_aux key (fun _ => 1)
                  (App.movie_names df) df (unique_NoDup _) Hcov) as H.
    rewrite sum_ones in H.
    replace (filter (Pandas.notna key) df) with (filter named df) in H.
    2:{ apply filter_ext. intros r. unfold Pandas.notna, key. now destruct (named r). }
    rewrite <- H. f_equal. apply map_ext. intros name. rewrite sum_ones. f_equal.
    unfold series_length, App.movie_data, App.movie_rows.
    destruct (App.truthy name) eqn:T.
    - rewrite length_map. f_equal. apply filter_ext. intros r.
      unfold Pandas.has_key, key, named.
      destruct (App.truthy (movieNm r)) eqn:Tr.
      + destruct (String.eqb (movieNm r) name) eqn:E.
        * symmetry. apply keqb_eq. now apply String.eqb_eq.
        * destruct (keqb (movieNm r) name) eqn:E'; [|reflexivity].
          apply keqb_eq in E'. apply String.eqb_neq in E. contradiction.
      + destruct (String.eqb (movieNm r) name) eqn:E; [|reflexivity].
        apply String.eqb_eq in E. congruence.
    - symmetry. apply length_zero_iff_nil.
      assert (Hnone : forall r, Pandas.has_key key name r = false).
      { intros r. unfold Pandas.has_key, key, named.
        destruct (App.truthy (movieNm r)) eqn:Tr; [|reflexivity].
        destruct (keqb (movieNm r) name) eqn:E'; [|reflexivity].
        apply keqb_eq in E'. congruence. }
      clear -Hnone. induction df as [|r l IH]; simpl; [reflexivity|].
      now rewrite Hnone. }
  split; [exact Htotal|]. split; [|split; [|split]].
  - intros Hall. rewrite Htotal. f_equal. f_equal.
    clear Htotal. induction df as [|r l IH]; simpl; [reflexivity|].
    rewrite (Hall r) by now left. f_equal. apply IH. intros r' Hr'. apply Hall. now right.
  - intros r Hr Hn. split.
    + unfold App.movie_names. apply unique_In. now apply in_map.
    + exists (App.movie_rows df (movieNm r)). split.
      * unfold App.movie_data. unfold named in Hn. now rewrite Hn.
      * apply movie_rows_In. eauto.
  - intros r Hr Hn. unfold series_length, App.movie_data. unfold named in Hn.
    now rewrite Hn.
  - intros r name Hr Hne Hin. unfold rows_of_movie in Hin.
    apply filter_In in Hin. destruct Hin as [_ He]. apply String.eqb_eq in He. congruence.
Qed.

Lemma series_partition_witness :
  (forall r, In r series_sample -> named r = true) /\
  Pandas.sum (map (fun name => Z.of_nat (series_length series_sample name))
                  (App.movie_names series_sample))
    = Z.of_nat (List.length series_sample).
Proof.
  assert (Hall : forall r, In r series_sample -> named r = true).
  { intros r [<-|[<-|[<-|[]]]]; reflexivity. }
  split; [exact Hall|].
  apply (proj1 (proj2 (series_partition series_sample))). exact Hall.
Defined.

Example series_partition_unnamed :
  App.movie_names unnamed_sample = [""] /\
  map (series_length unnamed_sample) (App.movie_names unnamed_sample) = [0%nat] /\
  map (fun name => List.length (rows_of_movie name unnamed_sample))
      (App.movie_names unnamed_sample) = [1%nat].
Proof. repeat split; reflexivity. Qed.

(** ** What the date parser rejects *)

Lemma length_list_ascii (s : string) :
  List.length (list_ascii_of_string s) = String.length s.
Proof. induction s as [|c s IH]; simpl; [reflexivity | now rewrite IH]. Qed.

Lemma readings_length (d : Date) (l : list ascii) :
  In l (readings d) -> (6 <= List.length l <= 8)%nat.
Proof.
  unfold readings. intros Hl. apply in_flat_map in Hl. destruct Hl as [fm [Hfm Hl]].
  apply in_map_iff in Hl. destruct Hl as [fd [<- Hfd]].
  rewrite !length_app. unfold digits4. cbn [List.length].
  assert (Hm : (1 <= List.length fm <= 2)%nat).
  { unfold month_forms in Hfm. destruct (month d <? 10)%Z; simpl in Hfm;
      intuition (subst; simpl; lia). }
  assert (Hd : (1 <= List.length fd <= 2)%nat).
  { unfold day_forms in Hfd. destruct (day d <? 10)%Z; simpl in Hfd;
      intuition (subst; simpl; lia). }
  lia.
Qed.

Lemma digit_char_is_digit (k : Z) : 0 <= k <= 9 -> date_char (digit_char k) = true.
Proof.
  intros Hk. unfold date_char. apply orb_true_iff. left.
  apply class_true. rewrite code_digit_char; lia.
Qed.

Lemma readings_chars (d : Date) (l : list ascii) :
  0 <= year d <= 9999 ->
  Pandas.valid_date d = true -> In l (readings d) -> forallb date_char l = true.
Proof.
  intros Hy V Hl. apply valid_date_bounds in V. destruct V as [Hm Hd].
  unfold readings in Hl. apply in_flat_map in Hl. destruct Hl as [fm [Hfm Hl]].
  apply in_map_iff in Hl. destruct Hl as [fd [<- Hfd]].
  rewrite !forallb_app. apply andb_true_iff. split; [|apply andb_true_iff; split].
  - unfold digits4. cbn [forallb].
    rewrite !digit_char_is_digit by (Z.div_mod_to_equations; lia). reflexivity.
  - unfold month_forms in Hfm. destruct (month d <? 10)%Z eqn:E; simpl in Hfm.
    + apply Z.ltb_lt in E. destruct Hfm as [<-|[<-|[]]]; unfold digits2; cbn [forallb];
        rewrite !digit_char_is_digit by (try (Z.div_mod_to_equations; lia); lia);
        reflexivity.
    + destruct Hfm as [<-|[]]. unfold digits2. cbn [forallb].
      rewrite !digit_char_is_digit by (Z.div_mod_to_equations; lia). reflexivity.
  - unfold day_forms in Hfd. destruct (day d <? 10)%Z eqn:E; simpl in Hfd.
    + apply Z.ltb_lt in E. destruct Hfd as [<-|[<-|[<-|[]]]]; unfold digits2;
        cbn [forallb];
        rewrite !digit_char_is_digit by (try (Z.div_mod_to_equations; lia); lia);
        reflexivity.
    + destruct Hfd as [<-|[]]. unfold digits2. cbn [forallb].
      rewrite !digit_char_is_digit by (Z.div_mod_to_equations; lia). reflexivity.
Qed.

(** X9. An ASCII raw value other than a clock literal parses to null when it
    has fewer than 6 or more than 8 characters, or holds a character that is
    neither a digit nor a blank (a separator, a sign, a letter). *)
Theorem to_datetime_rejects (in_bounds : Date -> bool) (raw : string) :
  Pandas.clock_literal raw = false ->
  Pandas.ascii_text raw = true ->
  (String.length raw < 6)%nat \/ (8 < String.length raw)%nat \/
    forallb date_char (list_ascii_of_string raw) = false ->
  Pandas.to_datetime in_bounds raw = None /\
  exists e, Pandas.strptime in_bounds raw = inr e.
Proof.
  intros _ _ Hbad.
  assert (Hnone : Pandas.to_datetime in_bounds raw = None).
  { destruct (Pandas.to_datetime in_bounds raw) as [d|] eqn:E; [|reflexivity].
    pose proof (to_datetime_year _ _ _ E) as Hy.
    apply to_datetime_inv in E. destruct E as [V [_ Hin]].
    pose proof (readings_length d _ Hin) as Hlen. rewrite length_list_ascii in Hlen.
    pose proof (readings_chars d _ Hy V Hin) as Hch.
    destruct Hbad as [H|[H|H]]; [lia | lia | congruence]. }
  split; [exact Hnone|]. now apply to_datetime_none_iff.
Qed.

Lemma to_datetime_rejects_witness :
  Pandas.clock_literal "2024-01-01" = false /\
  Pandas.ascii_text "2024-01-01" = true /\
  ((String.length "2024-01-01" < 6)%nat \/ (8 < String.length "2024-01-01")%nat \/
    forallb date_char (list_ascii_of_string "2024-01-01") = false) /\
  Pandas.to_datetime Pandas.ns_bounds "2024-01-01" = None /\
  exists e, Pandas.strptime Pandas.ns_bounds "2024-01-01" = inr e.
Proof.
  split; [reflexivity|]. split; [reflexivity|]. split; [right; left; simpl; lia|].
  apply (to_datetime_rejects Pandas.ns_bounds "2024-01-01");
    [reflexivity | reflexivity | right; left; simpl; lia].
Defined.

(** X10. Two raw values of 8 digits that parse to the same date are the same
    value: among 8-digit values no two dates are merged (shorter readings do
    collide with them). *)
Theorem to_datetime_injective_on_8_digits (in_bounds : Date -> bool)
    (raw1 raw2 : string) (d1 d2 d : Date) :
  read_YYYYMMDD raw1 = Some d1 ->
  read_YYYYMMDD raw2 = Some d2 ->
  Pandas.to_datetime in_bounds raw1 = Some d ->
  Pandas.to_datetime in_bounds raw2 = Some d ->
  raw1 = raw2 /\ d1 = d /\ d2 = d.
Proof.
  intros R1 R2 P1 P2.
  pose proof (to_datetime_eight_digits _ _ _ _ R1 P1) as E1.
  pose proof (to_datetime_eight_digits _ _ _ _ R2 P2) as E2.
  subst d1 d2.
  apply to_datetime_inv in P1. destruct P1 as [V [B _]].
  destruct (to_datetime_valid in_bounds raw1 d R1 V B) as [_ F1].
  destruct (to_datetime_valid in_bounds raw2 d R2 V B) as [_ F2].
  split; [congruence | split; reflexivity].
Qed.

Lemma to_datetime_injective_on_8_digits_witness :
  read_YYYYMMDD "20240229" = Some (mkDate 2024 2 29) /\
  Pandas.to_datetime Pandas.ns_bounds "20240229" = Some (mkDate 2024 2 29) /\
  "20240229" = "20240229" /\ mkDate 2024 2 29 = mkDate 2024 2 29 /\
  mkDate 2024 2 29 = mkDate 2024 2 29.
Proof.
  split; [reflexivity|]. split; [reflexivity|].
  apply (to_datetime_injective_on_8_digits Pandas.ns_bounds "20240229" "20240229"
           (mkDate 2024 2 29) (mkDate 2024 2 29) (mkDate 2024 2 29)); reflexivity.
Defined.

(** ** The overall null ratios at their extremes *)

Lemma filter_length_zero {X} (p : X -> bool) (l : list X) :
  List.length (filter p l) = 0%nat <-> forall x, In x l -> p x = false.
Proof.
  induction l as [|x l IH]; simpl.
  - split; [intros _ y [] | reflexivity].
  - destruct (p x) eqn:E; simpl.
    + split; [discriminate|]. intros H. specialize (H x (or_introl eq_refl)). congruence.
    + rewrite IH. split.
      * intros H y [<-|Hy]; auto.
      * intros H y Hy. apply H. now right.
Qed.

Lemma filter_length_all {X} (p : X -> bool) (l : list X) :
  List.length (filter p l) = List.length l <-> forall x, In x l -> p x = true.
Proof.
  induction l as [|x l IH]; simpl.
  - split; [intros _ y [] | reflexivity].
  - destruct (p x) eqn:E; simpl.
    + split.
      * intros H y [<-|Hy]; [assumption|]. apply IH; [lia | assumption].
      * intros H. f_equal. apply IH. intros y Hy. apply H. now right.
    + split.
      * intros H. pose proof (filter_length_le p l). lia.
      * intros H. specialize (H x (or_introl eq_refl)). congruence.
Qed.

Lemma null_ratio_extremes (A : Type) (col : Row (option Date) -> option A)
    (df : DataFrame) (q : Q) :
  Pandas.mean_bool (Pandas.isna (map col df)) = Some q ->
  df <> [] /\
  ((q == 0)%Q <-> forall r, In r df -> col r <> None) /\
  ((q == 1)%Q <-> forall r, In r df -> col r = None).
Proof.
  intros Hq.
  assert (Hne : df <> []) by (intros ->; discriminate Hq).
  split; [exact Hne|].
  assert (Hlen : List.length (Pandas.isna (map col df)) = List.length df).
  { unfold Pandas.isna. now rewrite !length_map. }
  assert (Hn : (0 < List.length df)%nat).
  { destruct df; [congruence | simpl; lia]. }
  assert (Hk : (null_count col df <= List.length df)%nat).
  { unfold null_count. apply filter_length_le. }
  rewrite mean_bool_value in Hq by (destruct df; [congruence | discriminate]).
  rewrite Hlen, count_true_isna in Hq.
  assert (Hext : ((q == 0)%Q <-> null_count col df = 0%nat) /\
                 ((q == 1)%Q <-> null_count col df = List.length df)).
  { destruct (Z.of_nat (List.length df) <? 2 ^ 53)%Z eqn:Hbig.
    - apply Z.ltb_lt in Hbig.
      destruct (float64_count _ _ Hn Hk) as [_ [_ [_ [H0 H1]]]].
      inversion Hq; subst q. split; [exact H0 | exact (H1 Hbig)].
    - inversion Hq; subst q. now apply quotient_extremes. }
  destruct Hext as [H0 H1]. rewrite H0, H1. unfold null_count. split.
  - rewrite filter_length_zero.
    split; intros H r Hr; specialize (H r Hr); destruct (col r); congruence.
  - rewrite filter_length_all.
    split; intros H r Hr; specialize (H r Hr); destruct (col r); congruence.
Qed.

(** X15. An overall null ratio is defined exactly on a non-empty table; it
    is 0 exactly when no row lacks the value and 1 exactly when every row
    lacks it. *)
Theorem null_ratio_zero_one (df : DataFrame) :
  (App.multiMovieYn_null_ratio df = None <-> df = []) /\
  (App.repNationCd_null_ratio df = None <-> df = []) /\
  (forall q, App.multiMovieYn_null_ratio df = Some q ->
     ((q == 0)%Q <-> forall r, In r df -> multiMovieYn r <> None) /\
     ((q == 1)%Q <-> forall r, In r df -> multiMovieYn r = None)) /\
  (forall q, App.repNationCd_null_ratio df = Some q ->
     ((q == 0)%Q <-> forall r, In r df -> repNationCd r <> None) /\
     ((q == 1)%Q <-> forall r, In r df -> repNationCd r = None)).
Proof.
  unfold App.multiMovieYn_null_ratio, App.repNationCd_null_ratio.
  split; [|split; [|split]].
  - destruct df; simpl; split; congruence.
  - destruct df; simpl; split; congruence.
  - intros q Hq. now apply null_ratio_extremes in Hq.
  - intros q Hq. now apply null_ratio_extremes in Hq.
Qed.

(** ** What does not depend on the dates *)

Lemma map_cons_inv {X Y} (g : X -> Y) (a b : X) (l1 l2 : list X) :
  map g (a :: l1) = map g (b :: l2) -> g a = g b /\ map g l1 = map g l2.
Proof. simpl. intros H. split; congruence. Qed.

Section Undated.

Context {X : Type}.
Variable f : Row (option Date) -> X.
Variable p : Row (option Date) -> bool.
Hypothesis f_undated : forall r1 r2, undated r1 = undated r2 -> f r1 = f r2.
Hypothesis p_undated : forall r1 r2, undated r1 = undated r2 -> p r1 = p r2.

Lemma map_undated (df1 df2 : DataFrame) :
  map undated df1 = map undated df2 -> map f df1 = map f df2.
Proof.
  revert df2. induction df1 as [|r1 l1 IH]; intros [|r2 l2] H; try discriminate.
  - reflexivity.
  - apply map_cons_inv in H. destruct H as [Hr Hl]. simpl. f_equal; auto.
Qed.

Lemma map_filter_undated (df1 df2 : DataFrame) :
  map undated df1 = map undated df2 -> map f (filter p df1) = map f (filter p df2).
Proof.
  revert df2. induction df1 as [|r1 l1 IH]; intros [|r2 l2] H; try discriminate.
  - reflexivity.
  - apply map_cons_inv in H. destruct H as [Hr Hl]. simpl.
    rewrite (p_undated r1 r2 Hr).
    destruct (p r2); simpl; [f_equal|]; auto.
Qed.

End Undated.

Lemma undated_fields (r1 r2 : Row (option Date)) :
  undated r1 = undated r2 ->
  movieNm r1 = movieNm r2 /\ audiCnt r1 = audiCnt r2 /\ salesAmt r1 = salesAmt r2 /\
  multiMovieYn r1 = multiMovieYn r2 /\ repNationCd r1 = repNationCd r2.
Proof. unfold undated. intros H. inversion H. auto. Qed.

Lemma groupby_sum_undated (measure : Row (option Date) -> Z) (df1 df2 : DataFrame) :
  (forall r1 r2, undated r1 = undated r2 -> measure r1 = measure r2) ->
  map undated df1 = map undated df2 ->
  App.groupby_sum measure df1 = App.groupby_sum measure df2.
Proof.
  intros Hm H. rewrite !groupby_sum_by_name.
  rewrite (map_undated movieNm (fun r1 r2 E => proj1 (undated_fields r1 r2 E)) df1 df2 H).
  apply map_ext. intros name. do 2 f_equal. unfold rows_of_movie.
  apply map_filter_undated; [assumption | | assumption].
  intros r1 r2 E. now rewrite (proj1 (undated_fields r1 r2 E)).
Qed.

(** X8. The rankings, the options of the select box, the overall null
    ratios and the measures of a movie's series do not look at the date
    column: two tables that agree on every other column give the same ones.
    So they are the same whichever raw dates fail to parse, and a row whose
    date is null still counts in them. *)
Theorem dates_do_not_matter (A : Pandas.ArgSort) (df1 df2 : DataFrame) :
  map undated df1 = map undated df2 ->
  App.top_sales A df1 = App.top_sales A df2 /\
  App.top_audience A df1 = App.top_audience A df2 /\
  App.movie_names df1 = App.movie_names df2 /\
  App.multiMovieYn_null_ratio df1 = App.multiMovieYn_null_ratio df2 /\
  App.repNationCd_null_ratio df1 = App.repNationCd_null_ratio df2 /\
  (forall name,
     map App.s_audiCnt (App.movie_rows df1 name) =
       map App.s_audiCnt (App.movie_rows df2 name) /\
     map App.s_salesAmt (App.movie_rows df1 name) =
       map App.s_salesAmt (App.movie_rows df2 name)).
Proof.
  intros H.
  split; [|split; [|split; [|split; [|split]]]].
  - unfold App.top_sales, App.top_n. rewrite (groupby_sum_undated salesAmt df1 df2); auto.
    intros r1 r2 E. apply (undated_fields r1 r2 E).
  - unfold App.top_audience, App.top_n. rewrite (groupby_sum_undated audiCnt df1 df2); auto.
    intros r1 r2 E. apply (undated_fields r1 r2 E).
  - unfold App.movie_names. f_equal. apply map_undated; [|assumption].
    intros r1 r2 E. apply (undated_fields r1 r2 E).
  - unfold App.multiMovieYn_null_ratio. do 2 f_equal. apply map_undated; [|assumption].
    intros r1 r2 E. apply (undated_fields r1 r2 E).
  - unfold App.repNationCd_null_ratio. do 2 f_equal. apply map_undated; [|assumption].
    intros r1 r2 E. apply (undated_fields r1 r2 E).
  - intros name. unfold App.movie_rows. rewrite !map_map.
    cbn [App.s_audiCnt App.s_salesAmt App.series_row].
    split; (apply map_filter_undated; [| |assumption]);
      intros r1 r2 E; try apply (undated_fields r1 r2 E);
      now rewrite (proj1 (undated_fields r1 r2 E)).
Qed.

Lemma dates_do_not_matter_witness :
  map undated (App.load_data Pandas.ns_bounds raw_scenario) =
    map undated (App.load_data (fun _ => false) raw_scenario) /\
  App.top_sales sample_argsort (App.load_data Pandas.ns_bounds raw_scenario) =
    App.top_sales sample_argsort (App.load_data (fun _ => false) raw_scenario) /\
  App.top_audience sample_argsort (App.load_data Pandas.ns_bounds raw_scenario) =
    App.top_audience sample_argsort (App.load_data (fun _ => false) raw_scenario) /\
  App.movie_names (App.load_data Pandas.ns_bounds raw_scenario) =
    App.movie_names (App.load_data (fun _ => false) raw_scenario) /\
  App.multiMovieYn_null_ratio (App.load_data Pandas.ns_bounds raw_scenario) =
    App.multiMovieYn_null_ratio (App.load_data (fun _ => false) raw_scenario) /\
  App.repNationCd_null_ratio (App.load_data Pandas.ns_bounds raw_scenario) =
    App.repNationCd_null_ratio (App.load_data (fun _ => false) raw_scenario) /\
  (forall name,
     map App.s_audiCnt (App.movie_rows (App.load_data Pandas.ns_bounds raw_scenario) name) =
       map App.s_audiCnt (App.movie_rows (App.load_data (fun _ => false) raw_scenario) name) /\
     map App.s_salesAmt (App.movie_rows (App.load_data Pandas.ns_bounds raw_scenario) name) =
       map App.s_salesAmt (App.movie_rows (App.load_data (fun _ => false) raw_scenario) name)).
Proof.
  split; [reflexivity|].
  apply (dates_do_not_matter sample_argsort
           (App.load_data Pandas.ns_bounds raw_scenario)
           (App.load_data (fun _ => false) raw_scenario)).
  reflexivity.
Defined.

(** ** The two conditional sections *)

(** X13. In a full run over the loaded table, with the selected columns
    among those of the table.  On a table with a date: the filtered table
    and the time series are bound exactly when the date input holds two
    endpoints, and are then those of the loaded table for that range (with
    one endpoint or none nothing is computed); the series of a movie is
    bound exactly when the select box returns a non-empty name, and is then
    the series of that movie.  On a table without any date the rankings are
    computed, the date input raises, and nothing after it is bound. *)
Theorem conditional_sections (in_bounds : Date -> bool) (A : Pandas.ArgSort)
    (w : App.Widgets) (raw : RawFrame) :
  forallb known_column (App.selected_columns w) = true ->
  (dated (App.load_data in_bounds raw) ->
   App.deref (App.exec (App.script A w) (App.loaded in_bounds raw)) "filtered_df" =
     match App.date_range w with
     | [start_date; end_date] =>
         Some (App.OFrame (App.filtered_df (App.load_data in_bounds raw) start_date end_date))
     | _ => None
     end /\
   App.deref (App.exec (App.script A w) (App.loaded in_bounds raw)) "audience_data" =
     option_map App.OAudience
       (App.audience_section (App.load_data in_bounds raw) (App.date_range w)) /\
   (App.env (App.exec (App.script A w) (App.loaded in_bounds raw)) "audience_data" = None <->
      List.length (App.date_range w) <> 2%nat) /\
   App.env (App.exec (App.script A w) (App.loaded in_bounds raw)) "movie_name" =
     Some (App.VName (App.selectbox (App.movie_names (App.load_data in_bounds raw))
                                    (App.movie_index w))) /\
   App.deref (App.exec (App.script A w) (App.loaded in_bounds raw)) "movie_data" =
     match App.selectbox (App.movie_names (App.load_data in_bounds raw)) (App.movie_index w) with
     | Some name => option_map App.OSeries (App.movie_data (App.load_data in_bounds raw) name)
     | None => None
     end /\
   (App.env (App.exec (App.script A w) (App.loaded in_bounds raw)) "movie_data" = None <->
      match App.selectbox (App.movie_names (App.load_data in_bounds raw)) (App.movie_index w) with
      | Some name => name = ""
      | None => True
      end)) /\
  (~ dated (App.load_data in_bounds raw) ->
   App.deref (App.exec (App.script A w) (App.loaded in_bounds raw)) "top_sales" =
     Some (App.ORanking (App.top_sales A (App.load_data in_bounds raw))) /\
   App.deref (App.exec (App.script A w) (App.loaded in_bounds raw)) "top_audience" =
     Some (App.ORanking (App.top_audience A (App.load_data in_bounds raw))) /\
   forall x, In x ["date_range"; "filtered_df"; "audience_data"; "movie_name"; "movie_data"] ->
     App.env (App.exec (App.script A w) (App.loaded in_bounds raw)) x = None).
Proof.
  intros Hsel. rewrite loaded_state.
  set (df := App.load_data in_bounds raw).
  pose proof (preview_defined _ df (display_columns_known _ Hsel)) as Hprev.
  destruct (App.preview (App.display_columns (App.selected_columns w)) df)
    as [table|] eqn:Ep; [clear Hprev | congruence].
  split.
  - intros Hd. rewrite (script_final_dated A w df table Ep Hd).
    unfold after_movie, after_range, App.audience_section, App.movie_data.
    destruct (App.selectbox (App.movie_names df) (App.movie_index w)) as [name|].
    + unfold App.truthy. destruct (String.eqb name "") eqn:En; cbn [negb];
        [apply String.eqb_eq in En | apply String.eqb_neq in En];
        destruct (App.date_range w) as [|d1 [|d2 [|d3 rest]]];
        (split; [reflexivity|]); (split; [reflexivity|]);
        (split; [lookup; cbn [List.length]; split; finish|]);
        (split; [reflexivity|]); (split; [reflexivity|]);
        lookup; split; finish.
    + destruct (App.date_range w) as [|d1 [|d2 [|d3 rest]]];
        (split; [reflexivity|]); (split; [reflexivity|]);
        (split; [lookup; cbn [List.length]; split; finish|]);
        (split; [reflexivity|]); (split; [reflexivity|]);
        lookup; split; trivial.
  - intros Hd. rewrite (script_final_undated A w df table Ep Hd).
    split; [reflexivity|]. split; [reflexivity|].
    intros x Hx. repeat (destruct Hx as [<-|Hx]; [reflexivity|]). destruct Hx.
Qed.

Lemma conditional_sections_witness :
  forallb known_column (App.selected_columns (App.mkWidgets [] [mkDate 2024 1 1] 0)) = true /\
  dated (App.load_data Pandas.ns_bounds raw_scenario) /\
  App.env (App.exec (App.script sample_argsort (App.mkWidgets [] [mkDate 2024 1 1] 0))
                    (App.loaded Pandas.ns_bounds raw_scenario)) "audience_data" = None /\
  App.deref (App.exec (App.script sample_argsort (App.mkWidgets [] [mkDate 2024 1 1] 0))
                      (App.loaded Pandas.ns_bounds raw_scenario)) "movie_data" =
    Some (App.OSeries [App.mkSeriesRow (Some (mkDate 2024 1 1)) 100 1000;
                       App.mkSeriesRow None 200 2000]).
Proof.
  assert (Hd : dated (App.load_data Pandas.ns_bounds raw_scenario)).
  { eexists. exists (mkDate 2024 1 1). split; [left; reflexivity | reflexivity]. }
  split; [reflexivity|]. split; [exact Hd|].
  pose proof (conditional_sections Pandas.ns_bounds sample_argsort
                (App.mkWidgets [] [mkDate 2024 1 1] 0) raw_scenario eq_refl) as [H _].
  destruct (H Hd) as [_ [_ [Ha [_ [Hm _]]]]].
  split; [apply Ha; simpl; lia | exact Hm].
Defined.
